(** * Flocculant preparation assistant: the calculation core

    A shallow embedding of the two variants of the tool,

    - [App]  : [app.py], the first pass (a module-level Streamlit script);
    - [Mode] : [mode_flocculant_agent.py], the mode-aware rewrite with
               validation and a session dictionary;

    followed by the properties of the solution calculator, the dilution
    calculator, the input validator and the step handlers.

    Numbers.  Amounts and percentages are Python floats in the source.
    [App], [Mode] and [Session] keep them as rationals [Q] and compute
    without rounding; they carry the properties that depend on the
    comparisons, the control flow and the session only.  What depends on
    the value of a product, a quotient or a difference is stated on
    [Rounded], the calculators and the two button handlers once more with
    every operation rounded to binary64 as in [Float64], finite numbers,
    infinities and NaN.  [Binary64] has the same expressions on the
    hardware floats, against which the examples are checked.  The one
    float operation that can raise, a division by zero, raises.

    Effects.  The rewrite logs, writes messages to the page and keeps its
    results in [st.session_state].  These are modelled by an explicit
    [World] threaded through a small state-and-exception monad [M]. *)

From Stdlib Require Import QArith Qabs Qround Qpower Lqa String List Bool.
From Stdlib Require Import Floats.PrimFloat Floats.SpecFloat Floats.FloatOps.
From stdpp Require Import gmap strings.
Import ListNotations.

Local Open Scope string_scope.
Local Open Scope Q_scope.

(** ** Python values shared by the two variants *)

Module Py.

(** The comparisons of the source, as booleans. *)
Definition le (x y : Q) : bool := Qle_bool x y.
Definition ge (x y : Q) : bool := Qle_bool y x.
Definition gt (x y : Q) : bool := negb (Qle_bool x y).
Definition ne (x y : Q) : bool := negb (Qeq_bool x y).

(** [xs.append(x)]. *)
Definition append {A : Type} (xs : list A) (x : A) : list A := (xs ++ [x])%list.

(** The truth value of a list: [if errors:]. *)
Definition truthy {A : Type} (xs : list A) : bool :=
  match xs with
  | [] => false
  | _ :: _ => true
  end.

(** A value stored in one of the result dictionaries: a float or a str. *)
Inductive value : Type :=
| VFloat (x : Q)
| VStr (s : string).

(** The exceptions the modelled code can raise, with the text [str(e)]
    prints.  [StopException] is what [st.stop()] raises to end the script
    run. *)
Inductive exn : Type :=
| ValueError (msg : string)
| KeyError (key : string)
| AttributeError (name : string)
| TypeError (msg : string)
| ZeroDivisionError (msg : string)
| StopException.

(** [str(e)]. *)
Definition str (e : exn) : string :=
  match e with
  | ValueError msg => msg
  | KeyError key => "'" ++ key ++ "'"
  | AttributeError name => "st.session_state has no attribute " ++ name
  | TypeError msg => msg
  | ZeroDivisionError msg => msg
  | StopException => ""
  end.

(** [except Exception] does not catch Streamlit's script-control
    exception, which derives from [BaseException]. *)
Definition is_Exception (e : exn) : bool :=
  match e with
  | StopException => false
  | _ => true
  end.

(** An f-string: literal pieces and floats rendered with a fixed number of
    decimals ([{x:.2f}], [{x:.0f}]).  The rendering itself is presentation;
    the model keeps the number. *)
Inductive piece : Type :=
| Lit (s : string)
| Fixed (decimals : nat) (x : Q).

Definition text : Type := list piece.

End Py.

Notation "x <=? y" := (Py.le x y) : Q_scope.
Notation "x >=? y" := (Py.ge x y) : Q_scope.
Notation "x >? y" := (Py.gt x y) : Q_scope.

(** ** app.py *)

Module App.

(** [calculate_solution], lines 7-11. *)
Definition calculate_solution (target_amount concentration : Q) : Q * Q :=
  let frac := concentration / 100 in
  let emulsion := target_amount * frac in
  let water := target_amount - emulsion in
  (emulsion, water).

(** Step 1 of the script, lines 90-91: the split of the stock solution and
    the flag that opens step 2. *)
Definition step1 (stock_amount stock_conc : Q) : (Q * Q) * bool :=
  let '(emul, wat) := calculate_solution stock_amount stock_conc in
  let step1_complete := (stock_amount >? 0) && (stock_conc >? 0) in
  ((emul, wat), step1_complete).

(** Step 2 of the script, lines 137-138: [stock_needed] and [water_needed]
    come from the same [calculate_solution]; the stock concentration of
    step 1 is not an argument. *)
Definition step2 (final_amount final_conc : Q) : (Q * Q) * bool :=
  let '(stock_needed, water_needed) := calculate_solution final_amount final_conc in
  let step2_complete := (final_amount >? 0) && (final_conc >? 0) in
  ((stock_needed, water_needed), step2_complete).

End App.

(** ** mode_flocculant_agent.py *)

Module Mode.

Import Py.

(** *** Session state, log and page *)

(** [st.session_state] after [init_session_state]: one field per key.  The
    two result dictionaries are Python dicts. *)
Record SessionState : Type := {
  mode : string;
  unit_type : string;
  step1_completed : bool;
  step2_completed : bool;
  stock_calculations : gmap string value;
  dilution_calculations : gmap string value;
  stock_amount : Q;
  stock_conc : option Q;  (* [None]: the key is not in the session state *)
  final_amount : Q;
  final_conc : Q
}.

Definition set_step1_completed (v : bool) (s : SessionState) : SessionState :=
  {| mode := mode s; unit_type := unit_type s;
     step1_completed := v; step2_completed := step2_completed s;
     stock_calculations := stock_calculations s;
     dilution_calculations := dilution_calculations s;
     stock_amount := stock_amount s; stock_conc := stock_conc s;
     final_amount := final_amount s; final_conc := final_conc s |}.

Definition set_step2_completed (v : bool) (s : SessionState) : SessionState :=
  {| mode := mode s; unit_type := unit_type s;
     step1_completed := step1_completed s; step2_completed := v;
     stock_calculations := stock_calculations s;
     dilution_calculations := dilution_calculations s;
     stock_amount := stock_amount s; stock_conc := stock_conc s;
     final_amount := final_amount s; final_conc := final_conc s |}.

Definition set_stock_calculations (v : gmap string value) (s : SessionState)
  : SessionState :=
  {| mode := mode s; unit_type := unit_type s;
     step1_completed := step1_completed s; step2_completed := step2_completed s;
     stock_calculations := v;
     dilution_calculations := dilution_calculations s;
     stock_amount := stock_amount s; stock_conc := stock_conc s;
     final_amount := final_amount s; final_conc := final_conc s |}.

Definition set_dilution_calculations (v : gmap string value) (s : SessionState)
  : SessionState :=
  {| mode := mode s; unit_type := unit_type s;
     step1_completed := step1_completed s; step2_completed := step2_completed s;
     stock_calculations := stock_calculations s;
     dilution_calculations := v;
     stock_amount := stock_amount s; stock_conc := stock_conc s;
     final_amount := final_amount s; final_conc := final_conc s |}.

Definition set_stock_amount (v : Q) (s : SessionState) : SessionState :=
  {| mode := mode s; unit_type := unit_type s;
     step1_completed := step1_completed s; step2_completed := step2_completed s;
     stock_calculations := stock_calculations s;
     dilution_calculations := dilution_calculations s;
     stock_amount := v; stock_conc := stock_conc s;
     final_amount := final_amount s; final_conc := final_conc s |}.

Definition set_stock_conc (v : Q) (s : SessionState) : SessionState :=
  {| mode := mode s; unit_type := unit_type s;
     step1_completed := step1_completed s; step2_completed := step2_completed s;
     stock_calculations := stock_calculations s;
     dilution_calculations := dilution_calculations s;
     stock_amount := stock_amount s; stock_conc := Some v;
     final_amount := final_amount s; final_conc := final_conc s |}.

(** The logger and the page: what [logger.info], [logger.error],
    [st.error] and [st.warning] append, oldest first. *)
Inductive level : Type := INFO | ERROR.

Inductive element : Type :=
| StError (msg : text)
| StWarning (msg : text).

Record World : Type := {
  session_state : SessionState;
  log : list (level * text);
  page : list element
}.

(** *** The monad of the script: state and exceptions *)

Inductive outcome (A : Type) : Type :=
| Returned (a : A) (w : World)
| Raised (e : exn) (w : World).
Arguments Returned {A} a w.
Arguments Raised {A} e w.

Definition M (A : Type) : Type := World -> outcome A.

Definition ret {A : Type} (a : A) : M A := fun w => Returned a w.

Definition bind {A B : Type} (m : M A) (k : A -> M B) : M B :=
  fun w =>
    match m w with
    | Returned a w' => k a w'
    | Raised e w' => Raised e w'
    end.

Definition raise {A : Type} (e : exn) : M A := fun w => Raised e w.

(** [try: body  except Exception as e: handler]. *)
Definition try_except {A : Type} (body : M A) (handler : exn -> M A) : M A :=
  fun w =>
    match body w with
    | Returned a w' => Returned a w'
    | Raised e w' => if is_Exception e then handler e w' else Raised e w'
    end.

Declare Scope py_scope.
Delimit Scope py_scope with py.
Notation "'let*' x ':=' m 'in' k" := (bind m (fun x => k))
  (at level 10, x name, m at level 100, k at level 200) : py_scope.
Notation "'let*' ' pat ':=' m 'in' k" :=
  (bind m (fun x => match x with pat => k end))
  (at level 10, pat pattern, m at level 100, k at level 200) : py_scope.
Notation "m ';;' k" := (bind m (fun _ => k))
  (at level 100, k at level 200, right associativity) : py_scope.
Local Open Scope py_scope.

Definition get_session_state : M SessionState :=
  fun w => Returned (session_state w) w.

Definition update (f : SessionState -> SessionState) : M unit :=
  fun w => Returned tt {| session_state := f (session_state w);
                          log := log w; page := page w |}.

Definition logger_info (msg : text) : M unit :=
  fun w => Returned tt {| session_state := session_state w;
                          log := log w ++ [(INFO, msg)]; page := page w |}.

Definition logger_error (msg : text) : M unit :=
  fun w => Returned tt {| session_state := session_state w;
                          log := log w ++ [(ERROR, msg)]; page := page w |}.

Definition st_error (msg : text) : M unit :=
  fun w => Returned tt {| session_state := session_state w;
                          log := log w; page := page w ++ [StError msg] |}.

Definition st_warning (msg : text) : M unit :=
  fun w => Returned tt {| session_state := session_state w;
                          log := log w; page := page w ++ [StWarning msg] |}.

Definition st_stop {A : Type} : M A := raise StopException.

(** [for x in xs: body(x)]. *)
Fixpoint for_each {A : Type} (xs : list A) (body : A -> M unit) : M unit :=
  match xs with
  | [] => ret tt
  | x :: rest => body x ;; for_each rest body
  end.

(** [d[key]]. *)
Definition getitem (d : gmap string value) (key : string) : M value :=
  match d !! key with
  | Some v => ret v
  | None => raise (KeyError key)
  end.

(** A dictionary entry used as a float operand; a str there is a
    [TypeError] with the text given. *)
Definition as_float (msg : string) (v : value) : M Q :=
  match v with
  | VFloat x => ret x
  | VStr _ => raise (TypeError msg)
  end.

(** [x / y] on floats. *)
Definition truediv (x y : Q) : M Q :=
  if Qeq_bool y 0 then raise (ZeroDivisionError "float division by zero")
  else ret (x / y).

(** [st.session_state.stock_conc]. *)
Definition attr_stock_conc : M Q :=
  let* s := get_session_state in
  match stock_conc s with
  | Some x => ret x
  | None => raise (AttributeError "stock_conc")
  end.

(** *** Constants: [DEFAULT_VALUES], lines 15-20 *)

Definition DEFAULT_stock_amount : Q := 50.
Definition DEFAULT_stock_conc : Q := 1.
Definition DEFAULT_final_amount : Q := 200.
Definition DEFAULT_final_conc : Q := 0.1.

(** *** Functions *)

(** The body of the [try] block of [calculate_solution], lines 46-54. *)
Definition calculate_solution_try (amount concentration : Q) : M (Q * Q) :=
  if (amount <=? 0) || (concentration <=? 0)
  then raise (ValueError "Amount and concentration must be positive")
  else
    let fraction := concentration / 100 in
    let solute_amount := amount * fraction in
    let solvent_amount := amount - solute_amount in
    logger_info [Lit "Calculated: "; Fixed 2 solute_amount; Lit " solute, ";
                 Fixed 2 solvent_amount; Lit " solvent"] ;;
    ret (solute_amount, solvent_amount).

(** [calculate_solution], lines 34-59. *)
Definition calculate_solution (amount concentration : Q) : M (Q * Q) :=
  try_except (calculate_solution_try amount concentration)
    (fun e =>
       logger_error [Lit ("Calculation error: " ++ str e)] ;;
       st_error [Lit ("Calculation error: " ++ str e)] ;;
       ret (0, 0)).

(** [validate_inputs], lines 61-92.  It reads [st.session_state]. *)
Definition validate_inputs (st : SessionState) (amount concentration : Q)
    (step_name : string) : list string :=
  let errors := [] in
  let errors :=
    if amount <=? 0
    then append errors (step_name ++ ": Amount must be greater than 0")
    else errors in
  let errors :=
    if concentration <=? 0
    then append errors (step_name ++ ": Concentration must be greater than 0")
    else errors in
  let errors :=
    if concentration >=? 100
    then append errors (step_name ++ ": Concentration must be less than 100%")
    else errors in
  let errors :=
    if String.eqb step_name "Final Dilution"
    then match stock_conc st with
         | Some session_stock_conc =>
             if concentration >=? session_stock_conc
             then append errors ("Final concentration should be lower than stock concentration")
             else errors
         | None => errors
         end
    else errors in
  let errors :=
    if amount >? 10000
    then append errors (step_name ++ ": Amount seems unreasonably large (>10000)")
    else errors in
  errors.

(** The session state [init_session_state] leaves on a new session,
    lines 284-297. *)
Definition init_session_state : SessionState :=
  {| mode := "Manual Input";
     unit_type := "Weight (g) / % w/w";
     step1_completed := false;
     step2_completed := false;
     stock_calculations := ∅;
     dilution_calculations := ∅;
     stock_amount := DEFAULT_stock_amount;
     stock_conc := Some DEFAULT_stock_conc;
     final_amount := DEFAULT_final_amount;
     final_conc := DEFAULT_final_conc |}.

(** [reset_calculations], lines 299-304. *)
Definition reset_calculations : M unit :=
  update (set_step1_completed false) ;;
  update (set_step2_completed false) ;;
  update (set_stock_calculations ∅) ;;
  update (set_dilution_calculations ∅).

(** *** The tabs of [main] *)

(** Tab 1, manual mode, lines 430-434: the two number inputs. *)
Definition stock_inputs (new_amount new_conc : Q) : M unit :=
  let changed :=
    update (set_stock_amount new_amount) ;;
    update (set_stock_conc new_conc) ;;
    reset_calculations in
  let* s := get_session_state in
  if ne new_amount (stock_amount s) then changed
  else
    let* conc := attr_stock_conc in
    if ne new_conc conc then changed else ret tt.

(** Tab 1, lines 442-459: the button "Calculate Stock Solution". *)
Definition calculate_stock_solution (unit_ conc_unit : string) : M unit :=
  let* s := get_session_state in
  let* conc := attr_stock_conc in
  let errors := validate_inputs s (stock_amount s) conc "Stock Solution" in
  if truthy errors then
    for_each errors (fun err => st_error [Lit err]) ;;
    update (set_step1_completed false)
  else
    let* '(emulsion, water) := calculate_solution (stock_amount s) conc in
    update (set_stock_calculations
              (list_to_map
                 [ ("emulsion_needed", VFloat emulsion);
                   ("water_needed", VFloat water);
                   ("stock_amount", VFloat (stock_amount s));
                   ("stock_conc", VFloat conc);
                   ("unit", VStr unit_);
                   ("conc_unit", VStr conc_unit) ])) ;;
    update (set_step1_completed true).

(** Tab 1, lines 405-459, up to the display of the results. *)
Definition tab1 (new_amount new_conc : Q) (clicked : bool)
    (unit_ conc_unit : string) : M unit :=
  let* s := get_session_state in
  (if String.eqb (mode s) "Manual Input"
   then stock_inputs new_amount new_conc
   else ret tt) ;;
  if clicked then calculate_stock_solution unit_ conc_unit else ret tt.

(** Tab 2, lines 490-492: nothing of the tab runs before step 1 is done. *)
Definition tab2_gate : M unit :=
  let* s := get_session_state in
  if negb (step1_completed s) then
    st_warning [Lit "⚠️ Please complete the Stock Solution calculation first."] ;;
    st_stop
  else ret tt.

(** Tab 2, manual mode, lines 518-522: the two number inputs. *)
Definition final_inputs (new_final_amount new_final_conc : Q) : M unit :=
  let* s := get_session_state in
  if ne new_final_amount (final_amount s) || ne new_final_conc (final_conc s)
  then
    update (fun s =>
      {| mode := mode s; unit_type := unit_type s;
         step1_completed := step1_completed s;
         step2_completed := step2_completed s;
         stock_calculations := stock_calculations s;
         dilution_calculations := dilution_calculations s;
         stock_amount := stock_amount s; stock_conc := stock_conc s;
         final_amount := new_final_amount; final_conc := new_final_conc |}) ;;
    update (set_step2_completed false)
  else ret tt.

(** Tab 2, lines 539-547: the dilution from the stock of step 1,
    C1V1 = C2V2 so V1 = C2V2/C1.  It returns [stock_needed], [water_needed]
    and [available_stock]. *)
Definition dilution (stock_calculations : gmap string value)
    (final_conc final_amount : Q) : M (Q * Q * Q) :=
  let* stock_conc := getitem stock_calculations "stock_conc" in
  let* c1 := as_float "unsupported operand type(s) for /: 'float' and 'str'"
               stock_conc in
  let* stock_needed := truediv (final_conc * final_amount) c1 in
  let water_needed := final_amount - stock_needed in
  let* available_stock := getitem stock_calculations "stock_amount" in
  let* available :=
    as_float "'>' not supported between instances of 'float' and 'str'"
      available_stock in
  ret (stock_needed, water_needed, available).

(** Tab 2, lines 530-561: the button "Calculate Final Dilution". *)
Definition calculate_final_dilution (unit_ conc_unit : string) : M unit :=
  let* s := get_session_state in
  let errors :=
    validate_inputs s (final_amount s) (final_conc s) "Final Dilution" in
  if truthy errors then
    for_each errors (fun err => st_error [Lit err]) ;;
    update (set_step2_completed false)
  else
    let final_conc := final_conc s in
    let final_amount := final_amount s in
    let* '(stock_needed, water_needed, available_stock) :=
      dilution (stock_calculations s) final_conc final_amount in
    if stock_needed >? available_stock then
      st_error [Lit "❌ Insufficient stock solution! Need "; Fixed 2 stock_needed;
                Lit (" " ++ unit_ ++ ", but only "); Fixed 2 available_stock;
                Lit (" " ++ unit_ ++ " available.")] ;;
      update (set_step2_completed false)
    else
      update (set_dilution_calculations
                (list_to_map
                   [ ("stock_needed", VFloat stock_needed);
                     ("water_needed", VFloat water_needed);
                     ("final_amount", VFloat final_amount);
                     ("final_conc", VFloat final_conc);
                     ("unit", VStr unit_);
                     ("conc_unit", VStr conc_unit) ])) ;;
      update (set_step2_completed true).

(** Tab 2, lines 489-561, up to the display of the results. *)
Definition tab2 (new_final_amount new_final_conc : Q) (clicked : bool)
    (unit_ conc_unit : string) : M unit :=
  tab2_gate ;;
  let* s := get_session_state in
  (if String.eqb (mode s) "Manual Input"
   then final_inputs new_final_amount new_final_conc
   else ret tt) ;;
  if clicked then calculate_final_dilution unit_ conc_unit else ret tt.

End Mode.

(** ** Sessions used as examples *)

Module Scenario.

Import Py Mode.

(** A new session: the defaults, an empty log and an empty page. *)
Definition new_session : World :=
  {| session_state := init_session_state; log := []; page := [] |}.

(** The world a computation leaves. *)
Definition after {A : Type} (m : M A) (w : World) : World :=
  match m w with
  | Returned _ w' => w'
  | Raised _ w' => w'
  end.

(** Step 1 done in manual mode, in grams: [amount] of stock at [conc] %. *)
Definition stock_prepared (amount conc : Q) : World :=
  after (tab1 amount conc true "g" "% w/w") new_session.

(** Step 1 done, then the final amount and concentration typed in. *)
Definition dilution_requested (amount conc final_amount final_conc : Q) : World :=
  after (tab2 final_amount final_conc false "g" "% w/w")
        (stock_prepared amount conc).



End Scenario.

(** ** The validator as the specification words it

    Five rules in a fixed order, each with its message; the validator
    returns the messages of the violated rules, in that order. *)

Module Rules.

Import Py Mode.

Inductive rule : Type :=
| AmountPositive
| ConcentrationPositive
| ConcentrationBelow100
| BelowStockConcentration
| AmountWithinBound.

Definition all_rules : list rule :=
  [AmountPositive; ConcentrationPositive; ConcentrationBelow100;
   BelowStockConcentration; AmountWithinBound].

(** What a rule demands of the inputs. *)
Definition passes (st : SessionState) (amount concentration : Q)
    (step_name : string) (r : rule) : Prop :=
  match r with
  | AmountPositive => 0 < amount
  | ConcentrationPositive => 0 < concentration
  | ConcentrationBelow100 => concentration < 100
  | BelowStockConcentration =>
      step_name = "Final Dilution" ->
      forall prior, stock_conc st = Some prior -> concentration < prior
  | AmountWithinBound => amount <= 10000
  end.

(** Whether a rule is violated, decided. *)
Definition violated (st : SessionState) (amount concentration : Q)
    (step_name : string) (r : rule) : bool :=
  match r with
  | AmountPositive => if Qlt_le_dec 0 amount then false else true
  | ConcentrationPositive => if Qlt_le_dec 0 concentration then false else true
  | ConcentrationBelow100 => if Qlt_le_dec concentration 100 then false else true
  | BelowStockConcentration =>
      if string_dec step_name "Final Dilution"
      then match stock_conc st with
           | Some prior => if Qlt_le_dec concentration prior then false else true
           | None => false
           end
      else false
  | AmountWithinBound => if Qlt_le_dec 10000 amount then true else false
  end.

(** The message of a rule, as the code words it. *)
Definition message (step_name : string) (r : rule) : string :=
  match r with
  | AmountPositive => step_name ++ ": Amount must be greater than 0"
  | ConcentrationPositive => step_name ++ ": Concentration must be greater than 0"
  | ConcentrationBelow100 => step_name ++ ": Concentration must be less than 100%"
  | BelowStockConcentration =>
      "Final concentration should be lower than stock concentration"
  | AmountWithinBound => step_name ++ ": Amount seems unreasonably large (>10000)"
  end.

Definition validate (st : SessionState) (amount concentration : Q)
    (step_name : string) : list string :=
  List.map (message step_name)
    (List.filter (violated st amount concentration step_name) all_rules).

End Rules.

(** ** What step 1 leaves for step 2

    Once step 1 is completed, its dictionary holds the stock amount and the
    stock concentration of the session, both validated. *)

Module Invariant.

Import Py Mode.

Definition consistent (s : SessionState) : Prop :=
  step1_completed s = true ->
  exists c,
    stock_conc s = Some c
    /\ stock_calculations s !! "stock_conc" = Some (VFloat c)
    /\ stock_calculations s !! "stock_amount" = Some (VFloat (stock_amount s))
    /\ 0 < c < 100
    /\ 0 < stock_amount s <= 10000.

(** Two sessions with the same step 1. *)
Definition same_stock (s s' : SessionState) : Prop :=
  step1_completed s' = step1_completed s
  /\ stock_conc s' = stock_conc s
  /\ stock_calculations s' = stock_calculations s
  /\ stock_amount s' = stock_amount s.

(** The worlds a session goes through: a new session, then runs of the
    first two tabs with any inputs. *)
Inductive reachable : World -> Prop :=
| reachable_new : reachable Scenario.new_session
| reachable_tab1 w new_amount new_conc clicked unit_ conc_unit :
    reachable w ->
    reachable (Scenario.after (tab1 new_amount new_conc clicked unit_ conc_unit) w)
| reachable_tab2 w new_final_amount new_final_conc clicked unit_ conc_unit :
    reachable w ->
    reachable (Scenario.after
                 (tab2 new_final_amount new_final_conc clicked unit_ conc_unit) w).

End Invariant.

(** ** The script run: [main] of mode_flocculant_agent.py

    The parts of [main] around the two tabs: the sidebar, the mode and unit
    selectors, the recipe presets, the display of the results and the
    summary of tab 3.  What [st.success], [st.metric], [st.markdown] and
    [st.dataframe] put on the page is not recorded (the page holds errors
    and warnings); the reads these displays make of the dictionaries are,
    with the exceptions they can raise.  The two report generators belong
    to the PDF and spreadsheet libraries and are not modelled. *)

Module Session.

Import Py Mode.
Local Open Scope py_scope.

Definition set_mode (v : string) (s : SessionState) : SessionState :=
  {| mode := v; unit_type := unit_type s;
     step1_completed := step1_completed s; step2_completed := step2_completed s;
     stock_calculations := stock_calculations s;
     dilution_calculations := dilution_calculations s;
     stock_amount := stock_amount s; stock_conc := stock_conc s;
     final_amount := final_amount s; final_conc := final_conc s |}.

Definition set_unit_type (v : string) (s : SessionState) : SessionState :=
  {| mode := mode s; unit_type := v;
     step1_completed := step1_completed s; step2_completed := step2_completed s;
     stock_calculations := stock_calculations s;
     dilution_calculations := dilution_calculations s;
     stock_amount := stock_amount s; stock_conc := stock_conc s;
     final_amount := final_amount s; final_conc := final_conc s |}.

(** [SOP_PRESETS], lines 22-26: recipe name to (amount, conc). *)
Definition SOP_PRESETS : gmap string (Q * Q) :=
  list_to_map
    [ ("1% Latex Stock (200 g)", (200, 1));
      ("0.3% Dry Floc Stock (200 g)", (200, 0.3));
      ("0.1% Working Solution from 1%", (200, 0.1)) ].

(** [UNIT_CONFIGS], lines 28-31: unit system to (unit, conc_unit). *)
Definition UNIT_CONFIGS : gmap string (string * string) :=
  list_to_map
    [ ("Weight (g) / % w/w", ("g", "% w/w"));
      ("Volume (mL) / % v/v", ("mL", "% v/v")) ].

(** [init_session_state], lines 284-297, on a session that has its keys:
    [setdefault] changes no key that is present, so only a missing
    [stock_conc] takes its default. *)
Definition setdefaults : M unit :=
  update (fun s =>
    match stock_conc s with
    | Some _ => s
    | None => set_stock_conc DEFAULT_stock_conc s
    end).

(** [get_unit_config], lines 306-308. *)
Definition get_unit_config : M (string * string) :=
  let* s := get_session_state in
  match UNIT_CONFIGS !! unit_type s with
  | Some config => ret config
  | None => ret ("g", "% w/w")
  end.

(** The mode selector, lines 372-376. *)
Definition mode_radio (new_mode : string) : M unit :=
  let* s := get_session_state in
  if negb (String.eqb new_mode (mode s)) then
    update (set_mode new_mode) ;;
    reset_calculations
  else ret tt.

(** The unit selector, lines 379-386; it returns the unit configuration
    the rest of the run uses. *)
Definition unit_radio (new_unit_type : string) (unit_config : string * string)
  : M (string * string) :=
  let* s := get_session_state in
  if negb (String.eqb new_unit_type (unit_type s)) then
    update (set_unit_type new_unit_type) ;;
    reset_calculations ;;
    get_unit_config
  else ret unit_config.

(** The recipe selector, lines 389-399. *)
Definition sop_preset (selected_preset : string) : M unit :=
  let* s := get_session_state in
  if String.eqb (mode s) "SOP-Driven" then
    match SOP_PRESETS !! selected_preset with
    | None => raise (KeyError selected_preset)
    | Some (amount, conc) =>
        let changed :=
          update (set_stock_amount amount) ;;
          update (set_stock_conc conc) ;;
          reset_calculations in
        if ne (stock_amount s) amount then changed
        else
          let* session_conc := attr_stock_conc in
          if ne session_conc conc then changed else ret tt
    end
  else ret tt.

(** [f"{v:.Nf}"]: a float is rendered, a str is refused. *)
Definition format_f (decimals : nat) (v : value) : M piece :=
  match v with
  | VFloat x => ret (Fixed decimals x)
  | VStr _ =>
      raise (ValueError "Unknown format code 'f' for object of type 'str'")
  end.

(** [f"{d[key]:.Nf}"]. *)
Definition shown (d : gmap string value) (key : string) (decimals : nat)
  : M piece :=
  let* v := getitem d key in
  format_f decimals v.

(** [v * 2]: a float is doubled, a str is repeated. *)
Definition times2 (v : value) : value :=
  match v with
  | VFloat x => VFloat (x * 2)
  | VStr t => VStr (t ++ t)
  end.

Definition type_name (v : value) : string :=
  match v with
  | VFloat _ => "float"
  | VStr _ => "str"
  end.

(** [a - b] on two dictionary entries. *)
Definition sub (a b : value) : M Q :=
  match a, b with
  | VFloat x, VFloat y => ret (x - y)
  | _, _ =>
      raise (TypeError ("unsupported operand type(s) for -: '" ++ type_name a
                        ++ "' and '" ++ type_name b ++ "'"))
  end.

(** Tab 1, lines 462-486: the results of step 1, shown while the step is
    completed.  It returns the numbers shown: three metrics, then the four
    numbers of the instructions. *)
Definition stock_results : M (list piece) :=
  let* s := get_session_state in
  if step1_completed s then
    let calc := stock_calculations s in
    let* emulsion_metric := shown calc "emulsion_needed" 2 in
    let* water_metric := shown calc "water_needed" 2 in
    let* total_metric := shown calc "stock_amount" 2 in
    let* amount := getitem calc "stock_amount" in
    let beaker_volume := times2 amount in
    let* beaker := format_f 0 beaker_volume in
    let* water := shown calc "water_needed" 2 in
    let* emulsion := shown calc "emulsion_needed" 2 in
    let* bottle := shown calc "stock_amount" 0 in
    ret [emulsion_metric; water_metric; total_metric;
         beaker; water; emulsion; bottle]
  else ret [].

(** Tab 2, lines 564-588: the results of step 2, shown while the step is
    completed. *)
Definition dilution_results : M (list piece) :=
  let* s := get_session_state in
  if step2_completed s then
    let calc := dilution_calculations s in
    let* stock_metric := shown calc "stock_needed" 2 in
    let* water_metric := shown calc "water_needed" 2 in
    let* final_metric := shown calc "final_amount" 2 in
    let* amount := getitem calc "final_amount" in
    let bottle_volume := times2 amount in
    let* bottle := format_f 0 bottle_volume in
    let* water := shown calc "water_needed" 2 in
    let* stock := shown calc "stock_needed" 2 in
    let* small_bottle := shown calc "stock_needed" 0 in
    ret [stock_metric; water_metric; final_metric;
         bottle; water; stock; small_bottle]
  else ret [].

(** Tab 3, lines 593-595: no report before step 2 is done. *)
Definition tab3_gate : M unit :=
  let* s := get_session_state in
  if negb (step2_completed s) then
    st_warning [Lit "⚠️ Please complete both calculation steps before generating reports."] ;;
    st_stop
  else ret tt.

(** Tab 3, lines 600-614: the rows of the summary table, a parameter and
    its value with its unit. *)
Definition summary (unit_ conc_unit : string) : M (list (string * text)) :=
  let* s := get_session_state in
  let stock := stock_calculations s in
  let final := dilution_calculations s in
  let* v1 := shown stock "stock_amount" 2 in
  let* v2 := shown stock "stock_conc" 2 in
  let* v3 := shown stock "emulsion_needed" 2 in
  let* v4 := shown stock "water_needed" 2 in
  let* v5 := shown final "final_amount" 2 in
  let* v6 := shown final "final_conc" 2 in
  let* v7 := shown final "stock_needed" 2 in
  let* v8 := shown final "water_needed" 2 in
  ret [ ("Stock Amount", [v1; Lit (" " ++ unit_)]);
        ("Stock Concentration", [v2; Lit (" " ++ conc_unit)]);
        ("Emulsion Required", [v3; Lit (" " ++ unit_)]);
        ("Water for Stock", [v4; Lit (" " ++ unit_)]);
        ("Final Amount", [v5; Lit (" " ++ unit_)]);
        ("Final Concentration", [v6; Lit (" " ++ conc_unit)]);
        ("Stock Solution Used", [v7; Lit (" " ++ unit_)]);
        ("Water for Dilution", [v8; Lit (" " ++ unit_)]) ].

(** Tab 3, lines 618-630: the material balance.  It returns the three
    metrics shown (available, used, remaining) and the stock remaining. *)
Definition material_balance : M (list piece * Q) :=
  let* s := get_session_state in
  let stock := stock_calculations s in
  let final := dilution_calculations s in
  let* stock_used := getitem final "stock_needed" in
  let* stock_available := getitem stock "stock_amount" in
  let* stock_remaining := sub stock_available stock_used in
  let* available := format_f 2 stock_available in
  let* used := format_f 2 stock_used in
  ret ([available; used; Fixed 2 stock_remaining], stock_remaining).

(** Tab 3, lines 592-630, up to the two download buttons. *)
Definition tab3 (unit_ conc_unit : string)
  : M (list (string * text) * (list piece * Q)) :=
  tab3_gate ;;
  let* rows := summary unit_ conc_unit in
  let* balance := material_balance in
  ret (rows, balance).

(** The widgets of one run of the script. *)
Record Inputs : Type := {
  reset_clicked : bool;
  chosen_mode : string;
  chosen_unit_type : string;
  selected_preset : string;
  stock_amount_input : Q;
  stock_conc_input : Q;
  stock_clicked : bool;
  final_amount_input : Q;
  final_conc_input : Q;
  final_clicked : bool
}.

(** What the widgets can return: the two modes, the keys of
    [UNIT_CONFIGS] and the keys of [SOP_PRESETS]. *)
Definition offered (i : Inputs) : Prop :=
  (chosen_mode i = "Manual Input" \/ chosen_mode i = "SOP-Driven")
  /\ is_Some (UNIT_CONFIGS !! chosen_unit_type i)
  /\ is_Some (SOP_PRESETS !! selected_preset i).

(** The sidebar, lines 331-361: help texts, and the one call that writes a
    warning, on every run. *)
Definition safety_reminders : text :=
  [Lit "
        - Wear appropriate PPE.
        - Follow local safety protocols
        "].

Definition sidebar : M unit := st_warning safety_reminders.

(** [st.rerun()], line 368: nothing more of this run is executed, and the
    script is run again.  The run ends here, returning; the rerun is the
    next run of a session. *)
Definition st_rerun : M unit := ret tt.

(** [main], lines 311-630, one run. *)
Definition main (i : Inputs) : M unit :=
  setdefaults ;;
  let* unit_config := get_unit_config in
  sidebar ;;
  if reset_clicked i then
    reset_calculations ;;
    st_rerun
  else
    mode_radio (chosen_mode i) ;;
    let* unit_config := unit_radio (chosen_unit_type i) unit_config in
    sop_preset (selected_preset i) ;;
    let unit_ := fst unit_config in
    let conc_unit := snd unit_config in
    tab1 (stock_amount_input i) (stock_conc_input i) (stock_clicked i)
      unit_ conc_unit ;;
    stock_results ;;
    tab2 (final_amount_input i) (final_conc_input i) (final_clicked i)
      unit_ conc_unit ;;
    dilution_results ;;
    tab3 unit_ conc_unit ;;
    ret tt.

(** The sessions: a new one, then any number of runs. *)
Inductive reachable : World -> Prop :=
| reachable_new : reachable Scenario.new_session
| reachable_run (w : World) (i : Inputs) :
    reachable w -> offered i -> reachable (Scenario.after (main i) w).

(** The widgets of a run in manual mode, in grams, with nothing reset. *)
Definition manual (new_amount new_conc : Q) (click1 : bool)
    (new_final_amount new_final_conc : Q) (click2 : bool) : Inputs :=
  {| reset_clicked := false;
     chosen_mode := "Manual Input";
     chosen_unit_type := "Weight (g) / % w/w";
     selected_preset := "1% Latex Stock (200 g)";
     stock_amount_input := new_amount;
     stock_conc_input := new_conc;
     stock_clicked := click1;
     final_amount_input := new_final_amount;
     final_conc_input := new_final_conc;
     final_clicked := click2 |}.

(** One run in which both buttons are pressed: 200 g of stock at 1 %,
    then 200 g at 0.1 %. *)
Definition both_steps : World :=
  Scenario.after (main (manual 200 1 true 200 0.1 true)) Scenario.new_session.

(** One run in recipe mode in which both buttons are pressed: the recipe
    of 200 g of stock at 0.3 %, then the default 200 g at 0.1 %.  The
    numbers typed in the two tabs are those of a manual run. *)
Definition recipe_run : Inputs :=
  {| reset_clicked := false;
     chosen_mode := "SOP-Driven";
     chosen_unit_type := "Weight (g) / % w/w";
     selected_preset := "0.3% Dry Floc Stock (200 g)";
     stock_amount_input := 70;
     stock_conc_input := 2;
     stock_clicked := true;
     final_amount_input := 300;
     final_conc_input := 0.5;
     final_clicked := true |}.

Definition recipe_steps : World :=
  Scenario.after (main recipe_run) Scenario.new_session.

(** Two sessions with the same mode and the same four numbers. *)
Definition same_inputs (s s' : SessionState) : Prop :=
  mode s' = mode s
  /\ stock_amount s' = stock_amount s /\ stock_conc s' = stock_conc s
  /\ final_amount s' = final_amount s /\ final_conc s' = final_conc s.

(** What a session keeps true between runs. *)
Definition step1_ok (s : SessionState) : Prop :=
  step1_completed s = true ->
  exists c emulsion water,
    stock_conc s = Some c
    /\ stock_calculations s !! "stock_conc" = Some (VFloat c)
    /\ stock_calculations s !! "stock_amount" = Some (VFloat (stock_amount s))
    /\ stock_calculations s !! "emulsion_needed" = Some (VFloat emulsion)
    /\ stock_calculations s !! "water_needed" = Some (VFloat water)
    /\ 0 < c < 100
    /\ 0 < stock_amount s <= 10000
    /\ emulsion == stock_amount s * c / 100
    /\ water == stock_amount s - emulsion.

Definition step2_ok (s : SessionState) : Prop :=
  step2_completed s = true ->
  step1_completed s = true
  /\ exists c stock_needed water_needed,
      stock_conc s = Some c
      /\ dilution_calculations s !! "stock_needed" = Some (VFloat stock_needed)
      /\ dilution_calculations s !! "water_needed" = Some (VFloat water_needed)
      /\ dilution_calculations s !! "final_amount" = Some (VFloat (final_amount s))
      /\ dilution_calculations s !! "final_conc" = Some (VFloat (final_conc s))
      /\ 0 < final_amount s <= 10000
      /\ 0 < final_conc s < c
      /\ stock_needed == final_conc s * final_amount s / c
      /\ water_needed == final_amount s - stock_needed
      /\ stock_needed <= stock_amount s.

Definition ok (s : SessionState) : Prop :=
  is_Some (stock_conc s) /\ step1_ok s /\ step2_ok s.

(** A computation that keeps [ok] and raises nothing but the end of the
    run. *)
Definition good {A : Type} (m : M A) : Prop :=
  forall w, ok (session_state w) ->
    match m w with
    | Returned _ w' => ok (session_state w')
    | Raised e w' => e = StopException /\ ok (session_state w')
    end.

(** A session in which nothing is calculated: what [reset_calculations]
    leaves. *)
Definition cleared (s : SessionState) : Prop :=
  step1_completed s = false /\ step2_completed s = false
  /\ stock_calculations s = ∅ /\ dilution_calculations s = ∅.

(** A computation that returns on a cleared session and leaves it cleared,
    with the same mode and unit system, logging and showing nothing. *)
Definition quiet {A : Type} (m : M A) : Prop :=
  forall w,
    is_Some (stock_conc (session_state w)) -> cleared (session_state w) ->
    exists a w',
      m w = Returned a w'
      /\ is_Some (stock_conc (session_state w'))
      /\ cleared (session_state w')
      /\ mode (session_state w') = mode (session_state w)
      /\ unit_type (session_state w') = unit_type (session_state w)
      /\ log w' = log w /\ page w' = page w.

End Session.

(** ** Binary64 arithmetic

    The numbers Python computes with.  A finite binary64 number is a
    rational [m * 2^e] with [|m| < 2^53] and [-1074 <= e]; the result of
    an operation is its exact value rounded to the nearest such number,
    ties to the even [m], and an infinity when the rounded value reaches
    2^1024. *)

Module Float64.
Local Open Scope Q_scope.

Definition pow2 (e : Z) : Q := 2 ^ e.

(** For a positive [x], the [k] with [2^k <= x < 2^(k+1)]. *)
Definition ilog2 (x : Q) : Z :=
  let k := (Z.log2 (Qnum x) - Z.log2 (Zpos (Qden x)))%Z in
  if Qle_bool (pow2 k) x then k else (k - 1)%Z.

(** The exponent of the unit in the last place at [x]: 52 below the
    exponent of [x], and -1074 in the subnormal range. *)
Definition exponent (x : Q) : Z := Z.max (ilog2 (Qabs x) - 52) (-1074).

(** The nearest integer, ties to even. *)
Definition rne (q : Q) : Z :=
  let f := Qfloor q in
  match Qcompare (q - inject_Z f) (1 # 2) with
  | Lt => f
  | Gt => (f + 1)%Z
  | Eq => if Z.even f then f else (f + 1)%Z
  end.

(** The nearest multiple of the unit in the last place, ties to even:
    the nearest binary64 number as long as it is finite. *)
Definition rnd (x : Q) : Q :=
  if Qeq_bool x 0 then 0
  else inject_Z (rne (x / pow2 (exponent x))) * pow2 (exponent x).

(** A binary64 number: a finite one, which is a rational, an infinity or
    NaN.  The sign of zero is not kept. *)
Inductive float : Type :=
| Finite (x : Q)
| Infinity (negative : bool)
| NaN.

Definition negative (x : Q) : bool := negb (Qle_bool 0 x).

(** The result of an operation whose exact value is [x]: the nearest
    binary64 number, an infinity from 2^1024 on. *)
Definition round (x : Q) : float :=
  let r := rnd x in
  if Qle_bool (pow2 1024) (Qabs r) then Infinity (negative r) else Finite r.

(** A decimal literal, or a number typed into a field. *)
Definition literal (x : Q) : float := round x.

Definition mul (a b : float) : float :=
  match a, b with
  | NaN, _ | _, NaN => NaN
  | Finite x, Finite y => round (x * y)
  | Finite x, Infinity s | Infinity s, Finite x =>
      if Qeq_bool x 0 then NaN else Infinity (xorb s (negative x))
  | Infinity s, Infinity t => Infinity (xorb s t)
  end.

Definition sub (a b : float) : float :=
  match a, b with
  | NaN, _ | _, NaN => NaN
  | Finite x, Finite y => round (x - y)
  | Infinity s, Finite _ => Infinity s
  | Finite _, Infinity t => Infinity (negb t)
  | Infinity s, Infinity t => if Bool.eqb s t then NaN else Infinity s
  end.

(** [a / b] for a divisor that is not zero.  Python tests the divisor
    before it divides ([truediv] in [Rounded]), so a zero divisor, whose
    result would depend on the sign of zero, never gets here. *)
Definition div (a b : float) : float :=
  match a, b with
  | NaN, _ | _, NaN => NaN
  | Finite x, Finite y => round (x / y)
  | Finite _, Infinity _ => Finite 0
  | Infinity s, Finite y => Infinity (xorb s (negative y))
  | Infinity _, Infinity _ => NaN
  end.

Definition is_zero (a : float) : bool :=
  match a with
  | Finite x => Qeq_bool x 0
  | _ => false
  end.

(** The comparisons; each is false when an operand is NaN. *)
Definition le (a b : float) : bool :=
  match a, b with
  | NaN, _ | _, NaN => false
  | Finite x, Finite y => Qle_bool x y
  | Infinity true, _ => true
  | _, Infinity false => true
  | Infinity false, _ => false
  | _, Infinity true => false
  end.

Definition lt (a b : float) : bool :=
  match a, b with
  | NaN, _ | _, NaN => false
  | _, _ => negb (le b a)
  end.

Definition gt (a b : float) : bool := lt b a.

(** A rational that is a binary64 number. *)
Definition is_float (x : Q) : Prop := rnd x == x /\ Qabs x < pow2 1024.

(** The numbers on the grid of the smallest unit, 2^-1074: all binary64
    numbers, and their sums and differences. *)
Definition on_grid (x : Q) : Prop :=
  exists k : Z, x == inject_Z k * pow2 (-1074).


Definition is_nan (a : float) : bool :=
  match a with
  | NaN => true
  | _ => false
  end.

(** The same float: the same number, infinity or NaN. *)
Definition same (a b : float) : bool :=
  match a, b with
  | Finite x, Finite y => Qeq_bool x y
  | Infinity s, Infinity t => Bool.eqb s t
  | NaN, NaN => true
  | _, _ => false
  end.

End Float64.

(** ** The same arithmetic on the hardware floats

    The expressions of the two calculators on primitive IEEE 754 binary64
    floats, to replay the numeric examples and to compare [Float64] with. *)

Module Binary64.

Local Open Scope float_scope.

(** [calculate_solution] of [app.py], lines 8-11, which is also the
    arithmetic of lines 49-51 of the rewrite. *)
Definition calculate_solution (target_amount concentration : float)
  : float * float :=
  let frac := concentration / 100 in
  let emulsion := target_amount * frac in
  let water := target_amount - emulsion in
  (emulsion, water).

(** Lines 544-545 of the rewrite. *)
Definition dilution (stock_conc final_conc final_amount : float)
  : float * float :=
  let stock_needed := (final_conc * final_amount) / stock_conc in
  let water_needed := final_amount - stock_needed in
  (stock_needed, water_needed).


(** A hardware float as a float of [Float64]. *)
Definition to_Float64 (f : float) : Float64.float :=
  match Prim2SF f with
  | S754_zero _ => Float64.Finite 0
  | S754_infinity s => Float64.Infinity s
  | S754_nan => Float64.NaN
  | S754_finite s m e =>
      Float64.Finite ((if s then -1 else 1)%Q * inject_Z (Zpos m)
                      * Float64.pow2 e)%Q
  end.

End Binary64.

(** ** The program on binary64 numbers

    The calculators and the two button handlers once more, computing as
    Python does: every product, quotient and difference is rounded to the
    nearest binary64 number ([Float64]).  The numbers typed into the
    fields, which [st.number_input] returns, are finite; what is computed
    from them and stored or shown can also be an infinity or NaN. *)

Module Rounded.

Import Py Float64.

(** *** app.py *)

Module App.

(** [calculate_solution], lines 7-11.  The divisor is the constant 100, so
    the division cannot raise. *)
Definition calculate_solution (target_amount concentration : float)
  : float * float :=
  let frac := div concentration (Finite 100) in
  let emulsion := mul target_amount frac in
  let water := sub target_amount emulsion in
  (emulsion, water).

(** Step 2 of the script, lines 137-138. *)
Definition step2 (final_amount final_conc : float) : (float * float) * bool :=
  let '(stock_needed, water_needed) := calculate_solution final_amount final_conc in
  let step2_complete := gt final_amount (Finite 0) && gt final_conc (Finite 0) in
  ((stock_needed, water_needed), step2_complete).

End App.

(** *** mode_flocculant_agent.py *)

Module Mode.

(** A value stored in one of the result dictionaries. *)
Inductive value : Type :=
| VFloat (x : float)
| VStr (s : string).

(** An f-string with its floats. *)
Inductive piece : Type :=
| Lit (s : string)
| Fixed (decimals : nat) (x : float).

Definition text : Type := list piece.

Record SessionState : Type := {
  mode : string;
  unit_type : string;
  step1_completed : bool;
  step2_completed : bool;
  stock_calculations : gmap string value;
  dilution_calculations : gmap string value;
  stock_amount : Q;
  stock_conc : option Q;  (* [None]: the key is not in the session state *)
  final_amount : Q;
  final_conc : Q
}.

Definition set_step1_completed (v : bool) (s : SessionState) : SessionState :=
  {| mode := mode s; unit_type := unit_type s;
     step1_completed := v; step2_completed := step2_completed s;
     stock_calculations := stock_calculations s;
     dilution_calculations := dilution_calculations s;
     stock_amount := stock_amount s; stock_conc := stock_conc s;
     final_amount := final_amount s; final_conc := final_conc s |}.

Definition set_step2_completed (v : bool) (s : SessionState) : SessionState :=
  {| mode := mode s; unit_type := unit_type s;
     step1_completed := step1_completed s; step2_completed := v;
     stock_calculations := stock_calculations s;
     dilution_calculations := dilution_calculations s;
     stock_amount := stock_amount s; stock_conc := stock_conc s;
     final_amount := final_amount s; final_conc := final_conc s |}.

Definition set_stock_calculations (v : gmap string value) (s : SessionState)
  : SessionState :=
  {| mode := mode s; unit_type := unit_type s;
     step1_completed := step1_completed s; step2_completed := step2_completed s;
     stock_calculations := v;
     dilution_calculations := dilution_calculations s;
     stock_amount := stock_amount s; stock_conc := stock_conc s;
     final_amount := final_amount s; final_conc := final_conc s |}.

Definition set_dilution_calculations (v : gmap string value) (s : SessionState)
  : SessionState :=
  {| mode := mode s; unit_type := unit_type s;
     step1_completed := step1_completed s; step2_completed := step2_completed s;
     stock_calculations := stock_calculations s;
     dilution_calculations := v;
     stock_amount := stock_amount s; stock_conc := stock_conc s;
     final_amount := final_amount s; final_conc := final_conc s |}.

Inductive level : Type := INFO | ERROR.

Inductive element : Type :=
| StError (msg : text)
| StWarning (msg : text).

Record World : Type := {
  session_state : SessionState;
  log : list (level * text);
  page : list element
}.

Inductive outcome (A : Type) : Type :=
| Returned (a : A) (w : World)
| Raised (e : exn) (w : World).
Arguments Returned {A} a w.
Arguments Raised {A} e w.

Definition M (A : Type) : Type := World -> outcome A.

Definition ret {A : Type} (a : A) : M A := fun w => Returned a w.

Definition bind {A B : Type} (m : M A) (k : A -> M B) : M B :=
  fun w =>
    match m w with
    | Returned a w' => k a w'
    | Raised e w' => Raised e w'
    end.

Definition raise {A : Type} (e : exn) : M A := fun w => Raised e w.

Definition try_except {A : Type} (body : M A) (handler : exn -> M A) : M A :=
  fun w =>
    match body w with
    | Returned a w' => Returned a w'
    | Raised e w' => if is_Exception e then handler e w' else Raised e w'
    end.

Declare Scope f64_scope.
Delimit Scope f64_scope with f64.
Notation "'let*' x ':=' m 'in' k" := (bind m (fun x => k))
  (at level 10, x name, m at level 100, k at level 200) : f64_scope.
Notation "'let*' ' pat ':=' m 'in' k" :=
  (bind m (fun x => match x with pat => k end))
  (at level 10, pat pattern, m at level 100, k at level 200) : f64_scope.
Notation "m ';;' k" := (bind m (fun _ => k))
  (at level 100, k at level 200, right associativity) : f64_scope.
Local Open Scope f64_scope.

Definition get_session_state : M SessionState :=
  fun w => Returned (session_state w) w.

Definition update (f : SessionState -> SessionState) : M unit :=
  fun w => Returned tt {| session_state := f (session_state w);
                          log := log w; page := page w |}.

Definition logger_info (msg : text) : M unit :=
  fun w => Returned tt {| session_state := session_state w;
                          log := log w ++ [(INFO, msg)]; page := page w |}.

Definition logger_error (msg : text) : M unit :=
  fun w => Returned tt {| session_state := session_state w;
                          log := log w ++ [(ERROR, msg)]; page := page w |}.

Definition st_error (msg : text) : M unit :=
  fun w => Returned tt {| session_state := session_state w;
                          log := log w; page := page w ++ [StError msg] |}.

Fixpoint for_each {A : Type} (xs : list A) (body : A -> M unit) : M unit :=
  match xs with
  | [] => ret tt
  | x :: rest => body x ;; for_each rest body
  end.

(** [d[key]]. *)
Definition getitem (d : gmap string value) (key : string) : M value :=
  match d !! key with
  | Some v => ret v
  | None => raise (KeyError key)
  end.

(** A dictionary entry used as a float operand. *)
Definition as_float (msg : string) (v : value) : M float :=
  match v with
  | VFloat x => ret x
  | VStr _ => raise (TypeError msg)
  end.

(** [x / y] on floats: Python tests the divisor, then divides. *)
Definition truediv (x y : float) : M float :=
  if is_zero y then raise (ZeroDivisionError "float division by zero")
  else ret (div x y).

(** [st.session_state.stock_conc]. *)
Definition attr_stock_conc : M Q :=
  let* s := get_session_state in
  match stock_conc s with
  | Some x => ret x
  | None => raise (AttributeError "stock_conc")
  end.

(** The body of the [try] block of [calculate_solution], lines 46-54. *)
Definition calculate_solution_try (amount concentration : float)
  : M (float * float) :=
  if le amount (Finite 0) || le concentration (Finite 0)
  then raise (ValueError "Amount and concentration must be positive")
  else
    let* fraction := truediv concentration (Finite 100) in
    let solute_amount := mul amount fraction in
    let solvent_amount := sub amount solute_amount in
    logger_info [Lit "Calculated: "; Fixed 2 solute_amount; Lit " solute, ";
                 Fixed 2 solvent_amount; Lit " solvent"] ;;
    ret (solute_amount, solvent_amount).

(** [calculate_solution], lines 34-59. *)
Definition calculate_solution (amount concentration : float)
  : M (float * float) :=
  try_except (calculate_solution_try amount concentration)
    (fun e =>
       logger_error [Lit ("Calculation error: " ++ str e)] ;;
       st_error [Lit ("Calculation error: " ++ str e)] ;;
       ret (Finite 0, Finite 0)).

(** [validate_inputs], lines 61-92, on the numbers of the fields. *)
Definition validate_inputs (st : SessionState) (amount concentration : Q)
    (step_name : string) : list string :=
  let errors := [] in
  let errors :=
    if amount <=? 0
    then append errors (step_name ++ ": Amount must be greater than 0")
    else errors in
  let errors :=
    if concentration <=? 0
    then append errors (step_name ++ ": Concentration must be greater than 0")
    else errors in
  let errors :=
    if concentration >=? 100
    then append errors (step_name ++ ": Concentration must be less than 100%")
    else errors in
  let errors :=
    if String.eqb step_name "Final Dilution"
    then match stock_conc st with
         | Some session_stock_conc =>
             if concentration >=? session_stock_conc
             then append errors ("Final concentration should be lower than stock concentration")
             else errors
         | None => errors
         end
    else errors in
  let errors :=
    if amount >? 10000
    then append errors (step_name ++ ": Amount seems unreasonably large (>10000)")
    else errors in
  errors.

(** Tab 1, lines 442-459: the button "Calculate Stock Solution". *)
Definition calculate_stock_solution (unit_ conc_unit : string) : M unit :=
  let* s := get_session_state in
  let* conc := attr_stock_conc in
  let errors := validate_inputs s (stock_amount s) conc "Stock Solution" in
  if truthy errors then
    for_each errors (fun err => st_error [Lit err]) ;;
    update (set_step1_completed false)
  else
    let* '(emulsion, water) :=
      calculate_solution (Finite (stock_amount s)) (Finite conc) in
    update (set_stock_calculations
              (list_to_map
                 [ ("emulsion_needed", VFloat emulsion);
                   ("water_needed", VFloat water);
                   ("stock_amount", VFloat (Finite (stock_amount s)));
                   ("stock_conc", VFloat (Finite conc));
                   ("unit", VStr unit_);
                   ("conc_unit", VStr conc_unit) ])) ;;
    update (set_step1_completed true).

(** Tab 2, lines 539-547: the dilution from the stock of step 1,
    C1V1 = C2V2 so V1 = C2V2/C1.  It returns [stock_needed], [water_needed]
    and [available_stock]. *)
Definition dilution (stock_calculations : gmap string value)
    (final_conc final_amount : float) : M (float * float * float) :=
  let* stock_conc := getitem stock_calculations "stock_conc" in
  let* c1 := as_float "unsupported operand type(s) for /: 'float' and 'str'"
               stock_conc in
  let* stock_needed := truediv (mul final_conc final_amount) c1 in
  let water_needed := sub final_amount stock_needed in
  let* available_stock := getitem stock_calculations "stock_amount" in
  let* available :=
    as_float "'>' not supported between instances of 'float' and 'str'"
      available_stock in
  ret (stock_needed, water_needed, available).

(** Tab 2, lines 530-561: the button "Calculate Final Dilution". *)
Definition calculate_final_dilution (unit_ conc_unit : string) : M unit :=
  let* s := get_session_state in
  let errors :=
    validate_inputs s (final_amount s) (final_conc s) "Final Dilution" in
  if truthy errors then
    for_each errors (fun err => st_error [Lit err]) ;;
    update (set_step2_completed false)
  else
    let final_conc := Finite (final_conc s) in
    let final_amount := Finite (final_amount s) in
    let* '(stock_needed, water_needed, available_stock) :=
      dilution (stock_calculations s) final_conc final_amount in
    if gt stock_needed available_stock then
      st_error [Lit "❌ Insufficient stock solution! Need "; Fixed 2 stock_needed;
                Lit (" " ++ unit_ ++ ", but only "); Fixed 2 available_stock;
                Lit (" " ++ unit_ ++ " available.")] ;;
      update (set_step2_completed false)
    else
      update (set_dilution_calculations
                (list_to_map
                   [ ("stock_needed", VFloat stock_needed);
                     ("water_needed", VFloat water_needed);
                     ("final_amount", VFloat final_amount);
                     ("final_conc", VFloat final_conc);
                     ("unit", VStr unit_);
                     ("conc_unit", VStr conc_unit) ])) ;;
      update (set_step2_completed true).

(** [f"{v:.Nf}"]: a float is rendered, a str is refused. *)
Definition format_f (decimals : nat) (v : value) : M piece :=
  match v with
  | VFloat x => ret (Fixed decimals x)
  | VStr _ =>
      raise (ValueError "Unknown format code 'f' for object of type 'str'")
  end.

Definition type_name (v : value) : string :=
  match v with
  | VFloat _ => "float"
  | VStr _ => "str"
  end.

(** [a - b] on two dictionary entries. *)
Definition sub_entries (a b : value) : M float :=
  match a, b with
  | VFloat x, VFloat y => ret (sub x y)
  | _, _ =>
      raise (TypeError ("unsupported operand type(s) for -: '" ++ type_name a
                        ++ "' and '" ++ type_name b ++ "'"))
  end.

(** Tab 3, lines 619-630: the material balance.  It returns the three
    numbers shown and the stock remaining. *)
Definition material_balance : M (list piece * float) :=
  let* s := get_session_state in
  let stock := stock_calculations s in
  let final := dilution_calculations s in
  let* stock_used := getitem final "stock_needed" in
  let* stock_available := getitem stock "stock_amount" in
  let* stock_remaining := sub_entries stock_available stock_used in
  let* available := format_f 2 stock_available in
  let* used := format_f 2 stock_used in
  ret ([available; used; Fixed 2 stock_remaining], stock_remaining).

(** A session in which the fields hold the numbers given and nothing is
    calculated yet. *)
Definition session (stock_amount stock_conc final_amount final_conc : Q)
  : World :=
  {| session_state :=
       {| mode := "Manual Input";
          unit_type := "Weight (g) / % w/w";
          step1_completed := false;
          step2_completed := false;
          stock_calculations := ∅;
          dilution_calculations := ∅;
          stock_amount := stock_amount;
          stock_conc := Some stock_conc;
          final_amount := final_amount;
          final_conc := final_conc |};
     log := [];
     page := [] |}.

(** The world a computation leaves. *)
Definition after {A : Type} (m : M A) (w : World) : World :=
  match m w with
  | Returned _ w' => w'
  | Raised _ w' => w'
  end.

(** Step 1 done in grams on the numbers of the fields. *)
Definition stock_prepared (stock_amount stock_conc final_amount final_conc : Q)
  : World :=
  after (calculate_stock_solution "g" "% w/w")
        (session stock_amount stock_conc final_amount final_conc).

(** Step 1 done, then the button "Calculate Final Dilution" pressed. *)
Definition dilution_calculated
    (stock_amount stock_conc final_amount final_conc : Q) : World :=
  after (calculate_final_dilution "g" "% w/w")
        (stock_prepared stock_amount stock_conc final_amount final_conc).

End Mode.

End Rounded.

(** ** Tactics *)

(** Entering the [else] branch of the button: the validation returned no
    message. *)
Ltac enter_else_branch Hvalid :=
  unfold Mode.calculate_final_dilution, Mode.bind at 1, Mode.get_session_state;
  rewrite Hvalid; change (@Py.truthy string []) with false; cbv iota zeta;
  unfold Mode.bind at 1.


(** * Properties *)

Import Py Mode.
Local Open Scope py_scope.

(** ** The comparisons *)

Lemma le_true (x y : Q) : (x <=? y) = true <-> x <= y.
Proof. unfold le. apply Qle_bool_iff. Qed.

Lemma le_false (x y : Q) : (x <=? y) = false <-> y < x.
Proof.
  unfold le. split; intros H.
  - apply Qnot_le_lt. intros Hle. apply Qle_bool_iff in Hle. congruence.
  - destruct (Qle_bool x y) eqn:E; [|reflexivity].
    apply Qle_bool_iff in E. exfalso. exact (Qlt_not_le _ _ H E).
Qed.

Lemma ge_true (x y : Q) : (x >=? y) = true <-> y <= x.
Proof. unfold ge. apply Qle_bool_iff. Qed.

Lemma ge_false (x y : Q) : (x >=? y) = false <-> x < y.
Proof. unfold ge. apply (le_false y x). Qed.

Lemma gt_true (x y : Q) : (x >? y) = true <-> y < x.
Proof. unfold gt. rewrite negb_true_iff. apply (le_false x y). Qed.

Lemma gt_false (x y : Q) : (x >? y) = false <-> x <= y.
Proof. unfold gt. rewrite negb_false_iff. apply (le_true x y). Qed.

(** ** The solution calculator *)

(** The guard of [calculate_solution] raises on a non-positive argument,
    before anything is logged. *)
Lemma calculate_solution_try_raises (amount concentration : Q) (w : World) :
  amount <= 0 \/ concentration <= 0 ->
  calculate_solution_try amount concentration w
  = Raised (ValueError "Amount and concentration must be positive") w.
Proof.
  intros H. unfold calculate_solution_try.
  assert (E : (amount <=? 0) || (concentration <=? 0) = true).
  { apply orb_true_iff. destruct H as [H|H]; [left|right]; now apply le_true. }
  rewrite E. reflexivity.
Qed.

(** On positive arguments the [try] block logs one line and returns the
    split. *)
Lemma calculate_solution_try_returns (amount concentration : Q) (w : World) :
  0 < amount -> 0 < concentration ->
  calculate_solution_try amount concentration w
  = Returned (amount * (concentration / 100),
              amount - amount * (concentration / 100))
      {| session_state := session_state w;
         log := log w ++
                [(INFO, [Lit "Calculated: ";
                         Fixed 2 (amount * (concentration / 100));
                         Lit " solute, ";
                         Fixed 2 (amount - amount * (concentration / 100));
                         Lit " solvent"])];
         page := page w |}.
Proof.
  intros Ha Hc. unfold calculate_solution_try.
  assert (E : (amount <=? 0) || (concentration <=? 0) = false).
  { apply orb_false_iff. split; now apply le_false. }
  rewrite E. reflexivity.
Qed.

(** What [calculate_solution] does in each of its two cases. *)
Lemma calculate_solution_zeroed (amount concentration : Q) (w : World) :
  amount <= 0 \/ concentration <= 0 ->
  calculate_solution amount concentration w
  = Returned (0, 0)
      {| session_state := session_state w;
         log := log w ++
                [(ERROR, [Lit "Calculation error: Amount and concentration must be positive"])];
         page := page w ++
                 [StError [Lit "Calculation error: Amount and concentration must be positive"]] |}.
Proof.
  intros H. unfold calculate_solution, try_except.
  rewrite (calculate_solution_try_raises _ _ w H). reflexivity.
Qed.

Lemma calculate_solution_split (amount concentration : Q) (w : World) :
  0 < amount -> 0 < concentration ->
  calculate_solution amount concentration w
  = Returned (amount * (concentration / 100),
              amount - amount * (concentration / 100))
      {| session_state := session_state w;
         log := log w ++
                [(INFO, [Lit "Calculated: ";
                         Fixed 2 (amount * (concentration / 100));
                         Lit " solute, ";
                         Fixed 2 (amount - amount * (concentration / 100));
                         Lit " solvent"])];
         page := page w |}.
Proof.
  intros Ha Hc. unfold calculate_solution, try_except.
  rewrite (calculate_solution_try_returns _ _ w Ha Hc). reflexivity.
Qed.

(** [calculate_solution] always returns, and never touches the session. *)
Lemma calculate_solution_total (amount concentration : Q) (w : World) :
  exists r w',
    calculate_solution amount concentration w = Returned r w'
    /\ session_state w' = session_state w.
Proof.
  destruct (Qlt_le_dec 0 amount) as [Ha|Ha];
    [destruct (Qlt_le_dec 0 concentration) as [Hc|Hc]|].
  - rewrite (calculate_solution_split _ _ w Ha Hc). eauto.
  - rewrite (calculate_solution_zeroed _ _ w (or_intror Hc)). eauto.
  - rewrite (calculate_solution_zeroed _ _ w (or_introl Ha)). eauto.
Qed.

(** The first pass has no guard: it splits whatever it is given. *)
Lemma App_calculate_solution_unguarded :
  exists emulsion water,
    App.calculate_solution (-5) 1 = (emulsion, water)
    /\ emulsion == -0.05 /\ water == -4.95.
Proof. eexists _, _. split; [reflexivity|]. split; reflexivity. Qed.

(** Both variants respect the equality of numbers. *)
Lemma App_calculate_solution_proper (a1 c1 a2 c2 : Q) :
  a1 == a2 -> c1 == c2 ->
  fst (App.calculate_solution a1 c1) == fst (App.calculate_solution a2 c2)
  /\ snd (App.calculate_solution a1 c1) == snd (App.calculate_solution a2 c2).
Proof. intros Ha Hc. simpl. rewrite Ha, Hc. split; reflexivity. Qed.

(** C10.  [calculate_solution] is deterministic: its result is a function
    of its two arguments alone.  Whatever the session, the log and the page
    are when it is called, two calls with the same arguments return the
    same pair, and neither call changes the session. *)
Theorem C10_solution_deterministic (amount concentration : Q) :
  exists result,
    forall w1 w2, exists w1' w2',
      calculate_solution amount concentration w1 = Returned result w1'
      /\ calculate_solution amount concentration w2 = Returned result w2'
      /\ session_state w1' = session_state w1
      /\ session_state w2' = session_state w2.
Proof.
  destruct (Qlt_le_dec 0 amount) as [Ha|Ha];
    [destruct (Qlt_le_dec 0 concentration) as [Hc|Hc]|].
  - exists (App.calculate_solution amount concentration). intros w1 w2.
    rewrite (calculate_solution_split _ _ w1 Ha Hc),
            (calculate_solution_split _ _ w2 Ha Hc).
    eexists _, _. repeat split.
  - exists (0, 0). intros w1 w2.
    rewrite (calculate_solution_zeroed _ _ w1 (or_intror Hc)),
            (calculate_solution_zeroed _ _ w2 (or_intror Hc)).
    eexists _, _. repeat split.
  - exists (0, 0). intros w1 w2.
    rewrite (calculate_solution_zeroed _ _ w1 (or_introl Ha)),
            (calculate_solution_zeroed _ _ w2 (or_introl Ha)).
    eexists _, _. repeat split.
Qed.

(** ** The input validator *)

Lemma violated_iff (st : SessionState) (amount concentration : Q)
    (step_name : string) (r : Rules.rule) :
  Rules.violated st amount concentration step_name r = true
  <-> ~ Rules.passes st amount concentration step_name r.
Proof.
  destruct r; simpl.
  - destruct (Qlt_le_dec 0 amount) as [H|H]; split; intros H'; try easy.
    intros Hlt. exact (Qlt_not_le _ _ Hlt H).
  - destruct (Qlt_le_dec 0 concentration) as [H|H]; split; intros H'; try easy.
    intros Hlt. exact (Qlt_not_le _ _ Hlt H).
  - destruct (Qlt_le_dec concentration 100) as [H|H]; split; intros H'; try easy.
    intros Hlt. exact (Qlt_not_le _ _ Hlt H).
  - destruct (string_dec step_name "Final Dilution") as [E|E].
    + destruct (stock_conc st) as [prior|].
      * destruct (Qlt_le_dec concentration prior) as [H|H]; split; intros H'.
        -- discriminate.
        -- exfalso. apply H'. intros _ p [= <-]. exact H.
        -- intros Hp. exact (Qlt_not_le _ _ (Hp E prior eq_refl) H).
        -- reflexivity.
      * split; intros H'; [discriminate|].
        exfalso. apply H'. intros _ p [=].
    + split; intros H'; [discriminate|].
      exfalso. apply H'. intros E'. contradiction.
  - destruct (Qlt_le_dec 10000 amount) as [H|H]; split; intros H'; try easy.
    intros Hle. exact (Qlt_not_le _ _ H Hle).
Qed.

(** The code and the rule list agree, rule by rule. *)
Lemma validate_inputs_rules (st : SessionState) (amount concentration : Q)
    (step_name : string) :
  validate_inputs st amount concentration step_name
  = Rules.validate st amount concentration step_name.
Proof.
  unfold validate_inputs, Rules.validate, Rules.all_rules, Rules.violated,
    le, ge, gt, append.
  simpl List.filter.
  destruct (Qlt_le_dec 0 amount) as [H1|H1];
    [apply (le_false amount 0) in H1|apply (le_true amount 0) in H1];
    unfold le in H1; rewrite H1; clear H1;
  (destruct (Qlt_le_dec 0 concentration) as [H2|H2];
    [apply (le_false concentration 0) in H2|apply (le_true concentration 0) in H2];
    unfold le in H2; rewrite H2; clear H2);
  (destruct (Qlt_le_dec concentration 100) as [H3|H3];
    [apply (ge_false concentration 100) in H3|apply (ge_true concentration 100) in H3];
    unfold ge in H3; rewrite H3; clear H3);
  (destruct (Qlt_le_dec 10000 amount) as [H5|H5];
    [apply (gt_true amount 10000) in H5|apply (gt_false amount 10000) in H5];
    unfold gt in H5; rewrite H5; clear H5);
  (destruct (string_dec step_name "Final Dilution") as [E|E];
    [rewrite (proj2 (String.eqb_eq _ _) E)
    |rewrite (proj2 (String.eqb_neq _ _) E)]);
  try reflexivity;
  (destruct (stock_conc st) as [prior|]; [|reflexivity]);
  (destruct (Qlt_le_dec concentration prior) as [H4|H4];
    [apply (ge_false concentration prior) in H4|apply (ge_true concentration prior) in H4];
    unfold ge in H4; rewrite H4; reflexivity).
Qed.

Lemma not_violated_iff (st : SessionState) (amount concentration : Q)
    (step_name : string) (r : Rules.rule) :
  Rules.violated st amount concentration step_name r = false
  <-> Rules.passes st amount concentration step_name r.
Proof.
  split.
  - intros Hv. destruct r; simpl in *.
    + destruct (Qlt_le_dec 0 amount); [assumption|discriminate].
    + destruct (Qlt_le_dec 0 concentration); [assumption|discriminate].
    + destruct (Qlt_le_dec concentration 100); [assumption|discriminate].
    + intros E prior Hp.
      destruct (string_dec step_name "Final Dilution"); [|contradiction].
      rewrite Hp in Hv.
      destruct (Qlt_le_dec concentration prior); [assumption|discriminate].
    + destruct (Qlt_le_dec 10000 amount); [discriminate|assumption].
  - intros Hp.
    destruct (Rules.violated st amount concentration step_name r) eqn:E;
      [|reflexivity].
    apply violated_iff in E. contradiction.
Qed.

(** No message exactly when every rule passes. *)
Lemma validate_inputs_nil_iff (st : SessionState) (amount concentration : Q)
    (step_name : string) :
  validate_inputs st amount concentration step_name = []
  <-> forall r, Rules.passes st amount concentration step_name r.
Proof.
  rewrite validate_inputs_rules. unfold Rules.validate. split.
  - intros Hnil r. apply not_violated_iff.
    destruct (Rules.violated st amount concentration step_name r) eqn:E;
      [|reflexivity].
    assert (Hin : In r (List.filter
                          (Rules.violated st amount concentration step_name)
                          Rules.all_rules)).
    { apply filter_In. split; [|exact E].
      destruct r; simpl; tauto. }
    destruct (List.filter _ Rules.all_rules); [destruct Hin|discriminate].
  - intros Hall.
    assert (E : forall r, Rules.violated st amount concentration step_name r
                          = false)
      by (intros r; apply not_violated_iff, Hall).
    rewrite (List.filter_ext _ (fun _ => false) E). reflexivity.
Qed.

(** C4.  [validate_inputs] returns one message per violated rule, in the
    order of the rules: the amount is positive; the concentration is
    positive; the concentration is below 100 %; in the step "Final
    Dilution", when the session holds a stock concentration, the
    concentration is below it; the amount is at most 10000.  Every rule is
    checked, whether or not an earlier one failed.  The result is empty
    exactly when all five rules pass, and a stock solution of -5 at 1 %
    violates the first rule alone. *)
Theorem C4_validate_inputs (st : SessionState) (amount concentration : Q)
    (step_name : string) :
  validate_inputs st amount concentration step_name
  = List.map (Rules.message step_name)
      (List.filter (Rules.violated st amount concentration step_name)
         Rules.all_rules)
  /\ (forall r, Rules.violated st amount concentration step_name r = true
                <-> ~ Rules.passes st amount concentration step_name r)
  /\ (validate_inputs st amount concentration step_name = []
      <-> forall r, Rules.passes st amount concentration step_name r)
  /\ validate_inputs st (-5) 1 "Stock Solution"
     = ["Stock Solution: Amount must be greater than 0"].
Proof.
  split; [apply validate_inputs_rules|].
  split; [intros r; apply violated_iff|].
  split; [apply validate_inputs_nil_iff|reflexivity].
Qed.

(** ** The dilution calculator *)

Lemma Qeq_bool_false (x y : Q) : ~ x == y -> Qeq_bool x y = false.
Proof.
  intros H. destruct (Qeq_bool x y) eqn:E; [|reflexivity].
  apply Qeq_bool_iff in E. contradiction.
Qed.

(** With the two entries of step 1 in the dictionary and a stock
    concentration that is not zero, the dilution returns, and changes
    nothing. *)
Lemma dilution_returns (d : gmap string value) (sc av fc fa : Q) (w : World) :
  d !! "stock_conc" = Some (VFloat sc) ->
  d !! "stock_amount" = Some (VFloat av) ->
  ~ sc == 0 ->
  dilution d fc fa w = Returned (fc * fa / sc, fa - fc * fa / sc, av) w.
Proof.
  intros Hsc Hav Hnz. unfold dilution, bind, getitem.
  rewrite Hsc. simpl. unfold truediv. rewrite (Qeq_bool_false _ _ Hnz).
  unfold ret at 1. rewrite Hav. reflexivity.
Qed.

(** A stock concentration of zero is a division by zero, an empty
    dictionary a missing key: the dilution raises and changes nothing. *)
Lemma dilution_zero_division (d : gmap string value) (sc fc fa : Q) (w : World) :
  d !! "stock_conc" = Some (VFloat sc) -> sc == 0 ->
  dilution d fc fa w = Raised (ZeroDivisionError "float division by zero") w.
Proof.
  intros Hsc Hz. unfold dilution, bind, getitem.
  rewrite Hsc. simpl. unfold truediv.
  rewrite (proj2 (Qeq_bool_iff _ _) Hz). reflexivity.
Qed.

Lemma dilution_key_error (fc fa : Q) (w : World) :
  dilution ∅ fc fa w = Raised (KeyError "stock_conc") w.
Proof. reflexivity. Qed.

Lemma stock_needed_pos (sc fa fc : Q) :
  0 < sc -> 0 < fa -> 0 < fc -> 0 < fc * fa / sc.
Proof.
  intros Hsc Hfa Hfc. unfold Qdiv.
  apply Qmult_lt_0_compat; [now apply Qmult_lt_0_compat|].
  now apply Qinv_lt_0_compat.
Qed.

(** ** The two variants of step 2 *)




Lemma step2_values_at_scenario2 :
  fst (fst (App.step2 200 0.1)) == 0.2
  /\ snd (fst (App.step2 200 0.1)) == 199.8
  /\ snd (App.step2 200 0.1) = true.
Proof. split; [reflexivity|]. split; reflexivity. Qed.

(** ** The button of step 2 *)

(** Showing the errors appends one [st.error] per message and nothing
    else. *)
Lemma for_each_st_error (errors : list string) (w : World) :
  for_each errors (fun err => st_error [Lit err]) w
  = Returned tt
      {| session_state := session_state w;
         log := log w;
         page := (page w ++ List.map (fun err => StError [Lit err]) errors)%list |}.
Proof.
  revert w. induction errors as [|err rest IH]; intros w.
  - simpl. unfold ret. rewrite List.app_nil_r. destruct w; reflexivity.
  - simpl. unfold bind, st_error. rewrite IH. simpl.
    rewrite <- List.app_assoc. reflexivity.
Qed.

Lemma truthy_true {A : Type} (xs : list A) : xs <> [] -> truthy xs = true.
Proof. destruct xs; [contradiction|reflexivity]. Qed.

Section FinalDilutionButton.

Variables (unit_ conc_unit : string) (w : World).

Local Abbreviation errors :=
  (validate_inputs (session_state w) (final_amount (session_state w))
     (final_conc (session_state w)) "Final Dilution").

Local Abbreviation needed sc :=
  (final_conc (session_state w) * final_amount (session_state w) / sc).

(** The validation path, lines 533-536: the messages are shown, the flag
    of step 2 is cleared, nothing is computed. *)
Lemma calculate_final_dilution_invalid :
  errors <> [] ->
  calculate_final_dilution unit_ conc_unit w
  = Returned tt
      {| session_state := set_step2_completed false (session_state w);
         log := log w;
         page := (page w ++
                  List.map (fun err => StError [Lit err]) errors)%list |}.
Proof.
  intros H. unfold calculate_final_dilution, bind at 1, get_session_state.
  rewrite (truthy_true _ H). unfold bind. rewrite for_each_st_error.
  reflexivity.
Qed.

Section Validated.

Variables sc av : Q.
Hypothesis Hvalid : errors = [].
Hypothesis Hsc :
  stock_calculations (session_state w) !! "stock_conc" = Some (VFloat sc).
Hypothesis Hav :
  stock_calculations (session_state w) !! "stock_amount" = Some (VFloat av).
Hypothesis Hnz : ~ sc == 0.

(** The path of lines 549-551: the stock of step 1 does not cover the
    stock needed. *)
Lemma calculate_final_dilution_insufficient :
  av < needed sc ->
  calculate_final_dilution unit_ conc_unit w
  = Returned tt
      {| session_state := set_step2_completed false (session_state w);
         log := log w;
         page := (page w ++
                  [StError
                     [Lit "❌ Insufficient stock solution! Need ";
                      Fixed 2 (needed sc);
                      Lit (" " ++ unit_ ++ ", but only "); Fixed 2 av;
                      Lit (" " ++ unit_ ++ " available.")]])%list |}.
Proof.
  intros Hlt. enter_else_branch Hvalid.
  rewrite (dilution_returns _ sc av _ _ w Hsc Hav Hnz).
  rewrite (proj2 (gt_true _ _) Hlt). reflexivity.
Qed.

(** The path of lines 552-561: the result is stored and step 2 is
    completed. *)
Lemma calculate_final_dilution_sufficient :
  needed sc <= av ->
  calculate_final_dilution unit_ conc_unit w
  = Returned tt
      {| session_state :=
           set_step2_completed true
             (set_dilution_calculations
                (list_to_map
                   [ ("stock_needed", VFloat (needed sc));
                     ("water_needed",
                      VFloat (final_amount (session_state w) - needed sc));
                     ("final_amount", VFloat (final_amount (session_state w)));
                     ("final_conc", VFloat (final_conc (session_state w)));
                     ("unit", VStr unit_);
                     ("conc_unit", VStr conc_unit) ])
                (session_state w));
         log := log w;
         page := page w |}.
Proof.
  intros Hle. enter_else_branch Hvalid.
  rewrite (dilution_returns _ sc av _ _ w Hsc Hav Hnz).
  rewrite (proj2 (gt_false _ _) Hle). reflexivity.
Qed.

End Validated.


End FinalDilutionButton.

(** A final concentration that is not below the stock concentration of the
    session is reported by the validator of step 2. *)
Lemma validate_inputs_not_a_dilution (st : SessionState) (amount concentration sc : Q) :
  stock_conc st = Some sc -> sc <= concentration ->
  In "Final concentration should be lower than stock concentration"
     (validate_inputs st amount concentration "Final Dilution").
Proof.
  intros Hsc Hle. rewrite validate_inputs_rules. unfold Rules.validate.
  change "Final concentration should be lower than stock concentration"
    with (Rules.message "Final Dilution" Rules.BelowStockConcentration).
  apply List.in_map, List.filter_In. split.
  - unfold Rules.all_rules. simpl. tauto.
  - apply violated_iff. simpl. intros Hp.
    exact (Qlt_not_le _ _ (Hp eq_refl sc Hsc) Hle).
Qed.

(** C5.  When the stock concentration of the session is not above the
    final concentration asked for, the button of step 2 reports "Final
    concentration should be lower than stock concentration", computes no
    dilution and accepts none: the stored dilution is what it was and
    step 2 is not completed. *)
Theorem C5_invalid_dilution (unit_ conc_unit : string) (sc : Q) (w : World) :
  stock_conc (session_state w) = Some sc ->
  sc <= final_conc (session_state w) ->
  exists w',
    calculate_final_dilution unit_ conc_unit w = Returned tt w'
    /\ In (StError [Lit "Final concentration should be lower than stock concentration"])
          (page w')
    /\ session_state w' = set_step2_completed false (session_state w)
    /\ dilution_calculations (session_state w')
       = dilution_calculations (session_state w)
    /\ step2_completed (session_state w') = false
    /\ log w' = log w.
Proof.
  intros Hsc Hle.
  pose proof (validate_inputs_not_a_dilution (session_state w)
                (final_amount (session_state w)) _ sc Hsc Hle) as Hin.
  assert (Hne : validate_inputs (session_state w)
                  (final_amount (session_state w))
                  (final_conc (session_state w)) "Final Dilution" <> [])
    by (intros E; rewrite E in Hin; destruct Hin).
  rewrite (calculate_final_dilution_invalid unit_ conc_unit w Hne).
  eexists. split; [reflexivity|]. simpl. split.
  - apply List.in_or_app. right.
    apply (List.in_map (fun err => StError [Lit err])) in Hin. exact Hin.
  - repeat split.
Qed.

(** Scenario 3: a stock at 0.3 % cannot be diluted to 0.5 %. *)
Lemma C5_invalid_dilution_witness :
  exists w',
    calculate_final_dilution "g" "% w/w"
      (Scenario.dilution_requested 200 0.3 200 0.5) = Returned tt w'
    /\ In (StError [Lit "Final concentration should be lower than stock concentration"])
          (page w')
    /\ dilution_calculations (session_state w') = ∅
    /\ step2_completed (session_state w') = false.
Proof.
  destruct (C5_invalid_dilution "g" "% w/w" 0.3
              (Scenario.dilution_requested 200 0.3 200 0.5))
    as (w' & Hrun & Hin & _ & Hd & Hs & _).
  - vm_compute. reflexivity.
  - vm_compute. discriminate.
  - exists w'. split; [exact Hrun|]. split; [exact Hin|].
    split; [rewrite Hd; vm_compute; reflexivity|exact Hs].
Defined.



(** ** Step 1 prepares step 2 *)

Lemma validate_inputs_nil_bounds (st : SessionState) (amount concentration : Q)
    (step_name : string) :
  validate_inputs st amount concentration step_name = [] ->
  0 < amount <= 10000 /\ 0 < concentration < 100.
Proof.
  intros Hv.
  pose proof (proj1 (validate_inputs_nil_iff st amount concentration
                       step_name) Hv) as Hall.
  pose proof (Hall Rules.AmountPositive).
  pose proof (Hall Rules.ConcentrationPositive).
  pose proof (Hall Rules.ConcentrationBelow100).
  pose proof (Hall Rules.AmountWithinBound).
  simpl in *. tauto.
Qed.

(** A run that raises or clears the flag of step 1 keeps the invariant
    for free; the one that sets it has just stored validated values. *)
Lemma calculate_stock_solution_consistent (unit_ conc_unit : string) (w : World) :
  Invariant.consistent (session_state w) ->
  Invariant.consistent
    (session_state (Scenario.after (calculate_stock_solution unit_ conc_unit) w)).
Proof.
  intros Hw.
  unfold Scenario.after, calculate_stock_solution, bind at 1, get_session_state.
  unfold bind at 1, attr_stock_conc, bind at 1, get_session_state.
  destruct (stock_conc (session_state w)) as [c|] eqn:Hc; simpl; [|exact Hw].
  destruct (validate_inputs (session_state w) (stock_amount (session_state w))
              c "Stock Solution") as [|e es] eqn:Hv.
  - destruct (validate_inputs_nil_bounds _ _ _ _ Hv) as [[Ha Ha'] [Hc1 Hc2]].
    change (@truthy string []) with false. cbv iota. unfold bind at 1.
    rewrite (calculate_solution_split _ _ w Ha Hc1). simpl.
    intros _. exists c. split; [exact Hc|].
    split; [vm_compute; reflexivity|]. split; [vm_compute; reflexivity|].
    split; split; assumption.
  - change (truthy (e :: es)) with true. cbv iota. unfold bind.
    rewrite for_each_st_error. simpl. intros H. discriminate.
Qed.

Lemma consistent_same_stock (s s' : SessionState) :
  Invariant.same_stock s s' -> Invariant.consistent s -> Invariant.consistent s'.
Proof.
  intros (H1 & H2 & H3 & H4) Hs. unfold Invariant.consistent.
  rewrite H1, H2, H3, H4. exact Hs.
Qed.

Lemma same_stock_refl (s : SessionState) : Invariant.same_stock s s.
Proof. repeat split. Qed.

Lemma stock_inputs_consistent (new_amount new_conc : Q) (w : World) :
  Invariant.consistent (session_state w) ->
  Invariant.consistent
    (session_state (Scenario.after (stock_inputs new_amount new_conc) w)).
Proof.
  intros Hw. unfold Scenario.after, stock_inputs, bind at 1, get_session_state.
  destruct (ne new_amount (stock_amount (session_state w))).
  - simpl. intros H. discriminate.
  - unfold bind at 1, attr_stock_conc, bind at 1, get_session_state.
    destruct (stock_conc (session_state w)) as [c|]; simpl; [|exact Hw].
    destruct (ne new_conc c); simpl; [|exact Hw].
    intros H. discriminate.
Qed.

(** Tab 2 leaves step 1 as it is. *)
Lemma final_inputs_same_stock (new_final_amount new_final_conc : Q) (w : World) :
  Invariant.same_stock (session_state w)
    (session_state (Scenario.after (final_inputs new_final_amount new_final_conc) w)).
Proof.
  unfold Scenario.after, final_inputs, bind at 1, get_session_state.
  destruct (_ || _); simpl; repeat split.
Qed.

Lemma calculate_final_dilution_same_stock (unit_ conc_unit : string) (w : World) :
  Invariant.same_stock (session_state w)
    (session_state (Scenario.after (calculate_final_dilution unit_ conc_unit) w)).
Proof.
  unfold Scenario.after.
  destruct (validate_inputs (session_state w) (final_amount (session_state w))
              (final_conc (session_state w)) "Final Dilution") as [|e es] eqn:Hv.
  - enter_else_branch Hv. unfold dilution, bind, getitem.
    destruct (stock_calculations (session_state w) !! "stock_conc")
      as [[sc|s]|]; simpl; try apply same_stock_refl.
    unfold truediv. destruct (Qeq_bool sc 0); simpl; [apply same_stock_refl|].
    destruct (stock_calculations (session_state w) !! "stock_amount")
      as [[av|s]|]; simpl; try apply same_stock_refl.
    destruct (_ >? av); simpl; repeat split.
  - rewrite calculate_final_dilution_invalid by (rewrite Hv; discriminate).
    simpl. repeat split.
Qed.

Lemma after_bind {A B : Type} (m : M A) (k : A -> M B) (w : World) :
  Scenario.after (bind m k) w
  = match m w with
    | Returned a w1 => Scenario.after (k a) w1
    | Raised _ w1 => w1
    end.
Proof. unfold Scenario.after, bind. destruct (m w); reflexivity. Qed.

Lemma tab1_consistent (new_amount new_conc : Q) (clicked : bool)
    (unit_ conc_unit : string) (w : World) :
  Invariant.consistent (session_state w) ->
  Invariant.consistent
    (session_state
       (Scenario.after (tab1 new_amount new_conc clicked unit_ conc_unit) w)).
Proof.
  intros Hw. unfold tab1. rewrite after_bind. simpl. rewrite after_bind.
  assert (H1 : forall m : M unit,
             Invariant.consistent (session_state (Scenario.after m w)) ->
             Invariant.consistent
               (session_state
                  match m w with
                  | Returned _ w1 =>
                      Scenario.after
                        (if clicked
                         then calculate_stock_solution unit_ conc_unit
                         else ret tt) w1
                  | Raised _ w1 => w1
                  end)).
  { intros m Hm. unfold Scenario.after in Hm.
    destruct (m w) as [[] w1|e w1]; [|exact Hm].
    destruct clicked; [|exact Hm].
    now apply calculate_stock_solution_consistent. }
  apply H1. destruct (String.eqb _ _).
  - now apply stock_inputs_consistent.
  - exact Hw.
Qed.

Lemma tab2_same_stock (new_final_amount new_final_conc : Q) (clicked : bool)
    (unit_ conc_unit : string) (w : World) :
  Invariant.same_stock (session_state w)
    (session_state
       (Scenario.after
          (tab2 new_final_amount new_final_conc clicked unit_ conc_unit) w)).
Proof.
  unfold tab2. rewrite after_bind.
  unfold tab2_gate, bind at 1, get_session_state.
  destruct (negb (step1_completed (session_state w))); simpl;
    [apply same_stock_refl|].
  rewrite after_bind. simpl. rewrite after_bind.
  assert (H1 : forall m : M unit,
             Invariant.same_stock (session_state w)
               (session_state (Scenario.after m w)) ->
             Invariant.same_stock (session_state w)
               (session_state
                  match m w with
                  | Returned _ w1 =>
                      Scenario.after
                        (if clicked
                         then calculate_final_dilution unit_ conc_unit
                         else ret tt) w1
                  | Raised _ w1 => w1
                  end)).
  { intros m Hm. unfold Scenario.after in Hm.
    destruct (m w) as [[] w1|e w1]; [|exact Hm].
    destruct clicked; [|exact Hm].
    destruct Hm as (E1 & E2 & E3 & E4).
    destruct (calculate_final_dilution_same_stock unit_ conc_unit w1)
      as (F1 & F2 & F3 & F4).
    repeat split; congruence. }
  apply H1. destruct (String.eqb _ _).
  - apply final_inputs_same_stock.
  - apply same_stock_refl.
Qed.

(** The invariant holds all along a session. *)
Lemma reachable_consistent (w : World) :
  Invariant.reachable w -> Invariant.consistent (session_state w).
Proof.
  induction 1 as [|w a c b u cu Hw IH|w a c b u cu Hw IH].
  - intros H. discriminate.
  - now apply tab1_consistent.
  - exact (consistent_same_stock _ _ (tab2_same_stock a c b u cu w) IH).
Qed.

(** Along a session, once step 1 is completed the button of step 2 never
    raises: the dictionary has its two entries and the stock concentration
    it divides by is positive.  That concentration is the one the
    validator compares the final concentration with. *)
Lemma reachable_button_returns (unit_ conc_unit : string) (w : World) :
  Invariant.reachable w ->
  step1_completed (session_state w) = true ->
  exists c w',
    stock_conc (session_state w) = Some c
    /\ stock_calculations (session_state w) !! "stock_conc" = Some (VFloat c)
    /\ 0 < c
    /\ calculate_final_dilution unit_ conc_unit w = Returned tt w'.
Proof.
  intros Hr H1.
  destruct (reachable_consistent w Hr H1) as (c & Hc & Hd & Ha & [Hpos _] & _).
  assert (Hnz : ~ c == 0) by (intros E; rewrite E in Hpos; discriminate).
  exists c.
  destruct (validate_inputs (session_state w) (final_amount (session_state w))
              (final_conc (session_state w)) "Final Dilution") as [|e es] eqn:Hv.
  - destruct (Qlt_le_dec (stock_amount (session_state w))
                (final_conc (session_state w) * final_amount (session_state w) / c))
      as [Hlt|Hle].
    + rewrite (calculate_final_dilution_insufficient _ _ w c _ Hv Hd Ha Hnz Hlt).
      eauto 6.
    + rewrite (calculate_final_dilution_sufficient _ _ w c _ Hv Hd Ha Hnz Hle).
      eauto 6.
  - rewrite calculate_final_dilution_invalid by (rewrite Hv; discriminate).
    eauto 6.
Qed.

(** ** The numeric examples on binary64 *)

Set Warnings "-inexact-float".

(** Scenarios 1, 2 and 5, and step 2 of [app.py] at the values of
    scenario 2, with the rounding of binary64: the values are the ones
    found over the rationals. *)
Lemma binary64_examples :
  Binary64.calculate_solution 200 1 = (2, 198)%float
  /\ Binary64.dilution 1 0.1 200 = (20, 180)%float
  /\ Binary64.dilution 1 0.1 250 = (25, 225)%float
  /\ Binary64.calculate_solution 200 0.1 = (0.2, 199.8)%float.
Proof. repeat split; vm_compute; reflexivity. Qed.

(** ** The script run *)

Import Session.

(** *** Composing computations that keep the session sound *)

Lemma bind_returned {A B : Type} (m : M A) (k : A -> M B) (w w' : World) (a : A) :
  m w = Returned a w' -> bind m k w = k a w'.
Proof. intros H. unfold bind. rewrite H. reflexivity. Qed.

Lemma good_ret {A : Type} (a : A) : good (ret a).
Proof. intros w Hw. exact Hw. Qed.

Lemma good_bind {A B : Type} (m : M A) (k : A -> M B) :
  good m -> (forall a, good (k a)) -> good (bind m k).
Proof.
  intros Hm Hk w Hw. unfold bind. specialize (Hm w Hw).
  destruct (m w) as [a w'|e w']; [apply Hk; exact Hm|exact Hm].
Qed.

(** A computation defined from the current session. *)
Lemma good_get_session_state {A : Type} (k : SessionState -> M A) :
  (forall w, ok (session_state w) ->
     match k (session_state w) w with
     | Returned _ w' => ok (session_state w')
     | Raised e w' => e = StopException /\ ok (session_state w')
     end) ->
  good (bind get_session_state k).
Proof. intros H w Hw. exact (H w Hw). Qed.

Lemma good_st_error (msg : text) : good (st_error msg).
Proof. intros w Hw. exact Hw. Qed.

Lemma good_st_warning (msg : text) : good (st_warning msg).
Proof. intros w Hw. exact Hw. Qed.

Lemma good_for_each_st_error (errors : list string) :
  good (for_each errors (fun err => st_error [Lit err])).
Proof. intros w Hw. rewrite for_each_st_error. exact Hw. Qed.

Lemma good_if {A : Type} (b : bool) (m1 m2 : M A) :
  good m1 -> good m2 -> good (if b then m1 else m2).
Proof. destruct b; auto. Qed.

Create HintDb good discriminated.
#[local] Hint Resolve good_ret good_bind good_st_error good_st_warning
  good_for_each_st_error good_if : good.

(** Clearing both flags makes the session sound whatever it held. *)
Lemma ok_cleared (s : SessionState) :
  is_Some (stock_conc s) ->
  step1_completed s = false -> step2_completed s = false -> ok s.
Proof.
  intros Hc H1 H2. split; [exact Hc|]. split.
  - intros H. congruence.
  - intros H. congruence.
Qed.

Lemma good_reset_calculations : good reset_calculations.
Proof. intros w [Hc _]. apply ok_cleared; [exact Hc|reflexivity..]. Qed.

Lemma good_setdefaults : good setdefaults.
Proof.
  intros w Hw. unfold setdefaults, update. simpl.
  destruct Hw as [[c Hc] Hrest]. rewrite Hc. split; [|exact Hrest].
  exists c. exact Hc.
Qed.

Lemma good_get_unit_config : good get_unit_config.
Proof.
  apply good_get_session_state. intros w Hw.
  destruct (UNIT_CONFIGS !! unit_type (session_state w)); exact Hw.
Qed.

Lemma good_mode_radio (new_mode : string) : good (mode_radio new_mode).
Proof.
  apply good_get_session_state. intros w Hw.
  destruct (negb _); [|exact Hw].
  destruct Hw as [Hc _]. apply ok_cleared; [exact Hc|reflexivity..].
Qed.

Lemma good_unit_radio (new_unit_type : string) (unit_config : string * string) :
  good (unit_radio new_unit_type unit_config).
Proof.
  apply good_get_session_state. intros w Hw.
  destruct (negb _); [|exact Hw].
  unfold bind, update, reset_calculations, bind, update. simpl.
  match goal with
  | |- match get_unit_config ?w1 with _ => _ end =>
      assert (H1 : ok (session_state w1))
        by (destruct Hw as [Hc _]; apply ok_cleared; [exact Hc|reflexivity..]);
      exact (good_get_unit_config w1 H1)
  end.
Qed.

Lemma good_get : good get_session_state.
Proof. intros w Hw. exact Hw. Qed.

#[local] Hint Resolve good_get good_reset_calculations good_setdefaults
  good_get_unit_config good_mode_radio good_unit_radio : good.

(** *** The stock values: recipe, number inputs, button *)

Lemma good_sop_preset (selected_preset : string) :
  is_Some (SOP_PRESETS !! selected_preset) -> good (sop_preset selected_preset).
Proof.
  intros [[amount conc] Hp]. apply good_get_session_state. intros w Hw.
  destruct (String.eqb _ _); [|exact Hw]. rewrite Hp. cbv zeta.
  destruct (ne _ amount).
  - apply ok_cleared; simpl; eauto.
  - unfold bind at 1, attr_stock_conc, bind at 1, get_session_state.
    destruct Hw as [[c Hc] Hrest]. rewrite Hc. simpl.
    destruct (ne c conc).
    + apply ok_cleared; simpl; eauto.
    + split; [eauto|exact Hrest].
Qed.

Lemma good_stock_inputs (new_amount new_conc : Q) :
  good (stock_inputs new_amount new_conc).
Proof.
  unfold stock_inputs. apply good_get_session_state. intros w Hw. cbv zeta.
  destruct (ne new_amount _).
  - apply ok_cleared; simpl; eauto.
  - unfold bind at 1, attr_stock_conc, bind at 1, get_session_state.
    destruct Hw as [[c Hc] Hrest]. rewrite Hc. simpl.
    destruct (ne new_conc c).
    + apply ok_cleared; simpl; eauto.
    + split; [eauto|exact Hrest].
Qed.

(** Values within the bounds pass the validation of step 1. *)
Lemma validate_inputs_stock_nil (st : SessionState) (amount concentration : Q) :
  0 < amount <= 10000 -> 0 < concentration < 100 ->
  validate_inputs st amount concentration "Stock Solution" = [].
Proof.
  intros [Ha Ha'] [Hc Hc']. apply validate_inputs_nil_iff.
  intros r. destruct r; simpl; try assumption.
  intros E. discriminate E.
Qed.

(** Reading a field of a session just written. *)
Ltac read_fields :=
  unfold set_step1_completed, set_step2_completed, set_stock_calculations,
    set_dilution_calculations, set_stock_amount, set_stock_conc, set_mode,
    set_unit_type in *;
  cbn [mode unit_type step1_completed step2_completed stock_calculations
       dilution_calculations stock_amount stock_conc final_amount final_conc
       session_state log page] in *.

Lemma good_calculate_stock_solution (unit_ conc_unit : string) :
  good (calculate_stock_solution unit_ conc_unit).
Proof.
  intros w ([c Hc] & H1 & H2).
  unfold calculate_stock_solution, bind at 1, get_session_state.
  unfold bind at 1, attr_stock_conc, bind at 1, get_session_state.
  rewrite Hc. simpl.
  destruct (validate_inputs (session_state w) (stock_amount (session_state w))
              c "Stock Solution") as [|e es] eqn:Hv.
  - destruct (validate_inputs_nil_bounds _ _ _ _ Hv) as [[Ha Ha'] [Hc1 Hc2]].
    change (@truthy string []) with false. cbv iota. unfold bind at 1.
    rewrite (calculate_solution_split _ _ w Ha Hc1). simpl.
    unfold ok, step1_ok, step2_ok in *. read_fields.
    split; [eauto|]. split.
    + intros _.
      exists c, (stock_amount (session_state w) * (c / 100)),
        (stock_amount (session_state w)
         - stock_amount (session_state w) * (c / 100)).
      split; [exact Hc|].
      split; [vm_compute; reflexivity|]. split; [vm_compute; reflexivity|].
      split; [vm_compute; reflexivity|]. split; [vm_compute; reflexivity|].
      split; [split; assumption|]. split; [split; assumption|].
      split; [field|reflexivity].
    + intros H2'. destruct (H2 H2') as (_ & Hrest).
      split; [reflexivity|exact Hrest].
  - change (truthy (e :: es)) with true. cbv iota. unfold bind.
    rewrite for_each_st_error. simpl.
    split; [eauto|]. split; [intros H; discriminate|].
    intros H2'. exfalso.
    destruct (H2 H2') as (H1' & _).
    destruct (H1 H1') as (c' & em & wt & Hc' & _ & _ & _ & _ & Hcb & Hab & _).
    assert (E : c' = c) by congruence. rewrite E in Hcb.
    rewrite (validate_inputs_stock_nil _ _ _ Hab Hcb) in Hv. discriminate.
Qed.

Lemma good_tab1 (new_amount new_conc : Q) (clicked : bool)
    (unit_ conc_unit : string) :
  good (tab1 new_amount new_conc clicked unit_ conc_unit).
Proof.
  unfold tab1. apply good_bind; [apply good_get|]. intros s.
  apply good_bind.
  - apply good_if; [apply good_stock_inputs|apply good_ret].
  - intros _. apply good_if;
      [apply good_calculate_stock_solution|apply good_ret].
Qed.

(** *** Reading the dictionaries *)

Lemma shown_float (d : gmap string value) (key : string) (decimals : nat)
    (x : Q) (w : World) :
  d !! key = Some (VFloat x) ->
  shown d key decimals w = Returned (Fixed decimals x) w.
Proof. intros H. unfold shown, bind, getitem. rewrite H. reflexivity. Qed.

Lemma getitem_some (d : gmap string value) (key : string) (v : value)
    (w : World) :
  d !! key = Some v -> getitem d key w = Returned v w.
Proof. intros H. unfold getitem. rewrite H. reflexivity. Qed.

(** A missing key is a [KeyError]; nothing is changed. *)
Lemma shown_missing (d : gmap string value) (key : string) (decimals : nat)
    (w : World) :
  d !! key = None -> shown d key decimals w = Raised (KeyError key) w.
Proof. intros H. unfold shown, bind, getitem. rewrite H. reflexivity. Qed.

(** While step 1 is completed its results can be shown, and are the
    amounts computed from the session's stock amount and concentration. *)
Lemma stock_results_returns (w : World) :
  ok (session_state w) -> step1_completed (session_state w) = true ->
  exists c emulsion water,
    stock_conc (session_state w) = Some c
    /\ emulsion == stock_amount (session_state w) * c / 100
    /\ water == stock_amount (session_state w) - emulsion
    /\ stock_results w
       = Returned
           [Fixed 2 emulsion; Fixed 2 water;
            Fixed 2 (stock_amount (session_state w));
            Fixed 0 (stock_amount (session_state w) * 2);
            Fixed 2 water; Fixed 2 emulsion;
            Fixed 0 (stock_amount (session_state w))] w.
Proof.
  intros (_ & H1 & _) E1.
  destruct (H1 E1) as (c & em & wt & Hc & Hdc & Hda & Hde & Hdw & _ & _ & He & Hw).
  exists c, em, wt. split; [exact Hc|]. split; [exact He|]. split; [exact Hw|].
  unfold stock_results, bind at 1, get_session_state. rewrite E1.
  rewrite (bind_returned _ _ _ _ _ (shown_float _ _ 2 _ w Hde)).
  rewrite (bind_returned _ _ _ _ _ (shown_float _ _ 2 _ w Hdw)).
  rewrite (bind_returned _ _ _ _ _ (shown_float _ _ 2 _ w Hda)).
  rewrite (bind_returned _ _ _ _ _ (getitem_some _ _ _ w Hda)).
  cbv zeta. unfold times2, format_f, bind at 1, ret at 1.
  rewrite (bind_returned _ _ _ _ _ (shown_float _ _ 2 _ w Hdw)).
  rewrite (bind_returned _ _ _ _ _ (shown_float _ _ 2 _ w Hde)).
  rewrite (bind_returned _ _ _ _ _ (shown_float _ _ 0 _ w Hda)).
  reflexivity.
Qed.

Lemma good_stock_results : good stock_results.
Proof.
  intros w Hw.
  destruct (step1_completed (session_state w)) eqn:E1.
  - destruct (stock_results_returns w Hw E1) as (c & em & wt & _ & _ & _ & H).
    rewrite H. exact Hw.
  - unfold stock_results, bind, get_session_state. rewrite E1. exact Hw.
Qed.

(** *** Step 2 *)

Lemma final_inputs_keeps (new_final_amount new_final_conc : Q) (w : World) :
  ok (session_state w) -> step1_completed (session_state w) = true ->
  exists w',
    final_inputs new_final_amount new_final_conc w = Returned tt w'
    /\ ok (session_state w') /\ step1_completed (session_state w') = true.
Proof.
  intros (Hc & H1 & H2) E1.
  unfold final_inputs, bind at 1, get_session_state.
  destruct (_ || _).
  - eexists. split; [reflexivity|]. simpl. split; [|exact E1].
    split; [exact Hc|]. split; [exact H1|]. intros H. discriminate.
  - eexists. split; [reflexivity|]. split; [|exact E1].
    split; [exact Hc|]. split; assumption.
Qed.

(** Behind the gate the button of step 2 returns, whatever the inputs,
    and leaves a sound session. *)
Lemma calculate_final_dilution_keeps (unit_ conc_unit : string) (w : World) :
  ok (session_state w) -> step1_completed (session_state w) = true ->
  exists w',
    calculate_final_dilution unit_ conc_unit w = Returned tt w'
    /\ ok (session_state w') /\ step1_completed (session_state w') = true.
Proof.
  intros (Hc & H1 & H2) E1.
  destruct (H1 E1) as (c & em & wt & Hsc & Hdc & Hda & Hde & Hdw
                       & [Hcpos Hc100] & Hab & He & Hw).
  assert (Hnz : ~ c == 0) by (intros E; rewrite E in Hcpos; discriminate).
  destruct (validate_inputs (session_state w) (final_amount (session_state w))
              (final_conc (session_state w)) "Final Dilution") as [|e es] eqn:Hv.
  - destruct (Qlt_le_dec (stock_amount (session_state w))
                (final_conc (session_state w) * final_amount (session_state w) / c))
      as [Hlt|Hle].
    + rewrite (calculate_final_dilution_insufficient _ _ w c _ Hv Hdc Hda Hnz Hlt).
      eexists. split; [reflexivity|]. simpl. split; [|exact E1].
      split; [exact Hc|]. split; [exact H1|]. intros H. discriminate.
    + rewrite (calculate_final_dilution_sufficient _ _ w c _ Hv Hdc Hda Hnz Hle).
      eexists. split; [reflexivity|]. simpl. split; [|exact E1].
      split; [exact Hc|]. split; [exact H1|]. intros _.
      split; [exact E1|].
      pose proof (proj1 (validate_inputs_nil_iff _ _ _ _) Hv) as Hall.
      pose proof (Hall Rules.AmountPositive) as P1.
      pose proof (Hall Rules.ConcentrationPositive) as P2.
      pose proof (Hall Rules.BelowStockConcentration eq_refl c Hsc) as P4.
      pose proof (Hall Rules.AmountWithinBound) as P5.
      simpl in P1, P2, P4, P5. read_fields.
      exists c,
        (final_conc (session_state w) * final_amount (session_state w) / c),
        (final_amount (session_state w)
         - final_conc (session_state w) * final_amount (session_state w) / c).
      split; [exact Hsc|].
      split; [vm_compute; reflexivity|]. split; [vm_compute; reflexivity|].
      split; [vm_compute; reflexivity|]. split; [vm_compute; reflexivity|].
      split; [split; assumption|]. split; [split; assumption|].
      split; [reflexivity|]. split; [reflexivity|exact Hle].
  - rewrite calculate_final_dilution_invalid by (rewrite Hv; discriminate).
    eexists. split; [reflexivity|]. simpl. split; [|exact E1].
    split; [exact Hc|]. split; [exact H1|]. intros H. discriminate.
Qed.

Lemma good_tab2 (new_final_amount new_final_conc : Q) (clicked : bool)
    (unit_ conc_unit : string) :
  good (tab2 new_final_amount new_final_conc clicked unit_ conc_unit).
Proof.
  intros w Hw. unfold tab2, bind at 1, tab2_gate, bind at 1, get_session_state.
  destruct (step1_completed (session_state w)) eqn:E1; simpl.
  - unfold bind at 1, get_session_state.
    assert (H : exists w1,
               (if String.eqb (mode (session_state w)) "Manual Input"
                then final_inputs new_final_amount new_final_conc
                else ret tt) w = Returned tt w1
               /\ ok (session_state w1)
               /\ step1_completed (session_state w1) = true).
    { destruct (String.eqb _ _).
      - now apply final_inputs_keeps.
      - exists w. auto. }
    destruct H as (w1 & Hrun & Hw1 & E1').
    rewrite (bind_returned _ _ _ _ _ Hrun).
    destruct clicked; [|exact Hw1].
    destruct (calculate_final_dilution_keeps unit_ conc_unit w1 Hw1 E1')
      as (w2 & Hrun2 & Hw2 & _).
    rewrite Hrun2. exact Hw2.
  - split; [reflexivity|exact Hw].
Qed.

(** While step 2 is completed its results can be shown. *)
Lemma dilution_results_returns (w : World) :
  ok (session_state w) -> step2_completed (session_state w) = true ->
  exists c stock_needed water_needed,
    stock_conc (session_state w) = Some c
    /\ stock_needed
       == final_conc (session_state w) * final_amount (session_state w) / c
    /\ water_needed == final_amount (session_state w) - stock_needed
    /\ dilution_results w
       = Returned
           [Fixed 2 stock_needed; Fixed 2 water_needed;
            Fixed 2 (final_amount (session_state w));
            Fixed 0 (final_amount (session_state w) * 2);
            Fixed 2 water_needed; Fixed 2 stock_needed;
            Fixed 0 stock_needed] w.
Proof.
  intros (_ & _ & H2) E2.
  destruct (H2 E2) as (_ & c & n & wn & Hc & Hn & Hwn & Hfa & Hfc & _ & _
                       & En & Ewn & _).
  exists c, n, wn. split; [exact Hc|]. split; [exact En|]. split; [exact Ewn|].
  unfold dilution_results, bind at 1, get_session_state. rewrite E2.
  rewrite (bind_returned _ _ _ _ _ (shown_float _ _ 2 _ w Hn)).
  rewrite (bind_returned _ _ _ _ _ (shown_float _ _ 2 _ w Hwn)).
  rewrite (bind_returned _ _ _ _ _ (shown_float _ _ 2 _ w Hfa)).
  rewrite (bind_returned _ _ _ _ _ (getitem_some _ _ _ w Hfa)).
  cbv zeta. unfold times2, format_f, bind at 1, ret at 1.
  rewrite (bind_returned _ _ _ _ _ (shown_float _ _ 2 _ w Hwn)).
  rewrite (bind_returned _ _ _ _ _ (shown_float _ _ 2 _ w Hn)).
  rewrite (bind_returned _ _ _ _ _ (shown_float _ _ 0 _ w Hn)).
  reflexivity.
Qed.

Lemma good_dilution_results : good dilution_results.
Proof.
  intros w Hw.
  destruct (step2_completed (session_state w)) eqn:E2.
  - destruct (dilution_results_returns w Hw E2) as (c & n & wn & _ & _ & _ & H).
    rewrite H. exact Hw.
  - unfold dilution_results, bind, get_session_state. rewrite E2. exact Hw.
Qed.

(** *** Tab 3 *)

Lemma tab3_gate_open (w : World) :
  step2_completed (session_state w) = true -> tab3_gate w = Returned tt w.
Proof.
  intros E2. unfold tab3_gate, bind, get_session_state. rewrite E2.
  reflexivity.
Qed.

(** Before step 2 is completed tab 3 shows its warning and ends the run;
    the session is untouched. *)
Lemma tab3_gate_closed (w : World) :
  step2_completed (session_state w) = false ->
  tab3_gate w
  = Raised StopException
      {| session_state := session_state w;
         log := log w;
         page := (page w ++
                  [StWarning [Lit "⚠️ Please complete both calculation steps before generating reports."]])%list |}.
Proof.
  intros E2. unfold tab3_gate, bind, get_session_state. rewrite E2.
  reflexivity.
Qed.

(** With its eight entries in the two dictionaries the summary has its
    eight rows. *)
Lemma summary_returns (unit_ conc_unit : string) (w : World)
    (a c e wt fa fc n wn : Q) :
  stock_calculations (session_state w) !! "stock_amount" = Some (VFloat a) ->
  stock_calculations (session_state w) !! "stock_conc" = Some (VFloat c) ->
  stock_calculations (session_state w) !! "emulsion_needed" = Some (VFloat e) ->
  stock_calculations (session_state w) !! "water_needed" = Some (VFloat wt) ->
  dilution_calculations (session_state w) !! "final_amount" = Some (VFloat fa) ->
  dilution_calculations (session_state w) !! "final_conc" = Some (VFloat fc) ->
  dilution_calculations (session_state w) !! "stock_needed" = Some (VFloat n) ->
  dilution_calculations (session_state w) !! "water_needed" = Some (VFloat wn) ->
  summary unit_ conc_unit w
  = Returned
      [ ("Stock Amount", [Fixed 2 a; Lit (" " ++ unit_)]);
        ("Stock Concentration", [Fixed 2 c; Lit (" " ++ conc_unit)]);
        ("Emulsion Required", [Fixed 2 e; Lit (" " ++ unit_)]);
        ("Water for Stock", [Fixed 2 wt; Lit (" " ++ unit_)]);
        ("Final Amount", [Fixed 2 fa; Lit (" " ++ unit_)]);
        ("Final Concentration", [Fixed 2 fc; Lit (" " ++ conc_unit)]);
        ("Stock Solution Used", [Fixed 2 n; Lit (" " ++ unit_)]);
        ("Water for Dilution", [Fixed 2 wn; Lit (" " ++ unit_)]) ] w.
Proof.
  intros H1 H2 H3 H4 H5 H6 H7 H8.
  unfold summary, bind at 1, get_session_state. cbv zeta.
  rewrite (bind_returned _ _ _ _ _ (shown_float _ _ 2 _ w H1)).
  rewrite (bind_returned _ _ _ _ _ (shown_float _ _ 2 _ w H2)).
  rewrite (bind_returned _ _ _ _ _ (shown_float _ _ 2 _ w H3)).
  rewrite (bind_returned _ _ _ _ _ (shown_float _ _ 2 _ w H4)).
  rewrite (bind_returned _ _ _ _ _ (shown_float _ _ 2 _ w H5)).
  rewrite (bind_returned _ _ _ _ _ (shown_float _ _ 2 _ w H6)).
  rewrite (bind_returned _ _ _ _ _ (shown_float _ _ 2 _ w H7)).
  rewrite (bind_returned _ _ _ _ _ (shown_float _ _ 2 _ w H8)).
  reflexivity.
Qed.

Lemma material_balance_returns (w : World) (n a : Q) :
  dilution_calculations (session_state w) !! "stock_needed" = Some (VFloat n) ->
  stock_calculations (session_state w) !! "stock_amount" = Some (VFloat a) ->
  material_balance w
  = Returned ([Fixed 2 a; Fixed 2 n; Fixed 2 (a - n)], a - n) w.
Proof.
  intros Hn Ha.
  unfold material_balance, bind at 1, get_session_state. cbv zeta.
  rewrite (bind_returned _ _ _ _ _ (getitem_some _ _ _ w Hn)).
  rewrite (bind_returned _ _ _ _ _ (getitem_some _ _ _ w Ha)).
  reflexivity.
Qed.

(** Once step 2 is completed, tab 3 returns the eight rows of the summary
    and a material balance in which nothing is missing: the stock used is
    positive, the stock remaining is not negative, and the two add up to
    the stock prepared. *)
Lemma tab3_returns (unit_ conc_unit : string) (w : World) :
  ok (session_state w) -> step2_completed (session_state w) = true ->
  exists c emulsion water stock_needed water_needed,
    stock_conc (session_state w) = Some c
    /\ dilution_calculations (session_state w) !! "stock_needed"
       = Some (VFloat stock_needed)
    /\ tab3 unit_ conc_unit w
       = Returned
           ([ ("Stock Amount",
               [Fixed 2 (stock_amount (session_state w)); Lit (" " ++ unit_)]);
              ("Stock Concentration", [Fixed 2 c; Lit (" " ++ conc_unit)]);
              ("Emulsion Required", [Fixed 2 emulsion; Lit (" " ++ unit_)]);
              ("Water for Stock", [Fixed 2 water; Lit (" " ++ unit_)]);
              ("Final Amount",
               [Fixed 2 (final_amount (session_state w)); Lit (" " ++ unit_)]);
              ("Final Concentration",
               [Fixed 2 (final_conc (session_state w)); Lit (" " ++ conc_unit)]);
              ("Stock Solution Used", [Fixed 2 stock_needed; Lit (" " ++ unit_)]);
              ("Water for Dilution", [Fixed 2 water_needed; Lit (" " ++ unit_)]) ],
            ([Fixed 2 (stock_amount (session_state w)); Fixed 2 stock_needed;
              Fixed 2 (stock_amount (session_state w) - stock_needed)],
             stock_amount (session_state w) - stock_needed)) w
    /\ emulsion == stock_amount (session_state w) * c / 100
    /\ water == stock_amount (session_state w) - emulsion
    /\ stock_needed
       == final_conc (session_state w) * final_amount (session_state w) / c
    /\ water_needed == final_amount (session_state w) - stock_needed
    /\ 0 < stock_needed
    /\ 0 < water_needed
    /\ 0 <= stock_amount (session_state w) - stock_needed.
Proof.
  intros (_ & H1 & H2) E2.
  destruct (H2 E2) as (E1 & c & n & wn & Hc & Hn & Hwn & Hfa & Hfc
                       & [Hfapos _] & [Hfcpos Hfcc] & En & Ewn & Hle).
  destruct (H1 E1) as (c' & em & wt & Hc' & Hdc & Hda & Hde & Hdw
                       & [Hcpos _] & _ & He & Hw).
  assert (E : c' = c) by congruence. rewrite E in *. clear E Hc'.
  exists c, em, wt, n, wn. split; [exact Hc|]. split; [exact Hn|]. split.
  - unfold tab3.
    rewrite (bind_returned _ _ _ _ _ (tab3_gate_open w E2)).
    rewrite (bind_returned _ _ _ _ _
               (summary_returns unit_ conc_unit w _ _ _ _ _ _ _ _
                  Hda Hdc Hde Hdw Hfa Hfc Hn Hwn)).
    rewrite (bind_returned _ _ _ _ _ (material_balance_returns w _ _ Hn Hda)).
    reflexivity.
  - assert (Hnpos : 0 < n).
    { rewrite En. now apply stock_needed_pos. }
    assert (Hlt : n < final_amount (session_state w)).
    { rewrite En. apply Qlt_shift_div_r; [exact Hcpos|].
      rewrite (Qmult_comm (final_amount (session_state w)) c).
      now apply Qmult_lt_compat_r. }
    split; [exact He|]. split; [exact Hw|]. split; [exact En|].
    split; [exact Ewn|]. split; [exact Hnpos|].
    split; [rewrite Ewn; lra|lra].
Qed.

Lemma good_tab3 (unit_ conc_unit : string) : good (tab3 unit_ conc_unit).
Proof.
  intros w Hw.
  destruct (step2_completed (session_state w)) eqn:E2.
  - destruct (tab3_returns unit_ conc_unit w Hw E2)
      as (c & em & wt & n & wn & _ & _ & H & _).
    rewrite H. exact Hw.
  - unfold tab3, bind at 1. rewrite (tab3_gate_closed w E2).
    split; [reflexivity|exact Hw].
Qed.

(** *** The whole run *)

Lemma good_main (i : Inputs) : offered i -> good (main i).
Proof.
  intros (_ & _ & Hp). unfold main.
  apply good_bind; [apply good_setdefaults|]. intros _.
  apply good_bind; [apply good_get_unit_config|]. intros unit_config.
  apply good_bind; [apply good_st_warning|]. intros _.
  apply good_if.
  { apply good_bind; [apply good_reset_calculations|]. intros _.
    apply good_ret. }
  apply good_bind; [apply good_mode_radio|]. intros _.
  apply good_bind; [apply good_unit_radio|]. intros unit_config'.
  apply good_bind; [now apply good_sop_preset|]. intros _. cbv zeta.
  apply good_bind; [apply good_tab1|]. intros _.
  apply good_bind; [apply good_stock_results|]. intros _.
  apply good_bind; [apply good_tab2|]. intros _.
  apply good_bind; [apply good_dilution_results|]. intros _.
  apply good_bind; [apply good_tab3|]. intros _.
  apply good_ret.
Qed.

Lemma ok_new_session : ok (session_state Scenario.new_session).
Proof. apply ok_cleared; simpl; eauto. Qed.

Lemma reachable_ok (w : World) : reachable w -> ok (session_state w).
Proof.
  induction 1 as [|w i Hw IH Hi].
  - exact ok_new_session.
  - pose proof (good_main i Hi w IH) as H. unfold Scenario.after.
    destruct (main i w) as [[] w'|e w']; [exact H|exact (proj2 H)].
Qed.

Lemma offered_manual (a c : Q) (b1 : bool) (fa fc : Q) (b2 : bool) :
  offered (manual a c b1 fa fc b2).
Proof.
  split; [left; reflexivity|]. split.
  - exists ("g", "% w/w"). vm_compute. reflexivity.
  - exists (200, 1). vm_compute. reflexivity.
Qed.

Lemma reachable_both_steps : reachable both_steps.
Proof. apply reachable_run; [apply reachable_new|apply offered_manual]. Qed.

Lemma both_steps_completed :
  step1_completed (session_state both_steps) = true
  /\ step2_completed (session_state both_steps) = true.
Proof. split; vm_compute; reflexivity. Qed.

(** X1.  Along a session, that is after any number of runs of [main] with
    any widget values, whenever step 1 is completed its dictionary is the
    one of the stock amount and concentration the session holds now: it
    has them under [stock_amount] and [stock_conc], they are within the
    bounds of the validator, and the emulsion and the water are there as
    floats. *)
Theorem X1_step1_results_match_session (w : World) :
  reachable w -> step1_completed (session_state w) = true ->
  exists c emulsion water,
    stock_conc (session_state w) = Some c
    /\ stock_calculations (session_state w) !! "stock_conc" = Some (VFloat c)
    /\ stock_calculations (session_state w) !! "stock_amount"
       = Some (VFloat (stock_amount (session_state w)))
    /\ stock_calculations (session_state w) !! "emulsion_needed"
       = Some (VFloat emulsion)
    /\ stock_calculations (session_state w) !! "water_needed"
       = Some (VFloat water)
    /\ 0 < c < 100
    /\ 0 < stock_amount (session_state w) <= 10000.
Proof.
  intros Hr E1. destruct (reachable_ok w Hr) as (_ & H1 & _).
  destruct (H1 E1) as (c & em & wt & Hc & Hdc & Hda & Hde & Hdw
                       & [Hc0 Hc100] & [Ha0 Ha1] & _).
  exists c, em, wt.
  split; [exact Hc|]. split; [exact Hdc|]. split; [exact Hda|].
  split; [exact Hde|]. split; [exact Hdw|].
  split; split; assumption.
Qed.

Lemma X1_step1_results_match_session_witness :
  exists c emulsion water,
    stock_conc (session_state both_steps) = Some c
    /\ stock_calculations (session_state both_steps) !! "stock_conc"
       = Some (VFloat c)
    /\ stock_calculations (session_state both_steps) !! "stock_amount"
       = Some (VFloat (stock_amount (session_state both_steps)))
    /\ stock_calculations (session_state both_steps) !! "emulsion_needed"
       = Some (VFloat emulsion)
    /\ stock_calculations (session_state both_steps) !! "water_needed"
       = Some (VFloat water)
    /\ 0 < c < 100
    /\ 0 < stock_amount (session_state both_steps) <= 10000.
Proof.
  exact (X1_step1_results_match_session both_steps reachable_both_steps
           (proj1 both_steps_completed)).
Defined.



(** X3.  Along a session no run of [main] crashes: whatever the widgets
    return among what they offer, the run either ends normally or is ended
    by [st.stop()] at a gate.  No dictionary key is missing, no division
    is by zero, no value has the wrong type. *)
Theorem X3_main_never_crashes (w : World) (i : Inputs) :
  reachable w -> offered i ->
  exists w',
    (main i w = Returned tt w' \/ main i w = Raised StopException w')
    /\ reachable w'.
Proof.
  intros Hr Hi. pose proof (good_main i Hi w (reachable_ok w Hr)) as H.
  pose proof (reachable_run w i Hr Hi) as Hr'. unfold Scenario.after in Hr'.
  destruct (main i w) as [[] w'|e w'].
  - exists w'. split; [left; reflexivity|exact Hr'].
  - destruct H as [-> _]. exists w'. split; [right; reflexivity|exact Hr'].
Qed.

(** After both steps, a run in which nothing is pressed ends normally; on
    a new session such a run stops at the gate of tab 2. *)
Lemma X3_main_never_crashes_witness :
  (exists w',
      (main (manual 200 1 false 200 0.1 false) both_steps = Returned tt w'
       \/ main (manual 200 1 false 200 0.1 false) both_steps
          = Raised StopException w')
      /\ reachable w')
  /\ (exists w',
      (main (manual 50 1 false 200 0.1 false) Scenario.new_session
       = Returned tt w'
       \/ main (manual 50 1 false 200 0.1 false) Scenario.new_session
          = Raised StopException w')
      /\ reachable w').
Proof.
  split.
  - exact (X3_main_never_crashes both_steps _ reachable_both_steps
             (offered_manual 200 1 false 200 0.1 false)).
  - exact (X3_main_never_crashes Scenario.new_session _ reachable_new
             (offered_manual 50 1 false 200 0.1 false)).
Defined.



(** *** The reset button and the inputs *)

(** X5.  A run in which the reset button of the sidebar is pressed clears
    both steps and both dictionaries and ends there, at [st.rerun()]: the
    mode, the unit system and the four numbers of the session stay,
    nothing is logged, the warning of the sidebar is the only one shown,
    and every other widget of the run is ignored. *)
Theorem X5_reset_button (i : Inputs) (w : World) :
  reset_clicked i = true ->
  is_Some (stock_conc (session_state w)) ->
  exists w',
    main i w = Returned tt w'
    /\ step1_completed (session_state w') = false
    /\ step2_completed (session_state w') = false
    /\ stock_calculations (session_state w') = ∅
    /\ dilution_calculations (session_state w') = ∅
    /\ mode (session_state w') = mode (session_state w)
    /\ unit_type (session_state w') = unit_type (session_state w)
    /\ stock_amount (session_state w') = stock_amount (session_state w)
    /\ stock_conc (session_state w') = stock_conc (session_state w)
    /\ final_amount (session_state w') = final_amount (session_state w)
    /\ final_conc (session_state w') = final_conc (session_state w)
    /\ log w' = log w
    /\ page w' = (page w ++ [StWarning safety_reminders])%list.
Proof.
  intros Hreset [c Hc].
  unfold main, bind at 1, setdefaults, update. rewrite Hc.
  unfold bind at 1, get_unit_config, bind at 1, get_session_state.
  cbn [session_state].
  destruct (UNIT_CONFIGS !! unit_type (session_state w));
    unfold ret; rewrite Hreset;
    (eexists; split; [reflexivity|]; simpl; repeat split; exact Hc).
Qed.

(** Pressed after both steps, it empties what they stored. *)
Lemma X5_reset_button_witness :
  exists w',
    main {| reset_clicked := true;
            chosen_mode := "SOP-Driven";
            chosen_unit_type := "Volume (mL) / % v/v";
            selected_preset := "0.3% Dry Floc Stock (200 g)";
            stock_amount_input := 70; stock_conc_input := 2;
            stock_clicked := true;
            final_amount_input := 300; final_conc_input := 0.5;
            final_clicked := true |} both_steps = Returned tt w'
    /\ step1_completed (session_state w') = false
    /\ step2_completed (session_state w') = false
    /\ stock_calculations (session_state w') = ∅
    /\ dilution_calculations (session_state w') = ∅
    /\ mode (session_state w') = mode (session_state both_steps)
    /\ unit_type (session_state w') = unit_type (session_state both_steps)
    /\ stock_amount (session_state w') = stock_amount (session_state both_steps)
    /\ stock_conc (session_state w') = stock_conc (session_state both_steps)
    /\ final_amount (session_state w') = final_amount (session_state both_steps)
    /\ final_conc (session_state w') = final_conc (session_state both_steps)
    /\ log w' = log both_steps
    /\ page w' = (page both_steps ++ [StWarning safety_reminders])%list.
Proof.
  apply X5_reset_button.
  - reflexivity.
  - exists 1. vm_compute. reflexivity.
Defined.

(** The two paths of the button of step 1. *)
Lemma calculate_stock_solution_valid (unit_ conc_unit : string) (w : World)
    (c : Q) :
  stock_conc (session_state w) = Some c ->
  validate_inputs (session_state w) (stock_amount (session_state w)) c
    "Stock Solution" = [] ->
  calculate_stock_solution unit_ conc_unit w
  = Returned tt
      {| session_state :=
           set_step1_completed true
             (set_stock_calculations
                (list_to_map
                   [ ("emulsion_needed",
                      VFloat (stock_amount (session_state w) * (c / 100)));
                     ("water_needed",
                      VFloat (stock_amount (session_state w)
                              - stock_amount (session_state w) * (c / 100)));
                     ("stock_amount", VFloat (stock_amount (session_state w)));
                     ("stock_conc", VFloat c);
                     ("unit", VStr unit_);
                     ("conc_unit", VStr conc_unit) ])
                (session_state w));
         log := (log w ++
                 [(INFO, [Lit "Calculated: ";
                          Fixed 2 (stock_amount (session_state w) * (c / 100));
                          Lit " solute, ";
                          Fixed 2 (stock_amount (session_state w)
                                   - stock_amount (session_state w) * (c / 100));
                          Lit " solvent"])])%list;
         page := page w |}.
Proof.
  intros Hc Hv.
  unfold calculate_stock_solution, bind at 1, get_session_state.
  unfold bind at 1, attr_stock_conc, bind at 1, get_session_state.
  rewrite Hc. simpl. rewrite Hv.
  destruct (validate_inputs_nil_bounds _ _ _ _ Hv) as [[Ha _] [Hc1 _]].
  change (@truthy string []) with false. cbv iota. unfold bind at 1.
  rewrite (calculate_solution_split _ _ w Ha Hc1). reflexivity.
Qed.

Lemma calculate_stock_solution_invalid (unit_ conc_unit : string) (w : World)
    (c : Q) :
  stock_conc (session_state w) = Some c ->
  validate_inputs (session_state w) (stock_amount (session_state w)) c
    "Stock Solution" <> [] ->
  calculate_stock_solution unit_ conc_unit w
  = Returned tt
      {| session_state := set_step1_completed false (session_state w);
         log := log w;
         page := (page w ++
                  List.map (fun err => StError [Lit err])
                    (validate_inputs (session_state w)
                       (stock_amount (session_state w)) c
                       "Stock Solution"))%list |}.
Proof.
  intros Hc Hv.
  unfold calculate_stock_solution, bind at 1, get_session_state.
  unfold bind at 1, attr_stock_conc, bind at 1, get_session_state.
  rewrite Hc. simpl. rewrite (truthy_true _ Hv). unfold bind.
  rewrite for_each_st_error. reflexivity.
Qed.



Lemma ne_true (x y : Q) : ne x y = true <-> ~ x == y.
Proof.
  unfold ne. rewrite negb_true_iff. split.
  - intros H. now apply Qeq_bool_neq.
  - intros H. now apply Qeq_bool_false.
Qed.

Lemma ne_false (x y : Q) : ne x y = false <-> x == y.
Proof. unfold ne. rewrite negb_false_iff. apply Qeq_bool_iff. Qed.

(** What the button of step 1 leaves alone. *)
Lemma calculate_stock_solution_frame (unit_ conc_unit : string) (w : World)
    (c : Q) :
  stock_conc (session_state w) = Some c ->
  exists w',
    calculate_stock_solution unit_ conc_unit w = Returned tt w'
    /\ step2_completed (session_state w') = step2_completed (session_state w)
    /\ dilution_calculations (session_state w')
       = dilution_calculations (session_state w)
    /\ stock_amount (session_state w') = stock_amount (session_state w)
    /\ stock_conc (session_state w') = stock_conc (session_state w).
Proof.
  intros Hc.
  destruct (validate_inputs (session_state w) (stock_amount (session_state w))
              c "Stock Solution") as [|e es] eqn:Hv.
  - rewrite (calculate_stock_solution_valid _ _ w c Hc Hv).
    eexists. split; [reflexivity|]. repeat split.
  - rewrite (calculate_stock_solution_invalid _ _ w c Hc)
      by (rewrite Hv; discriminate).
    eexists. split; [reflexivity|]. repeat split.
Qed.

(** The number inputs of tab 1: what is typed is what the session holds
    afterwards, and a change empties both steps. *)
Lemma stock_inputs_stored (new_amount new_conc : Q) (w : World) (c0 : Q) :
  stock_conc (session_state w) = Some c0 ->
  exists w1 c1,
    stock_inputs new_amount new_conc w = Returned tt w1
    /\ stock_amount (session_state w1) == new_amount
    /\ stock_conc (session_state w1) = Some c1 /\ c1 == new_conc
    /\ (~ new_amount == stock_amount (session_state w) \/ ~ new_conc == c0 ->
        step1_completed (session_state w1) = false
        /\ step2_completed (session_state w1) = false
        /\ stock_calculations (session_state w1) = ∅
        /\ dilution_calculations (session_state w1) = ∅)
    /\ (new_amount == stock_amount (session_state w) -> new_conc == c0 ->
        w1 = w).
Proof.
  intros Hc. unfold stock_inputs, bind at 1, get_session_state. cbv zeta.
  destruct (ne new_amount (stock_amount (session_state w))) eqn:Ea.
  - apply ne_true in Ea. eexists _, new_conc. split; [reflexivity|]. simpl.
    split; [reflexivity|]. split; [reflexivity|]. split; [reflexivity|].
    split; [intros _; repeat split|]. intros H. contradiction.
  - apply ne_false in Ea.
    unfold bind at 1, attr_stock_conc, bind at 1, get_session_state.
    rewrite Hc. simpl.
    destruct (ne new_conc c0) eqn:Ec.
    + apply ne_true in Ec. eexists _, new_conc. split; [reflexivity|]. simpl.
      split; [reflexivity|]. split; [reflexivity|]. split; [reflexivity|].
      split; [intros _; repeat split|]. intros _ H. contradiction.
    + apply ne_false in Ec. exists w, c0. split; [reflexivity|].
      split; [symmetry; exact Ea|]. split; [exact Hc|].
      split; [symmetry; exact Ec|].
      split; [intros [H|H]; contradiction|reflexivity].
Qed.

(** X7.  In manual mode, after tab 1 the session holds the stock amount
    and concentration typed, pressed or not.  If either differs from what
    the session held, step 2 is no longer completed and its dictionary is
    empty; unless the button is pressed in the same run, step 1 is not
    completed either and its dictionary is empty too. *)
Theorem X7_stock_inputs_change (new_amount new_conc : Q) (clicked : bool)
    (unit_ conc_unit : string) (w : World) (c0 : Q) :
  mode (session_state w) = "Manual Input" ->
  stock_conc (session_state w) = Some c0 ->
  exists w' c',
    tab1 new_amount new_conc clicked unit_ conc_unit w = Returned tt w'
    /\ stock_amount (session_state w') == new_amount
    /\ stock_conc (session_state w') = Some c' /\ c' == new_conc
    /\ (~ new_amount == stock_amount (session_state w) \/ ~ new_conc == c0 ->
        step2_completed (session_state w') = false
        /\ dilution_calculations (session_state w') = ∅
        /\ (clicked = false ->
            step1_completed (session_state w') = false
            /\ stock_calculations (session_state w') = ∅)).
Proof.
  intros Hm Hc. unfold tab1, bind at 1, get_session_state. rewrite Hm.
  change ("Manual Input" =? "Manual Input")%string with true. cbv iota.
  destruct (stock_inputs_stored new_amount new_conc w c0 Hc)
    as (w1 & c1 & Hrun & Ha & Hc1 & Hc1' & Hchanged & _).
  rewrite (bind_returned _ _ _ _ _ Hrun).
  destruct clicked.
  - destruct (calculate_stock_solution_frame unit_ conc_unit w1 c1 Hc1)
      as (w2 & Hrun2 & F2 & Fd & Fa & Fc).
    exists w2, c1. split; [exact Hrun2|].
    split; [rewrite Fa; exact Ha|]. split; [rewrite Fc; exact Hc1|].
    split; [exact Hc1'|]. intros H.
    destruct (Hchanged H) as (_ & E2 & _ & Ed).
    split; [rewrite F2; exact E2|]. split; [rewrite Fd; exact Ed|].
    intros H'. discriminate.
  - exists w1, c1. split; [reflexivity|]. split; [exact Ha|].
    split; [exact Hc1|]. split; [exact Hc1'|]. intros H.
    destruct (Hchanged H) as (E1 & E2 & Es & Ed).
    split; [exact E2|]. split; [exact Ed|]. intros _. split; assumption.
Qed.

(** After both steps, typing 300 g instead of 200 g empties both. *)
Lemma X7_stock_inputs_change_witness :
  exists w' c',
    tab1 300 1 false "g" "% w/w" both_steps = Returned tt w'
    /\ stock_amount (session_state w') == 300
    /\ stock_conc (session_state w') = Some c' /\ c' == 1
    /\ step2_completed (session_state w') = false
    /\ dilution_calculations (session_state w') = ∅
    /\ step1_completed (session_state w') = false
    /\ stock_calculations (session_state w') = ∅.
Proof.
  destruct (X7_stock_inputs_change 300 1 false "g" "% w/w" both_steps 1)
    as (w' & c' & Hrun & Ha & Hc & Hc' & Hchanged).
  - vm_compute. reflexivity.
  - vm_compute. reflexivity.
  - destruct Hchanged as (E2 & Ed & H1).
    + left. vm_compute. discriminate.
    + destruct (H1 eq_refl) as [E1 Es].
      exists w', c'. repeat (split; [assumption|]). assumption.
Defined.

(** Neither button changes the mode or a number of the session. *)
Lemma same_inputs_refl (s : SessionState) : same_inputs s s.
Proof. repeat split. Qed.

Lemma calculate_final_dilution_same_inputs (unit_ conc_unit : string) (w : World) :
  same_inputs (session_state w)
    (session_state (Scenario.after (calculate_final_dilution unit_ conc_unit) w)).
Proof.
  unfold Scenario.after.
  destruct (validate_inputs (session_state w) (final_amount (session_state w))
              (final_conc (session_state w)) "Final Dilution") as [|e es] eqn:Hv.
  - enter_else_branch Hv. unfold dilution, bind, getitem.
    destruct (stock_calculations (session_state w) !! "stock_conc")
      as [[sc|s]|]; simpl; try (unfold same_inputs; read_fields; auto 10).
    unfold truediv. destruct (Qeq_bool sc 0); simpl; [(unfold same_inputs; read_fields; auto 10)|].
    destruct (stock_calculations (session_state w) !! "stock_amount")
      as [[av|s]|]; simpl; try (unfold same_inputs; read_fields; auto 10).
    destruct (_ >? av); simpl; (unfold same_inputs; read_fields; auto 10).
  - rewrite calculate_final_dilution_invalid by (rewrite Hv; discriminate).
    simpl. (unfold same_inputs; read_fields; auto 10).
Qed.

Lemma calculate_stock_solution_same_inputs (unit_ conc_unit : string) (w : World) :
  same_inputs (session_state w)
    (session_state (Scenario.after (calculate_stock_solution unit_ conc_unit) w)).
Proof.
  destruct (stock_conc (session_state w)) as [c|] eqn:Hc.
  - destruct (validate_inputs (session_state w) (stock_amount (session_state w))
                c "Stock Solution") as [|e es] eqn:Hv; unfold Scenario.after.
    + rewrite (calculate_stock_solution_valid _ _ w c Hc Hv).
      (unfold same_inputs; read_fields; auto 10).
    + rewrite (calculate_stock_solution_invalid _ _ w c Hc)
        by (rewrite Hv; discriminate).
      (unfold same_inputs; read_fields; auto 10).
  - unfold Scenario.after, calculate_stock_solution, bind at 1,
      get_session_state.
    unfold bind at 1, attr_stock_conc, bind at 1, get_session_state.
    rewrite Hc. simpl. (unfold same_inputs; read_fields; auto 10).
Qed.

(** The gate of tab 2, open and closed. *)
Lemma tab2_open (new_final_amount new_final_conc : Q) (clicked : bool)
    (unit_ conc_unit : string) (w : World) :
  step1_completed (session_state w) = true ->
  tab2 new_final_amount new_final_conc clicked unit_ conc_unit w
  = bind (if String.eqb (mode (session_state w)) "Manual Input"
          then final_inputs new_final_amount new_final_conc
          else ret tt)
      (fun _ => if clicked then calculate_final_dilution unit_ conc_unit
                else ret tt) w.
Proof.
  intros E1. unfold tab2, bind at 1, tab2_gate, bind at 1, get_session_state.
  rewrite E1. reflexivity.
Qed.

Lemma tab2_closed (new_final_amount new_final_conc : Q) (clicked : bool)
    (unit_ conc_unit : string) (w : World) :
  step1_completed (session_state w) = false ->
  tab2 new_final_amount new_final_conc clicked unit_ conc_unit w
  = Raised StopException
      {| session_state := session_state w;
         log := log w;
         page := (page w ++
                  [StWarning [Lit "⚠️ Please complete the Stock Solution calculation first."]])%list |}.
Proof.
  intros E1. unfold tab2, bind at 1, tab2_gate, bind at 1, get_session_state.
  rewrite E1. reflexivity.
Qed.

Lemma final_inputs_stored (new_final_amount new_final_conc : Q) (w : World) :
  exists w1,
    final_inputs new_final_amount new_final_conc w = Returned tt w1
    /\ final_amount (session_state w1) == new_final_amount
    /\ final_conc (session_state w1) == new_final_conc
    /\ dilution_calculations (session_state w1)
       = dilution_calculations (session_state w)
    /\ (~ new_final_amount == final_amount (session_state w)
        \/ ~ new_final_conc == final_conc (session_state w) ->
        step2_completed (session_state w1) = false).
Proof.
  unfold final_inputs, bind at 1, get_session_state.
  destruct (ne new_final_amount (final_amount (session_state w))
            || ne new_final_conc (final_conc (session_state w))) eqn:E.
  - eexists. split; [reflexivity|]. simpl.
    split; [reflexivity|]. split; [reflexivity|]. split; reflexivity.
  - apply orb_false_iff in E. destruct E as [Ea Ec].
    apply ne_false in Ea. apply ne_false in Ec.
    exists w. split; [reflexivity|]. split; [symmetry; exact Ea|].
    split; [symmetry; exact Ec|]. split; [reflexivity|].
    intros [H|H]; contradiction.
Qed.

(** X8.  In manual mode, past the gate of tab 2, the session holds after
    the tab the final amount and concentration typed, pressed or not.  If
    either differs from what the session held and the button is not
    pressed, step 2 is no longer completed, while the dilution stored
    before stays in its dictionary. *)
Theorem X8_final_inputs_change (new_final_amount new_final_conc : Q)
    (clicked : bool) (unit_ conc_unit : string) (w : World) :
  mode (session_state w) = "Manual Input" ->
  step1_completed (session_state w) = true ->
  final_amount
    (session_state
       (Scenario.after
          (tab2 new_final_amount new_final_conc clicked unit_ conc_unit) w))
  == new_final_amount
  /\ final_conc
       (session_state
          (Scenario.after
             (tab2 new_final_amount new_final_conc clicked unit_ conc_unit) w))
     == new_final_conc
  /\ (~ new_final_amount == final_amount (session_state w)
      \/ ~ new_final_conc == final_conc (session_state w) ->
      clicked = false ->
      step2_completed
        (session_state
           (Scenario.after
              (tab2 new_final_amount new_final_conc clicked unit_ conc_unit) w))
      = false
      /\ dilution_calculations
           (session_state
              (Scenario.after
                 (tab2 new_final_amount new_final_conc clicked unit_ conc_unit)
                 w))
         = dilution_calculations (session_state w)).
Proof.
  intros Hm E1. unfold Scenario.after. rewrite (tab2_open _ _ _ _ _ w E1).
  rewrite Hm. change ("Manual Input" =? "Manual Input")%string with true.
  cbv iota.
  destruct (final_inputs_stored new_final_amount new_final_conc w)
    as (w1 & Hrun & Ha & Hc & Hd & Hchanged).
  rewrite (bind_returned _ _ _ _ _ Hrun).
  destruct clicked.
  - destruct (calculate_final_dilution_same_inputs unit_ conc_unit w1)
      as (_ & _ & _ & Fa & Fc).
    unfold Scenario.after in Fa, Fc.
    split; [rewrite Fa; exact Ha|]. split; [rewrite Fc; exact Hc|].
    intros _ H. discriminate.
  - split; [exact Ha|]. split; [exact Hc|]. intros H _.
    split; [exact (Hchanged H)|exact Hd].
Qed.

(** After both steps, typing 0.05 % instead of 0.1 % closes step 2 and
    keeps the 20 g stored. *)
Lemma X8_final_inputs_change_witness :
  final_conc
    (session_state (Scenario.after (tab2 200 0.05 false "g" "% w/w") both_steps))
  == 0.05
  /\ step2_completed
       (session_state (Scenario.after (tab2 200 0.05 false "g" "% w/w") both_steps))
     = false
  /\ dilution_calculations
       (session_state (Scenario.after (tab2 200 0.05 false "g" "% w/w") both_steps))
     = dilution_calculations (session_state both_steps).
Proof.
  destruct (X8_final_inputs_change 200 0.05 false "g" "% w/w" both_steps)
    as (_ & Hc & Hchanged).
  - vm_compute. reflexivity.
  - exact (proj1 both_steps_completed).
  - split; [exact Hc|]. apply Hchanged; [|reflexivity].
    right. vm_compute. discriminate.
Defined.

(** X9.  Outside manual mode the numbers typed in the two tabs are
    ignored: whatever is typed, pressed or not, gate open or closed, tab 1
    and tab 2 leave the mode and the four numbers of the session as they
    were. *)
Theorem X9_recipe_mode_ignores_typing (new_amount new_conc : Q) (click1 : bool)
    (new_final_amount new_final_conc : Q) (click2 : bool)
    (unit_ conc_unit : string) (w : World) :
  mode (session_state w) <> "Manual Input" ->
  same_inputs (session_state w)
    (session_state
       (Scenario.after (tab1 new_amount new_conc click1 unit_ conc_unit) w))
  /\ same_inputs (session_state w)
       (session_state
          (Scenario.after
             (tab2 new_final_amount new_final_conc click2 unit_ conc_unit) w)).
Proof.
  intros Hm. apply String.eqb_neq in Hm. split.
  - unfold tab1. rewrite after_bind. simpl. rewrite Hm.
    rewrite after_bind. simpl. destruct click1.
    + apply calculate_stock_solution_same_inputs.
    + apply same_inputs_refl.
  - destruct (step1_completed (session_state w)) eqn:E1; unfold Scenario.after.
    + rewrite (tab2_open _ _ _ _ _ w E1), Hm. unfold bind at 1, ret at 1.
      destruct click2.
      * apply calculate_final_dilution_same_inputs.
      * apply same_inputs_refl.
    + rewrite (tab2_closed _ _ _ _ _ w E1). apply same_inputs_refl.
Qed.

Lemma X9_recipe_mode_ignores_typing_witness :
  same_inputs (session_state recipe_steps)
    (session_state (Scenario.after (tab1 70 2 true "g" "% w/w") recipe_steps))
  /\ same_inputs (session_state recipe_steps)
       (session_state
          (Scenario.after (tab2 300 0.5 true "g" "% w/w") recipe_steps)).
Proof.
  apply X9_recipe_mode_ignores_typing. vm_compute. discriminate.
Defined.

Lemma recipe_steps_completed :
  mode (session_state recipe_steps) = "SOP-Driven"
  /\ stock_conc (session_state recipe_steps) = Some 0.3
  /\ step1_completed (session_state recipe_steps) = true
  /\ step2_completed (session_state recipe_steps) = true.
Proof. repeat split; vm_compute; reflexivity. Qed.

(** X10.  In recipe mode, selecting a recipe of the table makes the stock
    amount and concentration of the session those of the recipe; if they
    were not already, both steps and both dictionaries are cleared.
    Selecting the same recipe again changes nothing. *)
Theorem X10_recipe_selected (selected_preset : string) (amount conc c0 : Q)
    (w : World) :
  mode (session_state w) = "SOP-Driven" ->
  SOP_PRESETS !! selected_preset = Some (amount, conc) ->
  stock_conc (session_state w) = Some c0 ->
  exists w1 c1,
    sop_preset selected_preset w = Returned tt w1
    /\ stock_amount (session_state w1) == amount
    /\ stock_conc (session_state w1) = Some c1 /\ c1 == conc
    /\ (~ stock_amount (session_state w) == amount \/ ~ c0 == conc ->
        step1_completed (session_state w1) = false
        /\ step2_completed (session_state w1) = false
        /\ stock_calculations (session_state w1) = ∅
        /\ dilution_calculations (session_state w1) = ∅)
    /\ (stock_amount (session_state w) == amount -> c0 == conc -> w1 = w)
    /\ sop_preset selected_preset w1 = Returned tt w1.
Proof.
  intros Hm Hp Hc.
  assert (Hsame : forall w1 c1,
             mode (session_state w1) = "SOP-Driven" ->
             stock_amount (session_state w1) == amount ->
             stock_conc (session_state w1) = Some c1 -> c1 == conc ->
             sop_preset selected_preset w1 = Returned tt w1).
  { intros w1 c1 Hm1 Ha1 Hc1 Hc1'.
    unfold sop_preset, bind at 1, get_session_state. rewrite Hm1, Hp.
    change ("SOP-Driven" =? "SOP-Driven")%string with true. cbv iota zeta.
    rewrite (proj2 (ne_false _ _) Ha1).
    unfold bind at 1, attr_stock_conc, bind at 1, get_session_state.
    rewrite Hc1. simpl. rewrite (proj2 (ne_false _ _) Hc1'). reflexivity. }
  unfold sop_preset at 1, bind at 1, get_session_state. rewrite Hm, Hp.
  change ("SOP-Driven" =? "SOP-Driven")%string with true. cbv iota zeta.
  destruct (ne (stock_amount (session_state w)) amount) eqn:Ea.
  - apply ne_true in Ea. eexists _, conc. split; [reflexivity|]. simpl.
    split; [reflexivity|]. split; [reflexivity|]. split; [reflexivity|].
    split; [intros _; repeat split|]. split; [intros H; contradiction|].
    apply (Hsame _ conc); simpl; [exact Hm|reflexivity..].
  - apply ne_false in Ea.
    unfold bind at 1, attr_stock_conc, bind at 1, get_session_state.
    rewrite Hc. simpl.
    destruct (ne c0 conc) eqn:Ec.
    + apply ne_true in Ec. eexists _, conc. split; [reflexivity|]. simpl.
      split; [reflexivity|]. split; [reflexivity|]. split; [reflexivity|].
      split; [intros _; repeat split|]. split; [intros _ H; contradiction|].
      apply (Hsame _ conc); simpl; [exact Hm|reflexivity..].
    + apply ne_false in Ec. exists w, c0. split; [reflexivity|].
      split; [exact Ea|]. split; [exact Hc|]. split; [exact Ec|].
      split; [intros [H|H]; contradiction|]. split; [reflexivity|].
      now apply (Hsame w c0).
Qed.

(** After the recipe at 0.3 %, the recipe at 1 % clears both steps. *)
Lemma X10_recipe_selected_witness :
  exists w1 c1,
    sop_preset "1% Latex Stock (200 g)" recipe_steps = Returned tt w1
    /\ stock_amount (session_state w1) == 200
    /\ stock_conc (session_state w1) = Some c1 /\ c1 == 1
    /\ step1_completed (session_state w1) = false
    /\ step2_completed (session_state w1) = false
    /\ sop_preset "1% Latex Stock (200 g)" w1 = Returned tt w1.
Proof.
  destruct (X10_recipe_selected "1% Latex Stock (200 g)" 200 1 0.3 recipe_steps)
    as (w1 & c1 & Hrun & Ha & Hc & Hc' & Hchanged & _ & Hagain).
  - exact (proj1 recipe_steps_completed).
  - vm_compute. reflexivity.
  - exact (proj1 (proj2 recipe_steps_completed)).
  - destruct Hchanged as (E1 & E2 & _); [right; discriminate|].
    exists w1, c1. repeat (split; [assumption|]). assumption.
Defined.

(** *** Bounds *)

(** X11.  The validator never returns more than three messages: an
    amount cannot be both non-positive and above 10000, nor a
    concentration both non-positive and at least 100.  Three are
    reached. *)
Theorem X11_validate_inputs_at_most_three :
  (forall (st : SessionState) (amount concentration : Q) (step_name : string),
      (length (validate_inputs st amount concentration step_name) <= 3)%nat)
  /\ length (validate_inputs init_session_state (-5) 100 "Final Dilution") = 3%nat.
Proof.
  split; [|reflexivity].
  intros st amount concentration step_name.
  rewrite validate_inputs_rules. unfold Rules.validate, Rules.all_rules.
  rewrite List.length_map. cbn [List.filter]. unfold Rules.violated.
  destruct (Qlt_le_dec 0 amount), (Qlt_le_dec 0 concentration),
    (Qlt_le_dec concentration 100), (Qlt_le_dec 10000 amount);
    (destruct (string_dec step_name "Final Dilution");
     [destruct (stock_conc st) as [prior|];
      [destruct (Qlt_le_dec concentration prior)|]|]);
    simpl; first [lia | exfalso; lra].
Qed.

(** X12.  [app.py] has no validator and its concentration field has no
    upper bound: for a positive amount and a concentration above 100 % its
    [calculate_solution] returns more emulsion than the amount and a
    negative amount of water, and the step is still flagged complete.  At
    100 % exactly the water is zero. *)
Theorem X12_app_negative_water (stock_amount stock_conc : Q) :
  0 < stock_amount -> 100 <= stock_conc ->
  exists emulsion water,
    App.step1 stock_amount stock_conc = ((emulsion, water), true)
    /\ stock_amount <= emulsion
    /\ water <= 0
    /\ (100 < stock_conc -> stock_amount < emulsion /\ water < 0)
    /\ (stock_conc == 100 -> water == 0).
Proof.
  intros Ha Hc. unfold App.step1, App.calculate_solution.
  assert (Hcpos : 0 < stock_conc) by lra.
  rewrite (proj2 (gt_true stock_amount 0) Ha), (proj2 (gt_true stock_conc 0) Hcpos).
  eexists _, _. split; [reflexivity|].
  assert (E : stock_amount * (stock_conc / 100) - stock_amount
              == stock_amount * (stock_conc - 100) * (1 # 100)) by field.
  assert (H0 : 0 <= stock_amount * (stock_conc - 100) * (1 # 100)).
  { apply Qmult_le_0_compat; [|discriminate].
    apply Qmult_le_0_compat; lra. }
  split; [lra|]. split; [lra|]. split.
  - intros Hlt.
    assert (H1 : 0 < stock_amount * (stock_conc - 100) * (1 # 100)).
    { apply Qmult_lt_0_compat; [|reflexivity].
      apply Qmult_lt_0_compat; lra. }
    split; lra.
  - intros Heq. rewrite Heq. field.
Qed.

(** 50 g at 150 %: 75 g of emulsion and -25 g of water. *)
Lemma X12_app_negative_water_witness :
  exists emulsion water,
    App.step1 50 150 = ((emulsion, water), true)
    /\ emulsion == 75 /\ water == -25.
Proof.
  destruct (X12_app_negative_water 50 150) as (e & wt & Hrun & _).
  - reflexivity.
  - discriminate.
  - exists e, wt. split; [exact Hrun|].
    injection Hrun as <- <-. split; reflexivity.
Defined.

(** *** A change of mode or of unit system *)

Lemma get_unit_config_returns (w : World) :
  exists config, get_unit_config w = Returned config w.
Proof.
  unfold get_unit_config, bind, get_session_state.
  destruct (UNIT_CONFIGS !! unit_type (session_state w));
    eexists; reflexivity.
Qed.

Lemma mode_radio_sets (new_mode : string) (w : World) :
  exists w',
    mode_radio new_mode w = Returned tt w'
    /\ mode (session_state w') = new_mode
    /\ unit_type (session_state w') = unit_type (session_state w)
    /\ stock_conc (session_state w') = stock_conc (session_state w)
    /\ log w' = log w /\ page w' = page w
    /\ (new_mode <> mode (session_state w) -> cleared (session_state w'))
    /\ (cleared (session_state w) -> cleared (session_state w')).
Proof.
  unfold mode_radio, bind at 1, get_session_state.
  destruct (String.eqb_spec new_mode (mode (session_state w))) as [E|E].
  - exists w. simpl. split; [reflexivity|]. split; [symmetry; exact E|].
    do 4 (split; [reflexivity|]). split; [intros H; contradiction|auto].
  - eexists. split; [reflexivity|]. read_fields. unfold cleared. simpl.
    do 5 (split; [reflexivity|]). split; intros _; repeat split.
Qed.

Lemma unit_radio_sets (new_unit_type : string) (unit_config : string * string)
    (w : World) :
  exists config w',
    unit_radio new_unit_type unit_config w = Returned config w'
    /\ unit_type (session_state w') = new_unit_type
    /\ mode (session_state w') = mode (session_state w)
    /\ stock_conc (session_state w') = stock_conc (session_state w)
    /\ log w' = log w /\ page w' = page w
    /\ (new_unit_type <> unit_type (session_state w) ->
        cleared (session_state w'))
    /\ (cleared (session_state w) -> cleared (session_state w')).
Proof.
  unfold unit_radio, bind at 1, get_session_state.
  destruct (String.eqb_spec new_unit_type (unit_type (session_state w)))
    as [E|E]; cbn [negb].
  - exists unit_config, w. split; [reflexivity|].
    split; [symmetry; exact E|]. do 4 (split; [reflexivity|]).
    split; [intros H; contradiction|auto].
  - pose (w1 :=
            {| session_state :=
                 set_dilution_calculations ∅
                   (set_stock_calculations ∅
                      (set_step2_completed false
                         (set_step1_completed false
                            (set_unit_type new_unit_type (session_state w)))));
               log := log w;
               page := page w |}).
    destruct (get_unit_config_returns w1) as [config Hconfig].
    exists config, w1. split; [exact Hconfig|].
    do 5 (split; [reflexivity|]). split; intros _; repeat split.
Qed.

(** The world after new stock values are stored: lines 396-399 and
    431-434. *)
Lemma stock_values_stored (amount conc : Q) (w : World) :
  exists w',
    bind (update (set_stock_amount amount))
      (fun _ => bind (update (set_stock_conc conc))
                  (fun _ => reset_calculations)) w
    = Returned tt w'
    /\ is_Some (stock_conc (session_state w'))
    /\ cleared (session_state w')
    /\ mode (session_state w') = mode (session_state w)
    /\ unit_type (session_state w') = unit_type (session_state w)
    /\ log w' = log w /\ page w' = page w.
Proof.
  exists {| session_state :=
              set_dilution_calculations ∅
                (set_stock_calculations ∅
                   (set_step2_completed false
                      (set_step1_completed false
                         (set_stock_conc conc
                            (set_stock_amount amount (session_state w))))));
            log := log w;
            page := page w |}.
  split; [reflexivity|]. split; [exists conc; reflexivity|].
  split; [repeat split|]. repeat split.
Qed.

Lemma quiet_sop_preset (selected_preset : string) :
  is_Some (SOP_PRESETS !! selected_preset) -> quiet (sop_preset selected_preset).
Proof.
  intros [[amount conc] Hp] w [c Hc] Hw.
  assert (Hsame : exists (a : unit) (w' : World),
             Returned tt w = Returned a w'
             /\ is_Some (stock_conc (session_state w'))
             /\ cleared (session_state w')
             /\ mode (session_state w') = mode (session_state w)
             /\ unit_type (session_state w') = unit_type (session_state w)
             /\ log w' = log w /\ page w' = page w).
  { exists tt, w. split; [reflexivity|]. split; [exists c; exact Hc|].
    split; [exact Hw|]. repeat split. }
  unfold sop_preset, bind at 1, get_session_state. rewrite Hp. clear Hp.
  destruct (String.eqb (mode (session_state w)) "SOP-Driven");
    [|exact Hsame].
  cbv zeta. destruct (ne (stock_amount (session_state w)) amount).
  - exists tt. apply stock_values_stored.
  - unfold bind at 1, attr_stock_conc, bind at 1, get_session_state.
    rewrite Hc. unfold ret at 1. destruct (ne c conc); [|exact Hsame].
    exists tt. apply stock_values_stored.
Qed.

Lemma quiet_tab1 (new_amount new_conc : Q) (unit_ conc_unit : string) :
  quiet (tab1 new_amount new_conc false unit_ conc_unit).
Proof.
  intros w [c Hc] Hw.
  assert (Hsame : exists (a : unit) (w' : World),
             Returned tt w = Returned a w'
             /\ is_Some (stock_conc (session_state w'))
             /\ cleared (session_state w')
             /\ mode (session_state w') = mode (session_state w)
             /\ unit_type (session_state w') = unit_type (session_state w)
             /\ log w' = log w /\ page w' = page w).
  { exists tt, w. split; [reflexivity|]. split; [exists c; exact Hc|].
    split; [exact Hw|]. repeat split. }
  assert (Hstored : forall w',
             bind (update (set_stock_amount new_amount))
               (fun _ => bind (update (set_stock_conc new_conc))
                           (fun _ => reset_calculations)) w
             = Returned tt w' ->
             bind (bind (update (set_stock_amount new_amount))
                     (fun _ => bind (update (set_stock_conc new_conc))
                                 (fun _ => reset_calculations)))
               (fun _ => ret tt) w
             = Returned tt w').
  { intros w' H. unfold bind at 1. rewrite H. reflexivity. }
  unfold tab1, bind at 1, get_session_state.
  destruct (String.eqb (mode (session_state w)) "Manual Input");
    [|exact Hsame].
  unfold stock_inputs. cbv zeta.
  destruct (stock_values_stored new_amount new_conc w) as (w' & Hrun & Hrest).
  unfold bind at 1, bind at 1, get_session_state.
  destruct (ne new_amount (stock_amount (session_state w))).
  - exists tt, w'. split; [|exact Hrest].
    unfold bind at 1 in Hrun. unfold bind at 1.
    destruct (update (set_stock_amount new_amount) w); [|discriminate].
    rewrite Hrun. reflexivity.
  - unfold bind at 1, attr_stock_conc, bind at 1, get_session_state.
    rewrite Hc. unfold ret at 1. destruct (ne new_conc c); [|exact Hsame].
    exists tt, w'. split; [|exact Hrest].
    unfold bind at 1 in Hrun. unfold bind at 1.
    destruct (update (set_stock_amount new_amount) w); [|discriminate].
    rewrite Hrun. reflexivity.
Qed.

Lemma quiet_stock_results : quiet stock_results.
Proof.
  intros w Hc Hw. unfold stock_results, bind at 1, get_session_state.
  destruct Hw as (E1 & E2 & Es & Ed). rewrite E1.
  eexists _, w. split; [reflexivity|]. split; [exact Hc|].
  split; [repeat split; assumption|]. repeat split.
Qed.

(** X13.  A run in which the mode or the unit system chosen is not the one
    of the session, and the button of step 1 is not pressed, leaves
    nothing calculated: both steps are open again and both dictionaries
    empty, whatever is typed and whether or not the button of step 2 is
    pressed.  The run stops at the gate of tab 2: the warning of the
    sidebar and the warning of the gate are shown, in this order, and
    nothing else; the session has the mode and the unit system chosen. *)
Theorem X13_mode_or_unit_change (i : Inputs) (w : World) :
  offered i ->
  is_Some (stock_conc (session_state w)) ->
  reset_clicked i = false ->
  stock_clicked i = false ->
  chosen_mode i <> mode (session_state w)
  \/ chosen_unit_type i <> unit_type (session_state w) ->
  exists w',
    main i w = Raised StopException w'
    /\ cleared (session_state w')
    /\ mode (session_state w') = chosen_mode i
    /\ unit_type (session_state w') = chosen_unit_type i
    /\ log w' = log w
    /\ page w'
       = (page w ++
          [StWarning safety_reminders;
           StWarning [Lit "⚠️ Please complete the Stock Solution calculation first."]])%list.
Proof.
  intros (_ & _ & Hp) [c Hc] Hreset Hclick Hchange.
  destruct w as [s l p]. cbn [session_state log page] in *.
  unfold main, bind at 1, setdefaults, update. cbn [session_state log page].
  rewrite Hc.
  destruct (get_unit_config_returns
              {| session_state := s; log := l; page := p |}) as [config Hcfg].
  rewrite (bind_returned _ _ _ _ _ Hcfg).
  unfold bind at 1, sidebar, st_warning. cbn [session_state log page].
  rewrite Hreset.
  destruct (mode_radio_sets (chosen_mode i)
              {| session_state := s; log := l;
                 page := (p ++ [StWarning safety_reminders])%list |})
    as (w1 & Hrun1 & Hm1 & Hu1 & Hc1 & Hl1 & Hp1 & Hnew1 & _).
  rewrite (bind_returned _ _ _ _ _ Hrun1).
  destruct (unit_radio_sets (chosen_unit_type i) config w1)
    as (config' & w2 & Hrun2 & Hu2 & Hm2 & Hc2 & Hl2 & Hp2 & Hnew2 & Hkeep2).
  rewrite (bind_returned _ _ _ _ _ Hrun2).
  cbn [session_state log page] in *.
  assert (Hcl2 : cleared (session_state w2)).
  { destruct Hchange as [H|H].
    - apply Hkeep2, Hnew1, H.
    - apply Hnew2. rewrite Hu1. exact H. }
  assert (Hs2 : is_Some (stock_conc (session_state w2))).
  { exists c. rewrite Hc2, Hc1. exact Hc. }
  destruct (quiet_sop_preset _ Hp w2 Hs2 Hcl2)
    as ([] & w3 & Hrun3 & Hs3 & Hcl3 & Hm3 & Hu3 & Hl3 & Hp3).
  rewrite (bind_returned _ _ _ _ _ Hrun3). cbv zeta. rewrite Hclick.
  destruct (quiet_tab1 (stock_amount_input i) (stock_conc_input i)
              (fst config') (snd config') w3 Hs3 Hcl3)
    as ([] & w4 & Hrun4 & Hs4 & Hcl4 & Hm4 & Hu4 & Hl4 & Hp4).
  rewrite (bind_returned _ _ _ _ _ Hrun4).
  destruct (quiet_stock_results w4 Hs4 Hcl4)
    as (shown_ & w5 & Hrun5 & Hs5 & Hcl5 & Hm5 & Hu5 & Hl5 & Hp5).
  rewrite (bind_returned _ _ _ _ _ Hrun5).
  unfold bind at 1. rewrite (tab2_closed _ _ _ _ _ w5 (proj1 Hcl5)).
  eexists. split; [reflexivity|]. cbn [session_state log page].
  split; [exact Hcl5|].
  split; [congruence|]. split; [congruence|]. split; [congruence|].
  rewrite Hp5, Hp4, Hp3, Hp2, Hp1. rewrite <- app_assoc. reflexivity.
Qed.

(** After both steps in grams, choosing millilitres opens both again. *)
Lemma X13_mode_or_unit_change_witness :
  exists w',
    main {| reset_clicked := false;
            chosen_mode := "Manual Input";
            chosen_unit_type := "Volume (mL) / % v/v";
            selected_preset := "1% Latex Stock (200 g)";
            stock_amount_input := 200; stock_conc_input := 1;
            stock_clicked := false;
            final_amount_input := 200; final_conc_input := 0.1;
            final_clicked := true |} both_steps = Raised StopException w'
    /\ cleared (session_state w')
    /\ unit_type (session_state w') = "Volume (mL) / % v/v".
Proof.
  destruct (X13_mode_or_unit_change
              {| reset_clicked := false;
                 chosen_mode := "Manual Input";
                 chosen_unit_type := "Volume (mL) / % v/v";
                 selected_preset := "1% Latex Stock (200 g)";
                 stock_amount_input := 200; stock_conc_input := 1;
                 stock_clicked := false;
                 final_amount_input := 200; final_conc_input := 0.1;
                 final_clicked := true |} both_steps)
    as (w' & Hrun & Hcl & _ & Hu & _).
  - split; [left; reflexivity|]. split.
    + exists ("mL", "% v/v"). vm_compute. reflexivity.
    + exists (200, 1). vm_compute. reflexivity.
  - exists 1. vm_compute. reflexivity.
  - reflexivity.
  - reflexivity.
  - right. vm_compute. discriminate.
  - exists w'. split; [exact Hrun|]. split; [exact Hcl|exact Hu].
Defined.

(** * The program on binary64 numbers

    The claims that depend on the arithmetic, settled on [Rounded]. *)

Import Float64 Rounded.Mode.
Local Open Scope f64_scope.

(** ** Powers of two and rounding *)

Lemma pow2_pos (e : Z) : 0 < pow2 e.
Proof. apply Qpower_0_lt. reflexivity. Qed.

Lemma pow2_add (a b : Z) : pow2 (a + b) == pow2 a * pow2 b.
Proof. apply Qpower_plus. discriminate. Qed.

Lemma pow2_le (a b : Z) : (a <= b)%Z -> pow2 a <= pow2 b.
Proof. intros H. apply Qpower_le_compat_l; [exact H|discriminate]. Qed.

Lemma pow2_lt (a b : Z) : (a < b)%Z -> pow2 a < pow2 b.
Proof. intros H. apply Qpower_lt_compat_l; [exact H|reflexivity]. Qed.

Lemma pow2_lt_inv (a b : Z) : pow2 a < pow2 b -> (a < b)%Z.
Proof. intros H. apply (Qpower_lt_compat_l_inv 2); [exact H|reflexivity]. Qed.

Lemma pow2_inject (n : Z) : (0 <= n)%Z -> pow2 n == inject_Z (2 ^ n).
Proof. intros H. unfold pow2. rewrite Zpower_Qpower by exact H. reflexivity. Qed.

Lemma pow2_sub (a b : Z) : pow2 (a - b) == pow2 a / pow2 b.
Proof.
  unfold Z.sub. rewrite pow2_add. unfold pow2 at 2. rewrite Qpower_opp.
  reflexivity.
Qed.

Lemma pow2_0 : pow2 0 == 1.
Proof. reflexivity. Qed.

Lemma Qdiv_mult_le (p q d : Q) : 0 < q -> 0 <= p -> d <= q -> p / q * d <= p.
Proof.
  intros Hq Hp Hd.
  assert (E : p / q * d == p - p * ((q - d) / q)) by (field; lra).
  rewrite E.
  assert (0 <= p * ((q - d) / q)).
  { apply Qmult_le_0_compat; [lra|]. apply Qle_shift_div_l; lra. }
  lra.
Qed.

Lemma Qdiv_mult_ge (p q d : Q) : 0 < q -> 0 <= p -> q <= d -> p <= p / q * d.
Proof.
  intros Hq Hp Hd.
  assert (E : p / q * d == p + p * ((d - q) / q)) by (field; lra).
  rewrite E.
  assert (0 <= p * ((d - q) / q)).
  { apply Qmult_le_0_compat; [lra|]. apply Qle_shift_div_l; lra. }
  lra.
Qed.

(** Bounds of a positive rational between powers of two. *)
Lemma ilog2_bounds (x : Q) :
  0 < x ->
  let k := (Z.log2 (Qnum x) - Z.log2 (Zpos (Qden x)))%Z in
  pow2 (k - 1) <= x /\ x < pow2 (k + 1).
Proof.
  intros Hx k. destruct x as [n d]. unfold k. cbn [Qnum Qden].
  assert (Hn : (0 < n)%Z).
  { unfold Qlt in Hx. cbn in Hx. lia. }
  pose proof (Z.log2_spec n Hn) as [Hn1 Hn2].
  pose proof (Z.log2_spec (Zpos d) (Pos2Z.is_pos d)) as [Hd1 Hd2].
  pose proof (Z.log2_nonneg n) as Ha.
  pose proof (Z.log2_nonneg (Zpos d)) as Hb.
  set (a := Z.log2 n) in *. set (b := Z.log2 (Zpos d)) in *.
  assert (Ex : n # d == inject_Z n / inject_Z (Zpos d)) by apply Qmake_Qdiv.
  assert (Hdpos : 0 < inject_Z (Zpos d)) by reflexivity.
  assert (Qn1 : pow2 a <= inject_Z n).
  { rewrite pow2_inject by exact Ha. rewrite <- Zle_Qle. exact Hn1. }
  assert (Qn2 : inject_Z n < pow2 (a + 1)).
  { rewrite pow2_inject by lia. rewrite <- Zlt_Qlt.
    replace (a + 1)%Z with (Z.succ a) by lia. exact Hn2. }
  assert (Qd1 : pow2 b <= inject_Z (Zpos d)).
  { rewrite pow2_inject by exact Hb. rewrite <- Zle_Qle. exact Hd1. }
  assert (Qd2 : inject_Z (Zpos d) < pow2 (b + 1)).
  { rewrite pow2_inject by lia. rewrite <- Zlt_Qlt.
    replace (b + 1)%Z with (Z.succ b) by lia. exact Hd2. }
  rewrite Ex. split.
  - apply Qle_shift_div_l; [exact Hdpos|].
    replace (a - b - 1)%Z with (a - (b + 1))%Z by lia. rewrite pow2_sub.
    apply Qle_trans with (pow2 a); [|exact Qn1].
    apply Qdiv_mult_le; [apply pow2_pos|apply Qlt_le_weak, pow2_pos|lra].
  - apply Qlt_shift_div_r; [exact Hdpos|].
    replace (a - b + 1)%Z with (a + 1 - b)%Z by lia. rewrite pow2_sub.
    apply Qlt_le_trans with (pow2 (a + 1)); [exact Qn2|].
    apply Qdiv_mult_ge; [apply pow2_pos|apply Qlt_le_weak, pow2_pos|lra].
Qed.

Lemma ilog2_spec (x : Q) :
  0 < x -> pow2 (ilog2 x) <= x /\ x < pow2 (ilog2 x + 1).
Proof.
  intros Hx. destruct (ilog2_bounds x Hx) as [Hlo Hhi]. unfold ilog2.
  set (k := (Z.log2 (Qnum x) - Z.log2 (Zpos (Qden x)))%Z) in *.
  destruct (Qle_bool (pow2 k) x) eqn:E.
  - apply Qle_bool_iff in E. split; assumption.
  - assert (Hlt : x < pow2 k).
    { apply Qnot_le_lt. intros H. apply Qle_bool_iff in H. congruence. }
    split; [exact Hlo|]. replace (k - 1 + 1)%Z with k by lia. exact Hlt.
Qed.

Lemma ilog2_unique (x : Q) (k : Z) :
  pow2 k <= x -> x < pow2 (k + 1) -> ilog2 x = k.
Proof.
  intros Hlo Hhi.
  assert (Hx : 0 < x) by (pose proof (pow2_pos k); lra).
  destruct (ilog2_spec x Hx) as [Hlo' Hhi'].
  assert (H1 : (ilog2 x < k + 1)%Z).
  { apply pow2_lt_inv. lra. }
  assert (H2 : (k < ilog2 x + 1)%Z).
  { apply pow2_lt_inv. lra. }
  lia.
Qed.

Lemma ilog2_comp (x y : Q) : 0 < x -> x == y -> ilog2 x = ilog2 y.
Proof.
  intros Hx E. symmetry. destruct (ilog2_spec x Hx) as [Hlo Hhi].
  apply ilog2_unique; rewrite <- E; assumption.
Qed.

Lemma ilog2_mono (x y : Q) : 0 < x -> x <= y -> (ilog2 x <= ilog2 y)%Z.
Proof.
  intros Hx Hxy.
  destruct (ilog2_spec x Hx) as [Hlo Hhi].
  destruct (ilog2_spec y) as [Hlo' Hhi']; [lra|].
  assert (H : (ilog2 x < ilog2 y + 1)%Z) by (apply pow2_lt_inv; lra).
  lia.
Qed.

(** ** Rounding to the nearest integer, ties to even *)

Lemma rne_cases (q : Q) :
  let f := Qfloor q in
  let r := q - inject_Z f in
  0 <= r /\ r < 1
  /\ ((r < 1 # 2 /\ rne q = f)
      \/ (1 # 2 < r /\ rne q = (f + 1)%Z)
      \/ (r == 1 # 2 /\ rne q = if Z.even f then f else (f + 1)%Z)).
Proof.
  intros f r. pose proof (Qfloor_le q) as H1. pose proof (Qlt_floor q) as H2.
  fold f in H1, H2. rewrite inject_Z_plus in H2.
  change (inject_Z 1) with 1 in H2.
  split; [unfold r; lra|]. split; [unfold r; lra|].
  unfold rne. fold f. fold r.
  destruct (Qcompare_spec r (1 # 2)) as [E|E|E]; auto.
Qed.

Lemma rne_spec (q : Q) :
  inject_Z (rne q) - (1 # 2) <= q /\ q <= inject_Z (rne q) + (1 # 2).
Proof.
  destruct (rne_cases q) as (H0 & H1 & [[H E]|[[H E]|[H E]]]);
    rewrite E; clear E.
  - lra.
  - rewrite inject_Z_plus. change (inject_Z 1) with 1. lra.
  - destruct (Z.even (Qfloor q));
      [|rewrite inject_Z_plus; change (inject_Z 1) with 1]; lra.
Qed.

Lemma rne_floor (q : Q) : rne q = Qfloor q \/ rne q = (Qfloor q + 1)%Z.
Proof.
  destruct (rne_cases q) as (H0 & H1 & [[H E]|[[H E]|[H E]]]); auto.
  destruct (Z.even (Qfloor q)); auto.
Qed.

Lemma rne_comp (q q' : Q) : q == q' -> rne q = rne q'.
Proof.
  intros E. unfold rne.
  assert (Ef : Qfloor q' = Qfloor q) by (symmetry; apply Qfloor_comp, E).
  rewrite Ef.
  assert (E' : q - inject_Z (Qfloor q) == q' - inject_Z (Qfloor q)) by lra.
  assert (Ec : Qcompare (q - inject_Z (Qfloor q)) (1 # 2)
               = Qcompare (q' - inject_Z (Qfloor q)) (1 # 2))
    by (apply Qcompare_comp; [exact E'|reflexivity]).
  rewrite Ec. reflexivity.
Qed.

Lemma rne_Z (z : Z) : rne (inject_Z z) = z.
Proof.
  destruct (rne_cases (inject_Z z)) as (H0 & H1 & H).
  rewrite Qfloor_Z in *.
  destruct H as [[H E]|[[H E]|[H E]]]; [exact E|lra|lra].
Qed.

Lemma rne_mono (q q' : Q) : q <= q' -> (rne q <= rne q')%Z.
Proof.
  intros Hq. pose proof (Qfloor_resp_le _ _ Hq) as Hf.
  destruct (rne_cases q) as (H0 & H1 & H).
  destruct (rne_cases q') as (H0' & H1' & H').
  destruct (rne_floor q) as [F|F]; destruct (rne_floor q') as [F'|F'];
    try lia.
  destruct (Z.eq_dec (Qfloor q) (Qfloor q')) as [Ef|Ef]; [|lia].
  exfalso. rewrite <- Ef in *.
  destruct H as [[H E]|[[H E]|[H E]]];
    destruct H' as [[H' E']|[[H' E']|[H' E']]]; try lia; try lra;
    destruct (Z.even (Qfloor q)); lia.
Qed.


(** ** Rounding to binary64 *)

Lemma rnd_zero (x : Q) : x == 0 -> rnd x = 0.
Proof.
  intros E. unfold rnd. apply Qeq_bool_iff in E. rewrite E. reflexivity.
Qed.

Lemma rnd_nonzero (x : Q) :
  ~ x == 0 ->
  rnd x = inject_Z (rne (x / pow2 (exponent x))) * pow2 (exponent x).
Proof.
  intros H. unfold rnd. destruct (Qeq_bool x 0) eqn:E; [|reflexivity].
  apply Qeq_bool_iff in E. contradiction.
Qed.

Lemma exponent_comp (x y : Q) : ~ x == 0 -> x == y -> exponent x = exponent y.
Proof.
  intros Hx E. unfold exponent.
  assert (H : ilog2 (Qabs x) = ilog2 (Qabs y)).
  { apply ilog2_comp; [|apply Qabs_wd, E].
    pose proof (Qabs_nonneg x) as H0.
    destruct (Qeq_dec (Qabs x) 0) as [E0|E0]; [|lra].
    exfalso. apply Hx. revert E0. apply Qabs_case; intros; lra. }
  rewrite H. reflexivity.
Qed.

Lemma rnd_comp (x y : Q) : x == y -> rnd x == rnd y.
Proof.
  intros E. destruct (Qeq_dec x 0) as [E0|E0].
  - rewrite (rnd_zero x E0), (rnd_zero y); [reflexivity|lra].
  - assert (E0' : ~ y == 0) by (intros H; apply E0; lra).
    rewrite (rnd_nonzero x E0), (rnd_nonzero y E0').
    rewrite <- (exponent_comp x y E0 E).
    assert (Er : rne (x / pow2 (exponent x)) = rne (y / pow2 (exponent x))).
    { apply rne_comp. apply Qdiv_comp; [exact E|reflexivity]. }
    rewrite Er. reflexivity.
Qed.

Lemma exponent_pos (x : Q) :
  0 < x -> exponent x = Z.max (ilog2 x - 52) (-1074).
Proof.
  intros Hx. unfold exponent.
  rewrite (ilog2_comp (Qabs x) x); [reflexivity| |apply Qabs_pos; lra].
  rewrite Qabs_pos; lra.
Qed.

Lemma exponent_ge (x : Q) : (-1074 <= exponent x)%Z.
Proof. unfold exponent. lia. Qed.

(** The scaled value [x / 2^e] and back. *)
Lemma scale_back (x : Q) (e : Z) : x / pow2 e * pow2 e == x.
Proof. pose proof (pow2_pos e). field. lra. Qed.

Lemma rnd_nonneg (x : Q) : 0 <= x -> 0 <= rnd x.
Proof.
  intros Hx. destruct (Qeq_dec x 0) as [E0|E0].
  - rewrite (rnd_zero x E0). lra.
  - rewrite (rnd_nonzero x E0). set (e := exponent x).
    pose proof (pow2_pos e) as He.
    apply Qmult_le_0_compat; [|lra].
    assert (H : (rne 0 <= rne (x / pow2 e))%Z).
    { apply rne_mono. apply Qle_shift_div_l; lra. }
    change 0 with (inject_Z 0) in H at 1. rewrite rne_Z in H.
    rewrite Zle_Qle in H. exact H.
Qed.

(** Rounding never crosses a multiple of the unit in the last place. *)
Lemma rnd_le_grid (x : Q) (n : Z) :
  ~ x == 0 -> x <= inject_Z n * pow2 (exponent x) ->
  rnd x <= inject_Z n * pow2 (exponent x).
Proof.
  intros E0 H. rewrite (rnd_nonzero x E0). set (e := exponent x) in *.
  pose proof (pow2_pos e) as He.
  apply Qmult_le_compat_r; [|lra]. rewrite <- Zle_Qle.
  rewrite <- (rne_Z n). apply rne_mono. apply Qle_shift_div_r; lra.
Qed.

Lemma rnd_ge_grid (x : Q) (n : Z) :
  ~ x == 0 -> inject_Z n * pow2 (exponent x) <= x ->
  inject_Z n * pow2 (exponent x) <= rnd x.
Proof.
  intros E0 H. rewrite (rnd_nonzero x E0). set (e := exponent x) in *.
  pose proof (pow2_pos e) as He.
  apply Qmult_le_compat_r; [|lra]. rewrite <- Zle_Qle.
  rewrite <- (rne_Z n) at 1. apply rne_mono. apply Qle_shift_div_l; lra.
Qed.

Lemma pow2_as_grid (a e : Z) :
  (e <= a)%Z -> pow2 a == inject_Z (2 ^ (a - e)) * pow2 e.
Proof.
  intros H. rewrite <- pow2_inject by lia. rewrite <- pow2_add.
  replace (a - e + e)%Z with a by lia. reflexivity.
Qed.

(** Rounding is monotone on the non-negative numbers. *)
Lemma rnd_mono_pos (x y : Q) : 0 < x -> x <= y -> rnd x <= rnd y.
Proof.
  intros Hx Hxy.
  assert (Hy : 0 < y) by lra.
  assert (E0 : ~ x == 0) by lra. assert (E0' : ~ y == 0) by lra.
  pose proof (ilog2_mono x y Hx Hxy) as Hl.
  pose proof (exponent_pos x Hx) as Ex. pose proof (exponent_pos y Hy) as Ey.
  destruct (Z.eq_dec (exponent x) (exponent y)) as [Ee|Ee].
  - rewrite (rnd_nonzero x E0), (rnd_nonzero y E0'), <- Ee.
    set (e := exponent x). pose proof (pow2_pos e) as He.
    apply Qmult_le_compat_r; [|lra]. rewrite <- Zle_Qle. apply rne_mono.
    apply Qmult_le_compat_r; [exact Hxy|].
    apply Qlt_le_weak, Qinv_lt_0_compat, He.
  - assert (Hlt : (exponent x < exponent y)%Z) by lia.
    assert (Ey' : exponent y = (ilog2 y - 52)%Z) by lia.
    assert (Hl' : (ilog2 x + 1 <= ilog2 y)%Z) by lia.
    destruct (ilog2_spec x Hx) as [_ Hxhi].
    destruct (ilog2_spec y Hy) as [Hylo _].
    apply Qle_trans with (pow2 (ilog2 y)).
    + rewrite (pow2_as_grid (ilog2 y) (exponent x)) by lia.
      apply rnd_le_grid; [exact E0|].
      rewrite <- pow2_as_grid by lia.
      pose proof (pow2_le _ _ Hl'). lra.
    + rewrite (pow2_as_grid (ilog2 y) (exponent y)) by lia.
      apply rnd_ge_grid; [exact E0'|].
      rewrite <- pow2_as_grid by lia. exact Hylo.
Qed.

Lemma rnd_mono (x y : Q) : 0 <= x -> x <= y -> rnd x <= rnd y.
Proof.
  intros Hx Hxy. destruct (Qeq_dec x 0) as [E0|E0].
  - rewrite (rnd_zero x E0). apply rnd_nonneg. lra.
  - apply rnd_mono_pos; [lra|exact Hxy].
Qed.

(** ** The error of one rounding *)

Lemma rnd_error (x : Q) :
  ~ x == 0 -> Qabs (rnd x - x) <= pow2 (exponent x) * (1 # 2).
Proof.
  intros E0. rewrite (rnd_nonzero x E0). set (e := exponent x).
  pose proof (pow2_pos e) as He.
  destruct (rne_spec (x / pow2 e)) as [L U].
  set (m := inject_Z (rne (x / pow2 e))) in *.
  assert (Ex : x == x / pow2 e * pow2 e) by (symmetry; apply scale_back).
  set (q := x / pow2 e) in *.
  assert (H1 : 0 <= (q - m + (1 # 2)) * pow2 e)
    by (apply Qmult_le_0_compat; lra).
  assert (H2 : 0 <= (m - q + (1 # 2)) * pow2 e)
    by (apply Qmult_le_0_compat; lra).
  apply Qabs_Qle_condition. split; nra.
Qed.

Lemma rnd_on_grid (x : Q) : on_grid (rnd x).
Proof.
  destruct (Qeq_dec x 0) as [E0|E0].
  - rewrite (rnd_zero x E0). exists 0%Z. ring.
  - rewrite (rnd_nonzero x E0). pose proof (exponent_ge x) as He.
    set (e := exponent x) in *. set (m := rne (x / pow2 e)).
    exists (m * 2 ^ (e + 1074))%Z.
    rewrite inject_Z_mult, (pow2_as_grid e (-1074)) by lia.
    replace (e - -1074)%Z with (e + 1074)%Z by lia. ring.
Qed.

Lemma is_float_on_grid (x : Q) : is_float x -> on_grid x.
Proof.
  intros [E _]. destruct (rnd_on_grid x) as [k Hk]. exists k.
  rewrite <- E. exact Hk.
Qed.

Lemma on_grid_sub (x y : Q) : on_grid x -> on_grid y -> on_grid (x - y).
Proof.
  intros [k Hk] [l Hl]. exists (k - l)%Z.
  unfold Z.sub. rewrite inject_Z_plus, inject_Z_opp, Hk, Hl. ring.
Qed.

Lemma on_grid_add (x y : Q) : on_grid x -> on_grid y -> on_grid (x + y).
Proof.
  intros [k Hk] [l Hl]. exists (k + l)%Z.
  rewrite inject_Z_plus, Hk, Hl. ring.
Qed.

(** Below 2^-1022 the grid is the set of binary64 numbers. *)
Lemma rnd_exact_small (x : Q) :
  on_grid x -> 0 < x -> x < pow2 (-1022) -> rnd x == x.
Proof.
  intros [k Hk] Hx Hsmall.
  assert (E0 : ~ x == 0) by lra.
  assert (He : exponent x = (-1074)%Z).
  { rewrite (exponent_pos x Hx).
    destruct (ilog2_spec x Hx) as [Hlo _].
    assert (ilog2 x < -1022)%Z by (apply pow2_lt_inv; lra). lia. }
  rewrite (rnd_nonzero x E0), He.
  assert (Eq : x / pow2 (-1074) == inject_Z k).
  { pose proof (pow2_pos (-1074)). rewrite Hk. field. lra. }
  rewrite (rne_comp _ _ Eq), rne_Z. symmetry. exact Hk.
Qed.

(** One rounding of a number that is not below 2^-1022 has a relative
    error of at most 2^-53. *)
Lemma rnd_rel_error (x : Q) :
  pow2 (-1022) <= x -> Qabs (rnd x - x) <= x * pow2 (-53).
Proof.
  intros Hn. pose proof (pow2_pos (-1022)) as Hp.
  assert (Hpos : 0 < x) by lra. assert (E0 : ~ x == 0) by lra.
  apply Qle_trans with (pow2 (exponent x) * (1 # 2));
    [apply rnd_error, E0|].
  destruct (ilog2_spec x Hpos) as [Hlo Hhi].
  assert (Hi : (-1022 <= ilog2 x)%Z).
  { assert (-1022 < ilog2 x + 1)%Z; [|lia]. apply pow2_lt_inv. lra. }
  rewrite (exponent_pos x Hpos).
  replace (Z.max (ilog2 x - 52) (-1074)) with (ilog2 x + -52)%Z by lia.
  rewrite pow2_add.
  assert (E53 : pow2 (-53) == pow2 (-52) * (1 # 2)) by reflexivity.
  rewrite E53. pose proof (pow2_pos (-52)) as H52.
  assert (H : pow2 (ilog2 x) * (pow2 (-52) * (1 # 2))
              <= x * (pow2 (-52) * (1 # 2))).
  { apply Qmult_le_compat_r; [exact Hlo|]. apply Qmult_le_0_compat; lra. }
  lra.
Qed.

(** One rounding of a sum or difference of binary64 numbers has a
    relative error of at most 2^-53. *)
Lemma rnd_error_grid (x : Q) :
  on_grid x -> 0 <= x -> Qabs (rnd x - x) <= x * pow2 (-53).
Proof.
  intros Hg Hx. pose proof (pow2_pos (-53)) as H53.
  assert (Hb : 0 <= x * pow2 (-53)) by (apply Qmult_le_0_compat; lra).
  destruct (Qeq_dec x 0) as [E0|E0].
  - rewrite (rnd_zero x E0). apply Qabs_Qle_condition. split; lra.
  - assert (Hpos : 0 < x) by lra.
    destruct (Qlt_le_dec x (pow2 (-1022))) as [Hs|Hn].
    + pose proof (rnd_exact_small x Hg Hpos Hs) as E.
      apply Qabs_Qle_condition. split; lra.
    + apply rnd_rel_error, Hn.
Qed.

(** ** The operations *)

Lemma round_cases (x : Q) :
  (round x = Finite (rnd x) /\ Qabs (rnd x) < pow2 1024)
  \/ (round x = Infinity (negative (rnd x)) /\ pow2 1024 <= Qabs (rnd x)).
Proof.
  unfold round. destruct (Qle_bool (pow2 1024) (Qabs (rnd x))) eqn:E.
  - right. split; [reflexivity|]. apply Qle_bool_iff, E.
  - left. split; [reflexivity|]. apply Qnot_le_lt. intros H.
    apply Qle_bool_iff in H. congruence.
Qed.

Lemma round_finite (x : Q) :
  Qabs (rnd x) < pow2 1024 -> round x = Finite (rnd x).
Proof.
  intros H. destruct (round_cases x) as [[E _]|[_ H']]; [exact E|lra].
Qed.










Lemma le_total (a b : float) :
  is_nan a = false -> is_nan b = false -> le a b = negb (gt a b).
Proof.
  destruct a as [x|[|]|], b as [y|[|]|]; simpl; try discriminate;
    intros _ _; try reflexivity.
  unfold gt, lt. simpl. rewrite negb_involutive. reflexivity.
Qed.

Lemma gt_not_le (a b : float) : gt a b = true -> le a b = false.
Proof.
  destruct a as [x|[|]|], b as [y|[|]|]; unfold gt, lt; simpl;
    try discriminate; try reflexivity.
  intros H. apply negb_true_iff in H. exact H.
Qed.

Lemma round_not_nan (x : Q) : is_nan (round x) = false.
Proof. destruct (round_cases x) as [[E _]|[E _]]; rewrite E; reflexivity. Qed.


Lemma gt_Finite (x y : Q) : gt (Finite x) (Finite y) = true <-> y < x.
Proof.
  unfold gt, lt. simpl. rewrite negb_true_iff. split.
  - intros H. apply Qnot_le_lt. intros Hle. apply Qle_bool_iff in Hle.
    congruence.
  - intros H. destruct (Qle_bool x y) eqn:E; [|reflexivity].
    apply Qle_bool_iff in E. lra.
Qed.

Lemma div_not_nan (a : float) (c : Q) :
  is_nan a = false -> is_nan (div a (Finite c)) = false.
Proof.
  destruct a as [x|s|]; simpl; [|reflexivity|discriminate].
  intros _. apply round_not_nan.
Qed.

Lemma is_zero_Finite (x : Q) : is_zero (Finite x) = false <-> ~ x == 0.
Proof.
  simpl. split.
  - intros H E. apply Qeq_bool_iff in E. congruence.
  - intros H. destruct (Qeq_bool x 0) eqn:E; [|reflexivity].
    apply Qeq_bool_iff in E. contradiction.
Qed.

(** ** [Float64] and the hardware floats

    The operations of [Float64] give what the hardware gives: on the
    numbers of the examples, at a tie, in the subnormal range, at the
    underflow to zero and at the overflow to infinity. *)
Lemma Float64_agrees_with_hardware :
  same (Binary64.to_Float64 0.1) (literal 0.1) = true
  /\ same (Binary64.to_Float64 (0.1 * 3)) (mul (literal 0.1) (literal 3))
     = true
  /\ same (Binary64.to_Float64 (0.7 / 100)) (div (literal 0.7) (literal 100))
     = true
  /\ same (Binary64.to_Float64 (70 - 0.48999999999999994))
       (sub (literal 70) (literal 0.48999999999999994)) = true
  /\ same (Binary64.to_Float64 (0.07 * 100 / 1))
       (div (mul (literal 0.07) (literal 100)) (literal 1)) = true
  /\ same (Binary64.to_Float64 (9007199254740993 * 1))
       (mul (literal 9007199254740993) (literal 1)) = true
  /\ same (Binary64.to_Float64 (9007199254740992 * 1.0000000000000002))
       (mul (literal 9007199254740992) (literal 1.0000000000000002)) = true
  /\ same (Binary64.to_Float64 (5e-324 * 0.5))
       (mul (literal 5e-324) (literal 0.5)) = true
  /\ same (Binary64.to_Float64 (1.5e-323 * 0.5))
       (mul (literal 1.5e-323) (literal 0.5)) = true
  /\ same (Binary64.to_Float64 (1e-200 * 1e-200))
       (mul (literal 1e-200) (literal 1e-200)) = true
  /\ same (Binary64.to_Float64 (2.2250738585072014e-308 / 3))
       (div (literal 2.2250738585072014e-308) (literal 3)) = true
  /\ same (Binary64.to_Float64 (1e308 * 10)) (mul (literal 1e308) (literal 10))
     = true
  /\ same (Binary64.to_Float64 (1.7976931348623157e308 * 1.0000000000000002))
       (mul (literal 1.7976931348623157e308) (literal 1.0000000000000002))
     = true
  /\ same (Binary64.to_Float64 (1e308 * 10 - 1e308 * 10))
       (sub (mul (literal 1e308) (literal 10)) (mul (literal 1e308) (literal 10)))
     = true
  /\ same (Binary64.to_Float64 (-5 - 1e308 * 10))
       (sub (literal (-5)) (mul (literal 1e308) (literal 10))) = true.
Proof. repeat split; vm_compute; reflexivity. Qed.

(** ** The dilution of step 2 *)

Lemma float_dilution_returns (d : gmap string value) (c1 available : float)
    (final_conc final_amount : float) (w : World) :
  d !! "stock_conc" = Some (VFloat c1) ->
  d !! "stock_amount" = Some (VFloat available) ->
  is_zero c1 = false ->
  dilution d final_conc final_amount w
  = Returned (div (mul final_conc final_amount) c1,
              sub final_amount (div (mul final_conc final_amount) c1),
              available) w.
Proof.
  intros Hsc Hav Hnz. unfold dilution, bind, getitem, as_float, truediv, ret.
  rewrite Hsc, Hnz, Hav. reflexivity.
Qed.




(** ** Sufficiency of the stock *)

(** C6, as the code has it.  Once the inputs pass the validation and the
    dictionary of step 1 holds a stock concentration that is not zero, the
    button of step 2 does not fail when the stock needed exceeds the stock
    available: it returns.  Step 2 is completed exactly when the stock
    needed, as computed in binary64, is at most the stock available.  When
    it exceeds it the step is not completed, the session is otherwise
    unchanged, and the page shows both amounts, so that the shortfall
    [stock_needed - available_stock], a positive amount, can be read off. *)
Theorem C6_insufficient_stock_reported (unit_ conc_unit : string) (sc av : Q)
    (w : World) :
  validate_inputs (session_state w) (final_amount (session_state w))
    (final_conc (session_state w)) "Final Dilution" = [] ->
  stock_calculations (session_state w) !! "stock_conc"
  = Some (VFloat (Finite sc)) ->
  stock_calculations (session_state w) !! "stock_amount"
  = Some (VFloat (Finite av)) ->
  ~ sc == 0 ->
  exists stock_needed water_needed w',
    stock_needed
    = div (mul (Finite (final_conc (session_state w)))
               (Finite (final_amount (session_state w)))) (Finite sc)
    /\ water_needed = sub (Finite (final_amount (session_state w))) stock_needed
    /\ dilution (stock_calculations (session_state w))
         (Finite (final_conc (session_state w)))
         (Finite (final_amount (session_state w))) w
       = Returned (stock_needed, water_needed, Finite av) w
    /\ calculate_final_dilution unit_ conc_unit w = Returned tt w'
    /\ (step2_completed (session_state w') = true
        <-> le stock_needed (Finite av) = true)
    /\ (gt stock_needed (Finite av) = true ->
        step2_completed (session_state w') = false
        /\ session_state w' = set_step2_completed false (session_state w)
        /\ page w'
           = (page w ++
              [StError [Lit "❌ Insufficient stock solution! Need ";
                        Fixed 2 stock_needed;
                        Lit (" " ++ unit_ ++ ", but only ");
                        Fixed 2 (Finite av);
                        Lit (" " ++ unit_ ++ " available.")]])%list
        /\ forall n, stock_needed = Finite n -> 0 < n - av).
Proof.
  intros Hv Hsc Hav Hnz. apply is_zero_Finite in Hnz.
  pose proof (float_dilution_returns _ _ _
                (Finite (final_conc (session_state w)))
                (Finite (final_amount (session_state w))) w Hsc Hav Hnz) as Hd.
  set (stock_needed :=
         div (mul (Finite (final_conc (session_state w)))
                  (Finite (final_amount (session_state w)))) (Finite sc)) in *.
  set (water_needed :=
         sub (Finite (final_amount (session_state w))) stock_needed) in *.
  assert (Hnan : is_nan stock_needed = false).
  { apply div_not_nan. simpl. apply round_not_nan. }
  exists stock_needed, water_needed.
  cut (exists w',
          calculate_final_dilution unit_ conc_unit w = Returned tt w'
          /\ (step2_completed (session_state w') = true
              <-> le stock_needed (Finite av) = true)
          /\ (gt stock_needed (Finite av) = true ->
              step2_completed (session_state w') = false
              /\ session_state w' = set_step2_completed false (session_state w)
              /\ page w'
                 = (page w ++
                    [StError [Lit "❌ Insufficient stock solution! Need ";
                              Fixed 2 stock_needed;
                              Lit (" " ++ unit_ ++ ", but only ");
                              Fixed 2 (Finite av);
                              Lit (" " ++ unit_ ++ " available.")]])%list
              /\ forall n, stock_needed = Finite n -> 0 < n - av)).
  { intros (w' & H). exists w'. split; [reflexivity|].
    split; [reflexivity|]. split; [exact Hd|exact H]. }
  unfold calculate_final_dilution, bind at 1, get_session_state.
  rewrite Hv. change (@truthy string []) with false. cbv iota zeta.
  unfold bind at 1. rewrite Hd.
  destruct (gt stock_needed (Finite av)) eqn:G.
  - eexists. split; [reflexivity|].
    cbn [session_state step2_completed set_step2_completed page]. split.
    + split; [discriminate|]. intros Hle.
      rewrite (gt_not_le _ _ G) in Hle. discriminate.
    + intros _. split; [reflexivity|]. split; [reflexivity|].
      split; [reflexivity|]. intros n En. rewrite En in G.
      apply gt_Finite in G. lra.
  - eexists. split; [reflexivity|].
    cbn [session_state step2_completed set_step2_completed page]. split.
    + split; [intros _|reflexivity].
      rewrite le_total, G by (exact Hnan || reflexivity). reflexivity.
    + intros H. discriminate.
Qed.

(** Scenario 5: 250 g at 0.1 % from 20 g of stock at 1 % need 25 g, which
    is 5 g more than there is.  And 100 g at 0.07 % from 7 g of stock at
    1 %: the quotient rounds to a number above 7, and the step is
    refused. *)
Lemma C6_insufficient_stock_reported_witness :
  (exists stock_needed water_needed w',
      dilution (stock_calculations
                  (session_state (stock_prepared 20 1 250 (rnd 0.1))))
        (Finite (rnd 0.1)) (Finite 250) (stock_prepared 20 1 250 (rnd 0.1))
      = Returned (stock_needed, water_needed, Finite 20)
          (stock_prepared 20 1 250 (rnd 0.1))
      /\ calculate_final_dilution "g" "% w/w"
           (stock_prepared 20 1 250 (rnd 0.1)) = Returned tt w'
      /\ same stock_needed (Finite 25) = true
      /\ step2_completed (session_state w') = false)
  /\ (exists stock_needed water_needed w',
      dilution (stock_calculations
                  (session_state (stock_prepared 7 1 100 (rnd 0.07))))
        (Finite (rnd 0.07)) (Finite 100) (stock_prepared 7 1 100 (rnd 0.07))
      = Returned (stock_needed, water_needed, Finite 7)
          (stock_prepared 7 1 100 (rnd 0.07))
      /\ calculate_final_dilution "g" "% w/w"
           (stock_prepared 7 1 100 (rnd 0.07)) = Returned tt w'
      /\ gt stock_needed (Finite 7) = true
      /\ step2_completed (session_state w') = false
      /\ same (Binary64.to_Float64 (fst (Binary64.dilution 1 0.07 100)))
           stock_needed = true).
Proof.
  split.
  - destruct (C6_insufficient_stock_reported "g" "% w/w" 1 20
                (stock_prepared 20 1 250 (rnd 0.1)))
      as (n & wn & w' & En & _ & Hd & Hrun & _ & Hins).
    + vm_compute. reflexivity.
    + vm_compute. reflexivity.
    + vm_compute. reflexivity.
    + discriminate.
    + exists n, wn, w'. split; [exact Hd|]. split; [exact Hrun|].
      split; [rewrite En; vm_compute; reflexivity|].
      apply Hins. rewrite En. vm_compute. reflexivity.
  - destruct (C6_insufficient_stock_reported "g" "% w/w" 1 7
                (stock_prepared 7 1 100 (rnd 0.07)))
      as (n & wn & w' & En & _ & Hd & Hrun & _ & Hins).
    + vm_compute. reflexivity.
    + vm_compute. reflexivity.
    + vm_compute. reflexivity.
    + discriminate.
    + assert (G : gt n (Finite 7) = true)
        by (rewrite En; vm_compute; reflexivity).
      exists n, wn, w'. split; [exact Hd|]. split; [exact Hrun|].
      split; [exact G|]. split; [apply Hins, G|].
      rewrite En. vm_compute. reflexivity.
Defined.

(** At the values of scenario 5 the difference
    [available_stock - stock_needed] is -5, not 5. *)
Lemma C6_shortfall_sign :
  exists stock_needed water_needed available_stock,
    dilution (stock_calculations
                (session_state (stock_prepared 20 1 250 (rnd 0.1))))
      (Finite (rnd 0.1)) (Finite 250) (stock_prepared 20 1 250 (rnd 0.1))
    = Returned (Finite stock_needed, water_needed, Finite available_stock)
        (stock_prepared 20 1 250 (rnd 0.1))
    /\ stock_needed == 25 /\ available_stock == 20
    /\ available_stock - stock_needed == -5
    /\ ~ available_stock - stock_needed == 5.
Proof.
  eexists _, _, _. split; [vm_compute; reflexivity|].
  split; [reflexivity|]. split; [reflexivity|]. split; [reflexivity|].
  discriminate.
Qed.

(** ** The solution calculator *)

Lemma float_calculate_solution_try_raises (amount concentration : float)
    (w : World) :
  le amount (Finite 0) = true \/ le concentration (Finite 0) = true ->
  calculate_solution_try amount concentration w
  = Raised (ValueError "Amount and concentration must be positive") w.
Proof.
  intros H. unfold calculate_solution_try.
  assert (E : le amount (Finite 0) || le concentration (Finite 0) = true)
    by (apply orb_true_iff; exact H).
  rewrite E. reflexivity.
Qed.

Lemma float_calculate_solution_try_returns (amount concentration : float)
    (w : World) :
  le amount (Finite 0) = false -> le concentration (Finite 0) = false ->
  calculate_solution_try amount concentration w
  = Returned (Rounded.App.calculate_solution amount concentration)
      {| session_state := session_state w;
         log := (log w ++
                 [(INFO,
                   [Lit "Calculated: ";
                    Fixed 2 (fst (Rounded.App.calculate_solution amount
                                    concentration));
                    Lit " solute, ";
                    Fixed 2 (snd (Rounded.App.calculate_solution amount
                                    concentration));
                    Lit " solvent"])])%list;
         page := page w |}.
Proof.
  intros Ha Hc. unfold calculate_solution_try. rewrite Ha, Hc. reflexivity.
Qed.

(** C7, as the code has it.  In the rewrite, when the amount or the
    concentration is not positive, the guard of [calculate_solution]
    raises (the invalid-input failure), the function catches it, logs it,
    reports it on the page and returns the zeroed pair instead of
    propagating; the session is not touched.  When both are positive it
    does not reject, whatever the concentration (100 % and above
    included): it returns the split that [calculate_solution] of [app.py]
    computes, and reports no error.  The function of [app.py] has no
    guard: it is the plain split for every input. *)
Theorem C7_invalid_input_zeroed (amount concentration : float) (w : World) :
  (le amount (Finite 0) = true \/ le concentration (Finite 0) = true ->
   calculate_solution_try amount concentration w
   = Raised (ValueError "Amount and concentration must be positive") w
   /\ exists w',
       calculate_solution amount concentration w
       = Returned (Finite 0, Finite 0) w'
       /\ session_state w' = session_state w
       /\ log w' = (log w ++
            [(ERROR, [Lit "Calculation error: Amount and concentration must be positive"])])%list
       /\ page w' = (page w ++
            [StError [Lit "Calculation error: Amount and concentration must be positive"]])%list)
  /\
  (gt amount (Finite 0) = true -> gt concentration (Finite 0) = true ->
   exists w',
     calculate_solution amount concentration w
     = Returned (Rounded.App.calculate_solution amount concentration) w'
     /\ session_state w' = session_state w
     /\ page w' = page w)
  /\
  Rounded.App.calculate_solution amount concentration
  = (mul amount (div concentration (Finite 100)),
     sub amount (mul amount (div concentration (Finite 100)))).
Proof.
  split; [|split; [|reflexivity]].
  - intros H. split; [now apply float_calculate_solution_try_raises|].
    unfold calculate_solution, try_except.
    rewrite (float_calculate_solution_try_raises _ _ w H).
    eexists. split; [reflexivity|]. repeat split.
  - intros Ha Hc. unfold calculate_solution, try_except.
    rewrite (float_calculate_solution_try_returns _ _ w
               (gt_not_le _ _ Ha) (gt_not_le _ _ Hc)).
    eexists. split; [reflexivity|]. split; reflexivity.
Qed.

(** A negative amount gives the zeroed pair; 150 % of 200 is not
    rejected. *)
Lemma C7_invalid_input_zeroed_witness :
  (exists w',
      calculate_solution (Finite (-5)) (Finite 1) (session 50 1 200 (rnd 0.1))
      = Returned (Finite 0, Finite 0) w')
  /\ (exists w',
      calculate_solution (Finite 200) (Finite 150) (session 50 1 200 (rnd 0.1))
      = Returned (Rounded.App.calculate_solution (Finite 200) (Finite 150)) w').
Proof.
  split.
  - destruct (proj1 (C7_invalid_input_zeroed (Finite (-5)) (Finite 1)
                       (session 50 1 200 (rnd 0.1))))
      as (_ & w' & H & _).
    + left. reflexivity.
    + exists w'. exact H.
  - destruct (proj1 (proj2 (C7_invalid_input_zeroed (Finite 200) (Finite 150)
                              (session 50 1 200 (rnd 0.1)))))
      as (w' & H & _).
    + reflexivity.
    + reflexivity.
    + exists w'. exact H.
Defined.

(** [calculate_solution] of [app.py] at -5 and 1 %: not the zeroed pair
    but a negative emulsion and a negative amount of water, -0.05 and
    -4.95.  The hardware floats give the same. *)
Lemma C7_app_has_no_guard :
  exists emulsion water,
    Rounded.App.calculate_solution (Finite (-5)) (Finite 1)
    = (Finite emulsion, Finite water)
    /\ emulsion < 0 /\ water < 0
    /\ same (Finite emulsion) (literal (-0.05)) = true
    /\ same (Finite water) (literal (-4.95)) = true
    /\ same (Binary64.to_Float64 (fst (Binary64.calculate_solution (-5) 1)))
         (Finite emulsion) = true
    /\ same (Binary64.to_Float64 (snd (Binary64.calculate_solution (-5) 1)))
         (Finite water) = true.
Proof.
  eexists _, _. split; [vm_compute; reflexivity|].
  repeat split; vm_compute; reflexivity.
Qed.

(** ** The dilution calculator and the two variants of step 2 *)

(** C1, on binary64.  In the rewrite, with a stock concentration above
    zero, a positive final amount and final concentration and a stock
    amount that is not negative, the dilution of step 2 returns
    [stock_needed = final_conc * final_amount / stock_conc] and
    [water_needed = final_amount - stock_needed], each operation rounded.
    From 200 g of stock at 1 %, 200 g at 0.1 % need 20 g of stock and 180 g
    of water, which the stock covers: the step is completed with these two
    values in the session.  Step 2 of [app.py] at the same values returns
    0.2 g of stock and 199.8 g of water. *)
Theorem C1_dilution_formula :
  (forall (d : gmap string value) (stock_conc final_amount final_conc
           available_stock : Q) (w : World),
      d !! "stock_conc" = Some (VFloat (Finite stock_conc)) ->
      d !! "stock_amount" = Some (VFloat (Finite available_stock)) ->
      0 < stock_conc -> 0 < final_amount -> 0 < final_conc ->
      0 <= available_stock ->
      exists stock_needed water_needed,
        dilution d (Finite final_conc) (Finite final_amount) w
        = Returned (stock_needed, water_needed, Finite available_stock) w
        /\ stock_needed
           = div (mul (Finite final_conc) (Finite final_amount))
               (Finite stock_conc)
        /\ water_needed = sub (Finite final_amount) stock_needed)
  /\
  (exists stock_needed water_needed,
      dilution_calculations
        (session_state (dilution_calculated 200 1 200 (rnd 0.1)))
        !! "stock_needed" = Some (VFloat (Finite stock_needed))
      /\ dilution_calculations
           (session_state (dilution_calculated 200 1 200 (rnd 0.1)))
           !! "water_needed" = Some (VFloat (Finite water_needed))
      /\ stock_needed == 20 /\ water_needed == 180
      /\ step2_completed
           (session_state (dilution_calculated 200 1 200 (rnd 0.1))) = true)
  /\
  (exists stock_needed water_needed,
      Rounded.App.step2 (Finite 200) (Finite (rnd 0.1))
      = ((Finite stock_needed, Finite water_needed), true)
      /\ same (Finite stock_needed) (literal 0.2) = true
      /\ same (Finite water_needed) (literal 199.8) = true
      /\ stock_needed < 20 /\ 180 < water_needed
      /\ same (Binary64.to_Float64
                 (fst (Binary64.calculate_solution 200 0.1)))
           (Finite stock_needed) = true
      /\ same (Binary64.to_Float64
                 (snd (Binary64.calculate_solution 200 0.1)))
           (Finite water_needed) = true).
Proof.
  split; [|split].
  - intros d sc fa fc av w Hsc Hav Hpos _ _ _.
    eexists _, _. split.
    + apply (float_dilution_returns d _ _ _ _ w Hsc Hav).
      apply is_zero_Finite. lra.
    + split; reflexivity.
  - eexists _, _. split; [vm_compute; reflexivity|].
    split; [vm_compute; reflexivity|].
    split; [reflexivity|]. split; [reflexivity|]. vm_compute. reflexivity.
  - eexists _, _. split; [vm_compute; reflexivity|].
    repeat split; vm_compute; reflexivity.
Qed.

(** The general formula at the values of scenario 2. *)
Lemma C1_dilution_formula_witness :
  exists stock_needed water_needed,
    dilution (stock_calculations
                (session_state (stock_prepared 200 1 200 (rnd 0.1))))
      (Finite (rnd 0.1)) (Finite 200) (session 200 1 200 (rnd 0.1))
    = Returned (stock_needed, water_needed, Finite 200)
        (session 200 1 200 (rnd 0.1))
    /\ same stock_needed (Finite 20) = true
    /\ same water_needed (Finite 180) = true.
Proof.
  destruct (proj1 C1_dilution_formula
              (stock_calculations
                 (session_state (stock_prepared 200 1 200 (rnd 0.1))))
              1 200 (rnd 0.1) 200 (session 200 1 200 (rnd 0.1)))
    as (n & wn & Hrun & Hn & Hwn).
  - vm_compute. reflexivity.
  - vm_compute. reflexivity.
  - reflexivity.
  - reflexivity.
  - vm_compute. reflexivity.
  - discriminate.
  - exists n, wn. split; [exact Hrun|]. split.
    + rewrite Hn. vm_compute. reflexivity.
    + rewrite Hwn, Hn. vm_compute. reflexivity.
Defined.

(** ** The split and its rounding *)

Lemma rnd_one : rnd 1 == 1.
Proof. vm_compute. reflexivity. Qed.

Lemma pow2_1024_gt_1 : 1 < pow2 1024.
Proof. rewrite <- pow2_0. apply pow2_lt. reflexivity. Qed.

Lemma pow2_53_small : 3 * pow2 (-53) <= 1e-9.
Proof. apply Qle_bool_iff. vm_compute. reflexivity. Qed.

(** A product or quotient in [0, a], for a binary64 number [a], rounds
    into [0, a] and stays finite. *)
Lemma round_below_float (a x : Q) :
  is_float a -> 0 <= x -> x <= a ->
  round x = Finite (rnd x) /\ 0 <= rnd x /\ rnd x <= a.
Proof.
  intros [Ea Ba] H0 Hx.
  pose proof (rnd_nonneg x H0) as Hr0.
  pose proof (rnd_mono x a H0 Hx) as Hra. rewrite Ea in Hra.
  split; [|split; assumption].
  apply round_finite. rewrite Qabs_pos by exact Hr0.
  rewrite Qabs_pos in Ba by lra. lra.
Qed.

Lemma is_float_1 : is_float 1.
Proof. split; [exact rnd_one|]. rewrite Qabs_pos by lra. exact pow2_1024_gt_1. Qed.

(** The split of a binary64 amount, with the bounds of its roundings. *)
Lemma float_calculate_solution_split (target_amount concentration : Q) (w : World) :
  is_float target_amount ->
  0 < target_amount -> 0 < concentration < 100 ->
  exists solute solvent w',
    calculate_solution (Finite target_amount) (Finite concentration) w
    = Returned (Finite solute, Finite solvent) w'
    /\ session_state w' = session_state w /\ page w' = page w
    /\ Rounded.App.calculate_solution (Finite target_amount)
         (Finite concentration)
       = (Finite solute, Finite solvent)
    /\ solute = rnd (target_amount * rnd (concentration / 100))
    /\ solvent = rnd (target_amount - solute)
    /\ 0 <= solute <= target_amount
    /\ 0 <= solvent <= target_amount
    /\ Qabs (solute + solvent - target_amount) <= 1e-9 * target_amount
    /\ Qabs (rnd (solute + solvent) - target_amount) <= 1e-9 * target_amount
    /\ (pow2 (-1022) <= concentration / 100 ->
        pow2 (-1022) <= target_amount * rnd (concentration / 100) ->
        Qabs (solute - target_amount * concentration / 100)
        <= 1e-9 * (target_amount * concentration / 100)).
Proof.
  intros Hfa Ha [Hc Hc100].
  set (q := concentration / 100).
  assert (Hq0 : 0 < q) by (apply Qlt_shift_div_l; lra).
  assert (Hq1 : q <= 1) by (apply Qle_shift_div_r; lra).
  destruct (round_below_float 1 q is_float_1) as (Rf & Hf0 & Hf1);
    [lra|exact Hq1|].
  set (f := rnd q) in *.
  assert (Hp0 : 0 <= target_amount * f)
    by (apply Qmult_le_0_compat; lra).
  assert (Hp1 : target_amount * f <= target_amount).
  { assert (0 <= target_amount * (1 - f))
      by (apply Qmult_le_0_compat; lra). lra. }
  destruct (round_below_float _ _ Hfa Hp0 Hp1) as (Rs & Hs0 & Hs1).
  set (s := rnd (target_amount * f)) in *.
  destruct (round_below_float target_amount (target_amount - s) Hfa)
    as (Rv & Hv0 & Hv1); [lra|lra|].
  set (v := rnd (target_amount - s)) in *.
  assert (Happ : Rounded.App.calculate_solution (Finite target_amount)
                   (Finite concentration) = (Finite s, Finite v)).
  { unfold Rounded.App.calculate_solution. cbn [div]. fold q. rewrite Rf.
    cbn [mul]. rewrite Rs. cbn [sub]. rewrite Rv. reflexivity. }
  exists s, v.
  assert (Hle1 : le (Finite target_amount) (Finite 0) = false).
  { simpl. destruct (Qle_bool target_amount 0) eqn:E; [|reflexivity].
    apply Qle_bool_iff in E. lra. }
  assert (Hle2 : le (Finite concentration) (Finite 0) = false).
  { simpl. destruct (Qle_bool concentration 0) eqn:E; [|reflexivity].
    apply Qle_bool_iff in E. lra. }
  eexists. split.
  { unfold calculate_solution, try_except.
    rewrite (float_calculate_solution_try_returns _ _ w Hle1 Hle2), Happ.
    reflexivity. }
  split; [reflexivity|]. split; [reflexivity|].
  split; [exact Happ|]. split; [reflexivity|]. split; [reflexivity|].
  split; [split; assumption|]. split; [split; assumption|].
  pose proof (pow2_pos (-53)) as Hp. pose proof pow2_53_small as Hsmall.
  assert (Hp1' : pow2 (-53) <= 1)
    by (apply Qle_bool_iff; vm_compute; reflexivity).
  set (p := pow2 (-53)) in *.
  assert (Gs : on_grid s) by apply rnd_on_grid.
  assert (Gv : on_grid v) by apply rnd_on_grid.
  assert (Ga : on_grid target_amount) by now apply is_float_on_grid.
  pose proof (rnd_error_grid (target_amount - s) (on_grid_sub _ _ Ga Gs))
    as Ev. fold v p in Ev.
  apply Qabs_Qle_condition in Ev; [|lra].
  assert (B1 : (target_amount - s) * p <= target_amount * p)
    by (apply Qmult_le_compat_r; lra).
  assert (B2 : 0 <= target_amount * (1e-9 - 3 * p))
    by (apply Qmult_le_0_compat; lra).
  assert (B3 : 0 <= target_amount * p)
    by (apply Qmult_le_0_compat; lra).
  split.
  { apply Qabs_Qle_condition. split; lra. }
  split.
  { pose proof (rnd_error_grid (s + v) (on_grid_add _ _ Gs Gv)) as Eu.
    fold p in Eu. apply Qabs_Qle_condition in Eu; [|lra].
    assert (B4 : (s + v) * p <= (2 * target_amount) * p)
      by (apply Qmult_le_compat_r; lra).
    apply Qabs_Qle_condition. split; lra. }
  intros N1 N2. fold q in N1. fold f in N2.
  pose proof (rnd_rel_error q N1) as Ef. fold f p in Ef.
  pose proof (rnd_rel_error _ N2) as Es. fold s p in Es.
  apply Qabs_Qle_condition in Ef. apply Qabs_Qle_condition in Es.
  assert (Et : target_amount * concentration / 100 == target_amount * q)
    by (unfold q; field).
  rewrite Et.
  assert (B5 : 0 <= target_amount * q) by (apply Qmult_le_0_compat; lra).
  assert (B6 : 0 <= q * p) by (apply Qmult_le_0_compat; lra).
  assert (B7 : target_amount * (f - q) <= target_amount * (q * p))
    by (apply Qmult_le_l; lra).
  assert (B8 : target_amount * (- (q * p)) <= target_amount * (f - q))
    by (apply Qmult_le_l; lra).
  assert (B9 : target_amount * f * p <= target_amount * (2 * q) * p).
  { apply Qmult_le_compat_r; [|lra]. apply Qmult_le_l; [lra|].
    assert (q * p <= q * 1) by (apply Qmult_le_l; lra). lra. }
  assert (B10 : 0 <= target_amount * q * (1e-9 - 3 * p))
    by (apply Qmult_le_0_compat; lra).
  apply Qabs_Qle_condition. split; lra.
Qed.

(** C2, as the code has it.  For a binary64 target amount above zero and
    a concentration strictly between 0 and 100 %, both variants of
    [calculate_solution] return the solute [target_amount * (concentration
    / 100)] and the solvent [target_amount - solute], each operation
    rounded to binary64.  Both lie between zero and the target amount, and
    they add up to the target amount within a relative tolerance of 1e-9,
    whether the sum is exact or rounded.  The solute is
    [target_amount * concentration / 100] within the same tolerance as long
    as no intermediate result is below 2^-1022; it is not always that
    number, as the example after the next shows. *)
Theorem C2_solution_split (target_amount concentration : Q) (w : World) :
  is_float target_amount ->
  0 < target_amount -> 0 < concentration < 100 ->
  exists solute solvent w',
    calculate_solution (Finite target_amount) (Finite concentration) w
    = Returned (Finite solute, Finite solvent) w'
    /\ session_state w' = session_state w /\ page w' = page w
    /\ Rounded.App.calculate_solution (Finite target_amount)
         (Finite concentration)
       = (Finite solute, Finite solvent)
    /\ solute = rnd (target_amount * rnd (concentration / 100))
    /\ solvent = rnd (target_amount - solute)
    /\ 0 <= solute <= target_amount
    /\ 0 <= solvent <= target_amount
    /\ Qabs (solute + solvent - target_amount) <= 1e-9 * target_amount
    /\ Qabs (rnd (solute + solvent) - target_amount) <= 1e-9 * target_amount
    /\ (pow2 (-1022) <= concentration / 100 ->
        pow2 (-1022) <= target_amount * rnd (concentration / 100) ->
        Qabs (solute - target_amount * concentration / 100)
        <= 1e-9 * (target_amount * concentration / 100)).
Proof. exact (float_calculate_solution_split target_amount concentration w). Qed.

(** Scenario 1: 200 g at 1 % are 2 g of emulsion and 198 g of water. *)
Lemma C2_solution_split_witness :
  exists solute solvent w',
    calculate_solution (Finite 200) (Finite 1) (session 200 1 200 (rnd 0.1))
    = Returned (Finite solute, Finite solvent) w'
    /\ Rounded.App.calculate_solution (Finite 200) (Finite 1)
       = (Finite solute, Finite solvent)
    /\ solute == 2 /\ solvent == 198.
Proof.
  destruct (C2_solution_split 200 1 (session 200 1 200 (rnd 0.1)))
    as (s & v & w' & Hrun & _ & _ & Happ & Es & Ev & _).
  - split; vm_compute; reflexivity.
  - reflexivity.
  - split; reflexivity.
  - exists s, v, w'. split; [exact Hrun|]. split; [exact Happ|].
    split; [rewrite Es|rewrite Ev, Es]; vm_compute; reflexivity.
Defined.

(** 70 g at 0.7 %: the solute returned is not [70 * 0.7 / 100], neither
    for the binary64 number 0.7 nor for the decimal (it is the binary64
    number below the one nearest 0.49), and solute and solvent do not add
    up to 70 exactly.  The hardware floats give the same. *)
Lemma C2_solute_is_rounded :
  exists solute solvent,
    is_float 70 /\ is_float (rnd 0.7)
    /\ Rounded.App.calculate_solution (Finite 70) (Finite (rnd 0.7))
       = (Finite solute, Finite solvent)
    /\ ~ solute == 70 * rnd 0.7 / 100
    /\ ~ solute == 70 * 0.7 / 100
    /\ same (Finite solute) (literal 0.49) = false
    /\ ~ solute + solvent == 70
    /\ same (Binary64.to_Float64 (fst (Binary64.calculate_solution 70 0.7)))
         (Finite solute) = true
    /\ same (Binary64.to_Float64 (snd (Binary64.calculate_solution 70 0.7)))
         (Finite solvent) = true.
Proof.
  eexists _, _.
  split; [split; vm_compute; reflexivity|].
  split; [split; vm_compute; reflexivity|].
  split; [vm_compute; reflexivity|].
  split; [intros H; apply Qeq_bool_iff in H; vm_compute in H; discriminate|].
  split; [intros H; apply Qeq_bool_iff in H; vm_compute in H; discriminate|].
  split; [vm_compute; reflexivity|].
  split; [intros H; apply Qeq_bool_iff in H; vm_compute in H; discriminate|].
  split; vm_compute; reflexivity.
Qed.

(** ** The two buttons on binary64 *)

(** What the validator has checked when it has no message for step 1. *)
Lemma float_validate_inputs_stock_nil (st : SessionState)
    (amount concentration : Q) :
  validate_inputs st amount concentration "Stock Solution" = [] ->
  0 < amount <= 10000 /\ 0 < concentration < 100.
Proof.
  unfold validate_inputs, Py.le, Py.ge, Py.gt, append.
  change ("Stock Solution" =? "Final Dilution")%string with false.
  cbv iota. cbn [List.app].
  destruct (Qle_bool amount 0) eqn:E1;
    destruct (Qle_bool concentration 0) eqn:E2;
    destruct (Qle_bool 100 concentration) eqn:E3;
    destruct (Qle_bool amount 10000) eqn:E4; simpl; try discriminate.
  intros _.
  apply Qle_bool_iff in E4.
  assert (H1 : ~ amount <= 0)
    by (intros H; apply Qle_bool_iff in H; congruence).
  assert (H2 : ~ concentration <= 0)
    by (intros H; apply Qle_bool_iff in H; congruence).
  assert (H3 : ~ 100 <= concentration)
    by (intros H; apply Qle_bool_iff in H; congruence).
  repeat split; lra.
Qed.

(** X14.  On binary64, when the validator has no message for the stock
    amount and concentration of the session, the button of step 1
    completes the step without an error, and what it stores is finite:
    the emulsion and the water lie between zero and the stock amount and
    add up to it within a relative tolerance of 1e-9.  The emulsion can be
    zero, as the second example below shows. *)
Theorem X14_stock_button_binary64 (unit_ conc_unit : string) (w : World)
    (c : Q) :
  stock_conc (session_state w) = Some c ->
  is_float (stock_amount (session_state w)) ->
  validate_inputs (session_state w) (stock_amount (session_state w)) c
    "Stock Solution" = [] ->
  exists emulsion water w',
    calculate_stock_solution unit_ conc_unit w = Returned tt w'
    /\ step1_completed (session_state w') = true
    /\ page w' = page w
    /\ stock_calculations (session_state w') !! "emulsion_needed"
       = Some (VFloat (Finite emulsion))
    /\ stock_calculations (session_state w') !! "water_needed"
       = Some (VFloat (Finite water))
    /\ stock_calculations (session_state w') !! "stock_amount"
       = Some (VFloat (Finite (stock_amount (session_state w))))
    /\ stock_calculations (session_state w') !! "stock_conc"
       = Some (VFloat (Finite c))
    /\ 0 <= emulsion <= stock_amount (session_state w)
    /\ 0 <= water <= stock_amount (session_state w)
    /\ Qabs (emulsion + water - stock_amount (session_state w))
       <= 1e-9 * stock_amount (session_state w).
Proof.
  intros Hc Hf Hv.
  destruct (float_validate_inputs_stock_nil _ _ _ Hv) as ([Ha0 _] & Hc0).
  destruct (float_calculate_solution_split _ c w Hf Ha0 Hc0)
    as (s & v & w1 & Hrun & Hs1 & Hp & _ & _ & _ & Hs & Hv' & Hsum & _).
  exists s, v.
  unfold calculate_stock_solution, bind at 1, get_session_state.
  unfold bind at 1, attr_stock_conc, bind at 1, get_session_state.
  rewrite Hc. unfold ret at 1. rewrite Hv.
  change (@truthy string []) with false. cbv iota.
  unfold bind at 1. rewrite Hrun.
  eexists. split; [reflexivity|].
  cbn [session_state step1_completed set_step1_completed
       set_stock_calculations stock_calculations page].
  split; [reflexivity|]. split; [exact Hp|].
  split; [vm_compute; reflexivity|]. split; [vm_compute; reflexivity|].
  split; [vm_compute; reflexivity|].
  split; [vm_compute; reflexivity|].
  split; [exact Hs|]. split; [exact Hv'|exact Hsum].
Qed.

(** 200 g at 1 %; and the smallest positive binary64 amount, 2^-1074, at
    1 %: the step is completed with no emulsion at all. *)
Lemma X14_stock_button_binary64_witness :
  (exists emulsion water w',
      calculate_stock_solution "g" "% w/w" (session 200 1 200 (rnd 0.1))
      = Returned tt w'
      /\ step1_completed (session_state w') = true
      /\ 0 <= emulsion <= 200 /\ 0 <= water <= 200
      /\ Qabs (emulsion + water - 200) <= 1e-9 * 200)
  /\ (exists emulsion water,
      step1_completed
        (session_state (stock_prepared (pow2 (-1074)) 1 200 (rnd 0.1))) = true
      /\ stock_calculations
           (session_state (stock_prepared (pow2 (-1074)) 1 200 (rnd 0.1)))
           !! "emulsion_needed" = Some (VFloat (Finite emulsion))
      /\ stock_calculations
           (session_state (stock_prepared (pow2 (-1074)) 1 200 (rnd 0.1)))
           !! "water_needed" = Some (VFloat (Finite water))
      /\ emulsion == 0 /\ water == pow2 (-1074)).
Proof.
  split.
  - destruct (X14_stock_button_binary64 "g" "% w/w"
                (session 200 1 200 (rnd 0.1)) 1)
      as (e & wt & w' & Hrun & E1 & _ & _ & _ & _ & _ & He & Hw & Hsum).
    + reflexivity.
    + split; vm_compute; reflexivity.
    + vm_compute. reflexivity.
    + exists e, wt, w'. split; [exact Hrun|]. split; [exact E1|].
      split; [exact He|]. split; [exact Hw|exact Hsum].
  - eexists _, _. split; [vm_compute; reflexivity|].
    split; [vm_compute; reflexivity|]. split; [vm_compute; reflexivity|].
    split; vm_compute; reflexivity.
Defined.


